(** * Kernel [.config] checker of the snapcraft kernel plugin

    A shallow embedding of [PluginImpl.check_new_config] and of the three
    methods it calls ([_do_parse_config], [_do_check_config],
    [_do_check_initrd]) from [x_kernel.py], together with the Python
    built-ins they rely on.

    Conventions of the embedding:
    - a Python [str] is a Rocq [string]; [str.isspace], [str.upper] and
      [repr] are embedded on the ASCII range, where they are what Python
      computes; beyond it Python knows more white space (U+0085, U+00A0)
      and more letters, so a statement that sends arbitrary text through
      them is made for ASCII text, with [Py.isascii] as its hypothesis;
    - a Python [list] of [str] is a mutable object: it lives in a heap and
      is passed around by address, so that aliasing and in-place
      [append] are visible;
    - [click.echo] appends one message to the console stream;
    - a Python exception is the [Raise] outcome of the monad [M]. *)

From Stdlib Require Import Ascii String.
From stdpp Require Import base option list strings gmap.

Local Open Scope stdpp_scope.

(** ** Python strings *)

Module Py.

Definition LF : ascii := "010"%char.
Definition CR : ascii := "013"%char.

(** [c] is an ASCII character: its code is below 128. *)
Definition isascii_char (c : ascii) : bool := nat_of_ascii c <? 128.

(** [s.isascii()] *)
Fixpoint isascii (s : string) : bool :=
  match s with
  | EmptyString => true
  | String c r => isascii_char c && isascii r
  end.

(** [str.isspace] on one ASCII character: TAB, LF, VT, FF, CR, the four
    separators FS, GS, RS, US, and the space. Python counts further
    characters beyond ASCII as white space; they are not covered here. *)
Definition isspace (c : ascii) : bool :=
  let n := nat_of_ascii c in
  ((9 <=? n) && (n <=? 13)) || ((28 <=? n) && (n <=? 32)).

(** [str.upper] on one ASCII character. Python also maps letters beyond
    ASCII; they are not covered here. *)
Definition upper_char (c : ascii) : ascii :=
  let n := nat_of_ascii c in
  if (97 <=? n) && (n <=? 122) then ascii_of_nat (n - 32) else c.

(** [s.upper()] *)
Fixpoint upper (s : string) : string :=
  match s with
  | EmptyString => EmptyString
  | String c r => String (upper_char c) (upper r)
  end.

(** [s.lstrip()] *)
Fixpoint lstrip (s : string) : string :=
  match s with
  | EmptyString => EmptyString
  | String c r => if isspace c then lstrip r else s
  end.

(** [s.rstrip()] *)
Fixpoint rstrip (s : string) : string :=
  match s with
  | EmptyString => EmptyString
  | String c r =>
      match rstrip r with
      | EmptyString => if isspace c then EmptyString else String c EmptyString
      | r' => String c r'
      end
  end.

(** [s.strip()] *)
Definition strip (s : string) : string := rstrip (lstrip s).

(** [s.split(sep)] for a separator of one character: as many tokens as
    there are separators, plus one; tokens may be empty. *)
Fixpoint split (sep : ascii) (s : string) : list string :=
  match s with
  | EmptyString => [EmptyString]
  | String c r =>
      if Ascii.eqb c sep then EmptyString :: split sep r
      else match split sep r with
           | t :: ts => String c t :: ts
           | [] => [String c EmptyString]
           end
  end.

(** [s.count(c)] for one character. *)
Fixpoint count (c : ascii) (s : string) : nat :=
  match s with
  | EmptyString => 0
  | String c' r => (if Ascii.eqb c' c then 1 else 0) + count c r
  end.

(** The concatenation of the strings of [l] (what [join] with an empty
    separator gives). *)
Definition join (l : list string) : string := String.concat EmptyString l.

(** [x in l] for a list of strings. *)
Definition contains (l : list string) (x : string) : bool :=
  existsb (String.eqb x) l.

(** Newline translation of a text file opened with the default
    [newline=None]: CR LF and a lone CR both read as LF. *)
Fixpoint universal_newlines (s : string) : string :=
  match s with
  | EmptyString => EmptyString
  | String c r =>
      if Ascii.eqb c CR then
        match r with
        | String c' r' =>
            if Ascii.eqb c' LF then String LF (universal_newlines r')
            else String LF (universal_newlines r)
        | EmptyString => String LF EmptyString
        end
      else String c (universal_newlines r)
  end.

(** The lines a file iterator yields: each keeps its terminating LF; a
    last line without terminator is yielded as it is. *)
Fixpoint lines (s : string) : list string :=
  match s with
  | EmptyString => []
  | String c r =>
      if Ascii.eqb c LF then String c EmptyString :: lines r
      else match lines r with
           | [] => [String c EmptyString]
           | l :: ls => String c l :: ls
           end
  end.

End Py.

(** ** The world the plugin runs in *)

(** Address of a list object. *)
Definition loc := nat.

(** The ways [open] fails; all are subclasses of [OSError]. *)
Inductive OSError := FileNotFoundError | PermissionError | IsADirectoryError.

(** Exceptions. [BadAddress] has no Python counterpart (a Python reference
    is always live): the model raises it when an address holds no list. *)
Inductive exn :=
| IOError (e : OSError)
| BadAddress (l : loc).

(** [heap]: the list objects, by address; [stdout]: the messages echoed so
    far, oldest first; [fs]: for each path, the text [open] gives (already
    decoded), or the error it raises. *)
Record world := World {
  heap : list (list string);
  stdout : list string;
  fs : string → OSError + string
}.

Inductive result (A : Type) :=
| Ok (a : A)
| Raise (e : exn).
Arguments Ok {A} a.
Arguments Raise {A} e.

(** Computations: state passing over the world, with exceptions. *)
Definition M (A : Type) : Type := world → result A * world.

#[global] Instance M_ret : MRet M := fun A (a : A) w => (Ok a, w).

#[global] Instance M_bind : MBind M := fun A B (k : A → M B) (m : M A) w =>
  match m w with
  | (Ok a, w') => k a w'
  | (Raise e, w') => (Raise e, w')
  end.

(** [for x in xs: body] *)
Fixpoint for_each {A} (xs : list A) (body : A → M unit) : M unit :=
  match xs with
  | [] => mret tt
  | x :: xs' => body x;; for_each xs' body
  end.

(** [[]]: a new empty list. *)
Definition new_list : M loc :=
  fun w => (Ok (length (heap w)),
            World (heap w ++ [[]]) (stdout w) (fs w)).

(** The elements of the list at [l]. *)
Definition list_get (l : loc) : M (list string) :=
  fun w => match heap w !! l with
           | Some xs => (Ok xs, w)
           | None => (Raise (BadAddress l), w)
           end.

(** [l.append(x)] *)
Definition list_append (l : loc) (x : string) : M unit :=
  fun w => match heap w !! l with
           | Some xs => (Ok tt, World (<[l := xs ++ [x]]> (heap w)) (stdout w) (fs w))
           | None => (Raise (BadAddress l), w)
           end.

(** [x in l] *)
Definition list_in (x : string) (l : loc) : M bool :=
  xs ← list_get l; mret (Py.contains xs x).

(** [click.echo(s)] *)
Definition echo (s : string) : M unit :=
  fun w => (Ok tt, World (heap w) (stdout w ++ [s]) (fs w)).

(** [with open(path, encoding="utf8") as f: for line in f: ...]: the lines
    of the file, or the error of [open]. *)
Definition open_lines (path : string) : M (list string) :=
  fun w => match fs w path with
           | inr text => (Ok (Py.lines (Py.universal_newlines text)), w)
           | inl e => (Raise (IOError e), w)
           end.

(** ** The requirement groups *)

Definition required_generic : list string :=
  [ "DEVTMPFS"; "DEVTMPFS_MOUNT"; "TMPFS_POSIX_ACL"; "IPV6"; "SYSVIPC";
    "SYSVIPC_SYSCTL"; "VFAT_FS"; "NLS_CODEPAGE_437"; "NLS_ISO8859_1" ].

Definition required_security : list string :=
  [ "SECURITY"; "SECURITY_APPARMOR"; "SYN_COOKIES"; "STRICT_DEVMEM";
    "DEFAULT_SECURITY_APPARMOR"; "SECCOMP"; "SECCOMP_FILTER";
    "CC_STACKPROTECTOR"; "CC_STACKPROTECTOR_STRONG"; "DEBUG_RODATA";
    "DEBUG_SET_MODULE_RONX" ].

Definition required_snappy : list string :=
  [ "RD_LZMA"; "KEYS"; "ENCRYPTED_KEYS"; "SQUASHFS"; "SQUASHFS_XATTR";
    "SQUASHFS_XZ"; "DEVPTS_MULTIPLE_INSTANCES" ].

Definition required_systemd : list string :=
  [ "DEVTMPFS"; "CGROUPS"; "INOTIFY_USER"; "SIGNALFD"; "TIMERFD"; "EPOLL";
    "NET"; "SYSFS"; "PROC_FS"; "FHANDLE"; "BLK_DEV_BSG"; "NET_NS"; "IPV6";
    "AUTOFS4_FS"; "TMPFS_POSIX_ACL"; "TMPFS_XATTR"; "SECCOMP" ].

Definition required_boot : list string := [ "squashfs" ].

(** ** The plugin *)

(** The one option the checker reads: the address of the list
    [self.options.kernel_initrd_modules]. *)
Record options := Options { kernel_initrd_modules : loc }.

Record PluginImpl := Plugin { opts : options }.

Definition NL : string := String Py.LF EmptyString.

(** The body of the loop of [_do_parse_config], for one line. Under
    [items == 2] the indices 0 and 1 are in range, so [tok[0]] and [tok[1]]
    never raise and the default of the lookups is never used. *)
Definition parse_line (builtin modules : loc) (line : string) : M unit :=
  let tok := Py.split "="%char (Py.strip line) in
  let items := length tok in
  if Nat.eqb items 2 then
    let opt := Py.upper (default EmptyString (tok !! 0)) in
    let val := Py.upper (default EmptyString (tok !! 1)) in
    if String.eqb val "Y" then list_append builtin opt
    else if String.eqb val "M" then list_append modules opt
    else mret tt
  else mret tt.

Definition _do_parse_config (self : PluginImpl) (config_path : string)
  : M (loc * loc) :=
  builtin ← new_list;
  modules ← new_list;
  f ← open_lines config_path;
  for_each f (parse_line builtin modules);;
  mret (builtin, modules).

Definition config_msg : string :=
  "**** WARNING **** WARNING **** WARNING **** WARNING ****" +:+ NL +:+
  "Your kernel config is missing some features that Ubuntu Core " +:+
  "recommends or requires." +:+ NL +:+
  "While we will not prevent you from building this kernel snap, " +:+
  "we suggest you take a look at these:" +:+ NL.

(** The note of one missing option in the completeness warning. *)
Definition config_note (opt : string) : string :=
  if String.eqb opt "CONFIG_CC_STACKPROTECTOR_STRONG"
  then "(4.1.x and later versions only)"
  else if String.eqb opt "CONFIG_DEVPTS_MULTIPLE_INSTANCES"
  then "(4.8.x and earlier versions only)"
  else EmptyString.

(** The text built under [if missing:] in [_do_check_config]. *)
Definition config_warning (missing : list string) : string :=
  let msg := config_msg in
  let warn := NL +:+ msg +:+ NL in
  fold_left (fun warn opt =>
               let note := config_note opt in
               warn +:+ (opt +:+ " " +:+ note +:+ NL)) missing warn.

Definition _do_check_config (self : PluginImpl) (builtin modules : loc)
  : M unit :=
  let required_opts :=
    required_generic ++ required_security ++ required_snappy ++ required_systemd in
  missing ← new_list;
  for_each required_opts (fun code =>
    let opt := "CONFIG_" +:+ code in
    inb ← list_in opt builtin;
    if inb : bool then mret tt else
    inm ← list_in opt modules;
    if inm : bool then mret tt else
    list_append missing opt);;
  ms ← list_get missing;
  match ms with
  | [] => mret tt
  | _ => echo (config_warning ms)
  end.

Definition initrd_msg : string :=
  "**** WARNING **** WARNING **** WARNING **** WARNING ****" +:+ NL +:+
  "The following features are deemed boot essential for" +:+ NL +:+
  "ubuntu core, consider making them static[=Y] or adding" +:+ NL +:+
  "the corresponding module to initrd:" +:+ NL.

(** The text built under [if missing:] in [_do_check_initrd]. *)
Definition initrd_warning (missing : list string) : string :=
  let msg := initrd_msg in
  let warn := NL +:+ msg +:+ NL in
  fold_left (fun warn opt => warn +:+ (opt +:+ NL)) missing warn.

Definition _do_check_initrd (self : PluginImpl) (builtin modules : loc)
  : M unit :=
  missing ← new_list;
  for_each required_boot (fun code =>
    let opt := "CONFIG_" +:+ Py.upper code in
    inb ← list_in opt builtin;
    if inb : bool then mret tt else
    inm ← list_in opt modules;
    ini ← (if inm : bool
           then list_in code (kernel_initrd_modules (opts self))
           else mret false);
    if ini : bool then mret tt else
    list_append missing opt);;
  ms ← list_get missing;
  match ms with
  | [] => mret tt
  | _ => echo (initrd_warning ms)
  end.

Definition check_new_config (self : PluginImpl) (config_path : string)
  : M unit :=
  echo "Checking created config...";;
  '(builtin, modules) ← _do_parse_config self config_path;
  _do_check_config self builtin modules;;
  _do_check_initrd self builtin modules.

(** ** Vocabulary of the statements *)

(** The concatenation [_do_check_config] iterates over. *)
Definition required_opts : list string :=
  required_generic ++ required_security ++ required_snappy ++ required_systemd.

(** [f"CONFIG_{code}"] *)
Definition config_key (code : string) : string := "CONFIG_" +:+ code.

(** The key a line contributes to the collection of value [v] ("Y" or
    "M"), if any. *)
Definition line_key (v : string) (line : string) : option string :=
  match Py.split "="%char (Py.strip line) with
  | [l; r] => if String.eqb (Py.upper r) v then Some (Py.upper l) else None
  | _ => None
  end.

(** The lines of a file text, as the file iterator yields them. *)
Definition file_lines (text : string) : list string :=
  Py.lines (Py.universal_newlines text).

(** The required keys found in neither collection, in declaration order. *)
Definition config_missing (bl ml : list string) : list string :=
  filter (λ opt, ¬ (opt ∈ bl ∨ opt ∈ ml)) (config_key <$> required_opts).

(** A boot-essential code is satisfied: built in, or a module that the
    initrd bundles. *)
Definition boot_satisfied (bl ml kl : list string) (code : string) : Prop :=
  config_key (Py.upper code) ∈ bl ∨ (config_key (Py.upper code) ∈ ml ∧ code ∈ kl).

#[global] Instance boot_satisfied_dec bl ml kl code :
  Decision (boot_satisfied bl ml kl code).
Proof. unfold boot_satisfied. apply _. Defined.

Definition initrd_missing (bl ml kl : list string) : list string :=
  (λ code, config_key (Py.upper code))
    <$> filter (λ code, ¬ boot_satisfied bl ml kl code) required_boot.

(** What [echo]ing the warning built from [ms] adds to the console: nothing
    when [ms] is empty. *)
Definition warned (render : list string → string) (ms : list string)
  : list string :=
  match ms with [] => [] | _ => [render ms] end.

(** ** More Python built-ins, for the build plugin *)

Module PyLib.

(** [s.startswith(p)] *)
Definition startswith (s p : string) : bool := String.prefix p s.

(** [s.endswith(p)] for one character. *)
Fixpoint endswith_char (s : string) (c : ascii) : bool :=
  match s with
  | EmptyString => false
  | String c' EmptyString => Ascii.eqb c' c
  | String _ r => endswith_char r c
  end.

(** [sep.join(l)] *)
Definition join_with (sep : string) (l : list string) : string := String.concat sep l.

(** [s.rfind(c)] for one character: the index of its last occurrence, or
    -1 when there is none. *)
Fixpoint rfind (c : ascii) (s : string) : Z :=
  match s with
  | EmptyString => (-1)%Z
  | String c' r =>
      let i := rfind c r in
      if (0 <=? i)%Z then (i + 1)%Z
      else if Ascii.eqb c' c then 0%Z else (-1)%Z
  end.

(** [s[n:]] for a natural number [n]. *)
Fixpoint drop (n : nat) (s : string) : string :=
  match n, s with
  | O, _ => s
  | S _, EmptyString => EmptyString
  | S n', String _ r => drop n' r
  end.

(** [s[k:]]: a negative [k] counts from the end, and the start is clamped
    to the string. *)
Definition slice_from (k : Z) (s : string) : string :=
  let n := Z.of_nat (String.length s) in
  let start := if (k <? 0)%Z then Z.max (n + k) 0 else Z.min k n in
  drop (Z.to_nat start) s.

(** [os.path.join(a, b)] on POSIX. *)
Definition path_join (a b : string) : string :=
  if startswith b "/" then b
  else if String.eqb a EmptyString || endswith_char a "/"%char then a +:+ b
  else a +:+ "/" +:+ b.

(** [re.sub(r"-I[\S]*", EMPTY, s)]: every match, found left to right, of
    [-I] followed by the longest run of characters that are not white
    space is deleted. The flag says that the scan is inside a match. *)
Fixpoint sub_include (inside : bool) (s : string) : string :=
  match s with
  | EmptyString => EmptyString
  | String c r =>
      if inside then
        if Py.isspace c then String c (sub_include false r)
        else sub_include true r
      else if Ascii.eqb c "-"%char then
        match r with
        | String c' r' =>
            if Ascii.eqb c' "I"%char then sub_include true r'
            else String c (sub_include false r)
        | EmptyString => String c EmptyString
        end
      else String c (sub_include false r)
  end.

Definition hex_digit (n : nat) : ascii :=
  if n <? 10 then ascii_of_nat (48 + n) else ascii_of_nat (87 + n).

(** One ASCII character inside [repr(s)], for the quote character [q].
    Python also escapes the characters beyond ASCII that do not print;
    they are not covered here. *)
Definition repr_char (q c : ascii) : string :=
  let n := nat_of_ascii c in
  if Ascii.eqb c "\"%char then "\\"
  else if Ascii.eqb c q then String "\"%char (String q EmptyString)
  else if n =? 9 then "\t"
  else if n =? 10 then "\n"
  else if n =? 13 then "\r"
  else if (n <? 32) || (n =? 127) then
    String "\"%char (String "x"%char
      (String (hex_digit (n / 16)) (String (hex_digit (n mod 16)) EmptyString)))
  else String c EmptyString.

Fixpoint has_char (c : ascii) (s : string) : bool :=
  match s with
  | EmptyString => false
  | String c' r => Ascii.eqb c' c || has_char c r
  end.

Fixpoint repr_body (q : ascii) (s : string) : string :=
  match s with
  | EmptyString => EmptyString
  | String c r => repr_char q c +:+ repr_body q r
  end.

(** [repr(s)] of an ASCII string: single quotes, unless the string holds a
    single quote and no double quote. *)
Definition repr (s : string) : string :=
  let q := if has_char "039"%char s && negb (has_char "034"%char s)
           then "034"%char else "039"%char in
  String q (repr_body q s) +:+ String q EmptyString.

(** [f"{v}"] for a value that is a string or [None]. *)
Definition fmt (v : option string) : string :=
  match v with Some s => s | None => "None" end.

End PyLib.

(** ** The build plugin: options, attributes, state *)

Module Opt.

(** The value of [kernel-image-target]: a string, or an object that maps
    a Debian architecture to a target. *)
Inductive image_target :=
| TargetStr (s : string)
| TargetDict (d : gmap string string).

(** [self.options], as far as the methods below read it. [kconfigfile]
    defaults to [None]. *)
Record t := Make {
  kdefconfig : list string;
  kconfigfile : option string;
  kconfigflavour : string;
  kconfigs : list string;
  kernel_image_target : image_target;
  kernel_with_firmware : bool;
  kernel_device_trees : list string;
  kernel_initrd_compression : string;
  kernel_initrd_compression_options : list string;
  kernel_initrd_channel : string;
  kernel_initrd_base_url : string;
  kernel_initrd_flavour : string;
  kernel_build_efi_image : bool;
  kernel_compiler : string;
  kernel_compiler_paths : list string;
  kernel_compiler_parameters : list string;
  kernel_enable_zfs_support : bool
}.

End Opt.

Module Build.

(** Truth value of a string, of an optional string, of a list. *)
Definition truthy (s : string) : bool := negb (String.eqb s EmptyString).

Definition truthy_opt (v : option string) : bool :=
  match v with Some s => truthy s | None => false end.

Definition nonempty {A} (l : list A) : bool :=
  match l with [] => false | _ => true end.

Definition truthy_target (v : Opt.image_target) : bool :=
  match v with
  | Opt.TargetStr s => truthy s
  | Opt.TargetDict d => negb (bool_decide (d = ∅))
  end.

(** The attributes the methods set on [self]; [None] is an attribute not
    set yet. An inner [option] is a value that may be Python's [None];
    [make_cmd] is the address of a list that several methods append to. *)
Record attrs := Attrs {
  target_arch : option (option string);
  deb_arch : option string;
  kernel_arch : option string;
  make_cmd : option loc;
  kernel_image_target : option string;
  make_targets : option (list string);
  make_install_targets : option (list string);
  dtbs : option (list string);
  initrd_arch : option (option string);
  uc_series : option string;
  initrd_snap_url : option (option string);
  vanilla_initrd_snap : option string
}.

(** [self.x = v], one definition per attribute. *)
Definition set_target_arch (v : option string) (a : attrs) : attrs :=
  Attrs (Some v) (deb_arch a) (kernel_arch a) (make_cmd a)
       (kernel_image_target a) (make_targets a) (make_install_targets a)
       (dtbs a) (initrd_arch a) (uc_series a) (initrd_snap_url a)
       (vanilla_initrd_snap a).

Definition set_deb_arch (v : string) (a : attrs) : attrs :=
  Attrs (target_arch a) (Some v) (kernel_arch a) (make_cmd a)
       (kernel_image_target a) (make_targets a) (make_install_targets a)
       (dtbs a) (initrd_arch a) (uc_series a) (initrd_snap_url a)
       (vanilla_initrd_snap a).

Definition set_kernel_arch (v : string) (a : attrs) : attrs :=
  Attrs (target_arch a) (deb_arch a) (Some v) (make_cmd a)
       (kernel_image_target a) (make_targets a) (make_install_targets a)
       (dtbs a) (initrd_arch a) (uc_series a) (initrd_snap_url a)
       (vanilla_initrd_snap a).

Definition set_make_cmd (v : loc) (a : attrs) : attrs :=
  Attrs (target_arch a) (deb_arch a) (kernel_arch a) (Some v)
       (kernel_image_target a) (make_targets a) (make_install_targets a)
       (dtbs a) (initrd_arch a) (uc_series a) (initrd_snap_url a)
       (vanilla_initrd_snap a).

Definition set_kernel_image_target (v : string) (a : attrs) : attrs :=
  Attrs (target_arch a) (deb_arch a) (kernel_arch a) (make_cmd a) (Some v)
       (make_targets a) (make_install_targets a) (dtbs a) (initrd_arch a)
       (uc_series a) (initrd_snap_url a) (vanilla_initrd_snap a).

Definition set_make_targets (v : list string) (a : attrs) : attrs :=
  Attrs (target_arch a) (deb_arch a) (kernel_arch a) (make_cmd a)
       (kernel_image_target a) (Some v) (make_install_targets a) (dtbs a)
       (initrd_arch a) (uc_series a) (initrd_snap_url a)
       (vanilla_initrd_snap a).

Definition set_make_install_targets (v : list string) (a : attrs) : attrs :=
  Attrs (target_arch a) (deb_arch a) (kernel_arch a) (make_cmd a)
       (kernel_image_target a) (make_targets a) (Some v) (dtbs a)
       (initrd_arch a) (uc_series a) (initrd_snap_url a)
       (vanilla_initrd_snap a).

Definition set_dtbs (v : list string) (a : attrs) : attrs :=
  Attrs (target_arch a) (deb_arch a) (kernel_arch a) (make_cmd a)
       (kernel_image_target a) (make_targets a) (make_install_targets a)
       (Some v) (initrd_arch a) (uc_series a) (initrd_snap_url a)
       (vanilla_initrd_snap a).

Definition set_initrd_arch (v : option string) (a : attrs) : attrs :=
  Attrs (target_arch a) (deb_arch a) (kernel_arch a) (make_cmd a)
       (kernel_image_target a) (make_targets a) (make_install_targets a)
       (dtbs a) (Some v) (uc_series a) (initrd_snap_url a)
       (vanilla_initrd_snap a).

Definition set_uc_series (v : string) (a : attrs) : attrs :=
  Attrs (target_arch a) (deb_arch a) (kernel_arch a) (make_cmd a)
       (kernel_image_target a) (make_targets a) (make_install_targets a)
       (dtbs a) (initrd_arch a) (Some v) (initrd_snap_url a)
       (vanilla_initrd_snap a).

Definition set_initrd_snap_url (v : option string) (a : attrs) : attrs :=
  Attrs (target_arch a) (deb_arch a) (kernel_arch a) (make_cmd a)
       (kernel_image_target a) (make_targets a) (make_install_targets a)
       (dtbs a) (initrd_arch a) (uc_series a) (Some v)
       (vanilla_initrd_snap a).

Definition set_vanilla_initrd_snap (v : string) (a : attrs) : attrs :=
  Attrs (target_arch a) (deb_arch a) (kernel_arch a) (make_cmd a)
       (kernel_image_target a) (make_targets a) (make_install_targets a)
       (dtbs a) (initrd_arch a) (uc_series a) (initrd_snap_url a) (Some v).

(** A plugin just made: no attribute set. *)
Definition no_attrs : attrs :=
  Attrs None None None None None None None None None None None None.

Inductive pyerr :=
| AttributeError (name : string)
| KeyError (key : string)
| IndexError
| UnboundLocalError (name : string)
| NoObject (l : loc).

(** [self_attrs]: the attributes of the plugin; [objects]: the list objects
    held by address; [console]: what [click.echo] printed, oldest first;
    [sys_argv], [os_environ]: the command line and the environment;
    [project_deb_arch]: what [ProjectOptions().deb_arch] gives. *)
Record state := State {
  self_attrs : attrs;
  objects : list (list string);
  console : list string;
  sys_argv : list string;
  os_environ : gmap string string;
  project_deb_arch : string
}.

Inductive outcome (A : Type) :=
| Done (a : A)
| Fail (e : pyerr).
Arguments Done {A} a.
Arguments Fail {A} e.

Definition B (A : Type) : Type := state → outcome A * state.

#[global] Instance B_ret : MRet B := fun A (a : A) s => (Done a, s).

#[global] Instance B_bind : MBind B := fun A C (k : A → B C) (m : B A) s =>
  match m s with
  | (Done a, s') => k a s'
  | (Fail e, s') => (Fail e, s')
  end.

Definition raise {A} (e : pyerr) : B A := fun s => (Fail e, s).

(** [for x in xs: body] *)
Fixpoint for_in {A} (xs : list A) (body : A → B unit) : B unit :=
  match xs with
  | [] => mret tt
  | x :: xs' => body x;; for_in xs' body
  end.

(** [for x in xs: body], the body rebinding a local variable. *)
Fixpoint for_local {A L} (xs : list A) (v : L) (body : A → L → B L) : B L :=
  match xs with
  | [] => mret v
  | x :: xs' => v' ← body x v; for_local xs' v' body
  end.

(** [click.echo(s)] *)
Definition click_echo (s : string) : B unit :=
  fun s0 => (Done tt,
             State (self_attrs s0) (objects s0) (console s0 ++ [s])
                   (sys_argv s0) (os_environ s0) (project_deb_arch s0)).

(** [self.name], for the attribute read by [proj]. *)
Definition getattr {A} (name : string) (proj : attrs → option A) : B A :=
  fun s => match proj (self_attrs s) with
           | Some v => (Done v, s)
           | None => (Fail (AttributeError name), s)
           end.

(** [self.name = v], for the setter [upd] applied to [v]. *)
Definition setattr (upd : attrs → attrs) : B unit :=
  fun s => (Done tt,
            State (upd (self_attrs s)) (objects s) (console s)
                  (sys_argv s) (os_environ s) (project_deb_arch s)).

Definition set_objects (h : list (list string)) (s : state) : state :=
  State (self_attrs s) h (console s) (sys_argv s) (os_environ s)
        (project_deb_arch s).

(** A list display [[x; ...]]: a new list object. *)
Definition obj_new (xs : list string) : B loc :=
  fun s => (Done (length (objects s)), set_objects (objects s ++ [xs]) s).

(** The elements of the list at [l]. *)
Definition obj_read (l : loc) : B (list string) :=
  fun s => match objects s !! l with
           | Some xs => (Done xs, s)
           | None => (Fail (NoObject l), s)
           end.

(** [l.append(x)] *)
Definition obj_append (l : loc) (x : string) : B unit :=
  fun s => match objects s !! l with
           | Some xs => (Done tt, set_objects (<[l := xs ++ [x]]> (objects s)) s)
           | None => (Fail (NoObject l), s)
           end.

(** [l.copy()] *)
Definition obj_copy (l : loc) : B loc :=
  xs ← obj_read l; obj_new xs.

(** [l[i] = x] for a natural number [i]. *)
Definition obj_setitem (l : loc) (i : nat) (x : string) : B unit :=
  fun s => match objects s !! l with
           | Some xs =>
               if decide (i < length xs)
               then (Done tt, set_objects (<[l := <[i := x]> xs]> (objects s)) s)
               else (Fail IndexError, s)
           | None => (Fail (NoObject l), s)
           end.

(** [d[k]] *)
Definition dict_item (d : gmap string string) (k : string) : B string :=
  match d !! k with
  | Some v => mret v
  | None => raise (KeyError k)
  end.

(** [l[i]] *)
Definition list_item (l : list string) (i : nat) : B string :=
  match l !! i with
  | Some v => mret v
  | None => raise IndexError
  end.

Definition get_argv : B (list string) := fun s => (Done (sys_argv s), s).

(** [os.environ] *)
Definition get_environ : B (gmap string string) :=
  fun s => (Done (os_environ s), s).

(** [os.getenv(k)] *)
Definition getenv (k : string) : B (option string) :=
  fun s => (Done (os_environ s !! k), s).

(** [ProjectOptions().deb_arch] *)
Definition ProjectOptions_deb_arch : B string :=
  fun s => (Done (project_deb_arch s), s).

(** ** The tables *)

Definition _compression_command : gmap string string :=
  list_to_map [("gz", "gzip"); ("lz4", "lz4"); ("xz", "xz")].

Definition _compressor_options : gmap string string :=
  list_to_map [("gz", "-7"); ("lz4", "-l -9"); ("xz", "-7")].

Definition _INITRD_SNAP_NAME : string := "uc-initrd".

Definition _ZFS_URL : string := "https://github.com/openzfs/zfs".

Definition default_kernel_image_target : gmap string string :=
  list_to_map
    [("amd64", "bzImage"); ("i386", "bzImage"); ("armhf", "zImage");
     ("arm64", "Image.gz"); ("powerpc", "uImage"); ("ppc64el", "vmlinux.strip");
     ("s390x", "bzImage"); ("riscv64", "Image")].

(** [_INITRD_SNAP_FILE.format(snap_name=.., series=.., flavour=..,
    architecture=..)] *)
Definition _INITRD_SNAP_FILE (snap_name series flavour architecture : string)
  : string :=
  snap_name +:+ "_" +:+ series +:+ flavour +:+ "_" +:+ architecture +:+ ".snap".

(** [_INITRD_URL.format(base_url=.., snap_name=..)] *)
Definition _INITRD_URL (base_url snap_name : string) : string :=
  base_url +:+ "/" +:+ snap_name.

(** ** The methods *)

Definition _get_target_architecture (self : Opt.t) : B unit :=
  setattr (set_target_arch None);;
  argv ← get_argv;
  for_in argv (fun arg =>
    if PyLib.startswith arg "--target-arch="
    then v ← list_item (Py.split "="%char arg) 1;
         setattr (set_target_arch (Some v))
    else mret tt);;
  t ← getattr "target_arch" target_arch;
  match t with
  | None => d ← ProjectOptions_deb_arch; setattr (set_target_arch (Some d))
  | Some _ => mret tt
  end;;
  t ← getattr "target_arch" target_arch;
  click_echo ("Target architecture: " +:+ PyLib.fmt t).

Definition _get_kernel_architecture (self : Opt.t) : B unit :=
  t ← getattr "target_arch" target_arch;
  if decide (t = Some "armhf") then setattr (set_kernel_arch "arm")
  else if decide (t = Some "arm64") then setattr (set_kernel_arch "arm64")
  else if decide (t = Some "riscv64") then setattr (set_kernel_arch "riscv")
  else if decide (t = Some "amd64") then setattr (set_kernel_arch "x86")
  else click_echo "Unknown kernel architecture!!!".

Definition _get_deb_architecture (self : Opt.t) : B unit :=
  t ← getattr "target_arch" target_arch;
  if decide (t = Some "armhf") then setattr (set_deb_arch "armhf")
  else if decide (t = Some "arm64") then setattr (set_deb_arch "arm64")
  else if decide (t = Some "riscv64") then setattr (set_deb_arch "riscv64")
  else if decide (t = Some "amd64") then setattr (set_deb_arch "amd64")
  else click_echo "Unknown deb architecture!!!".

Definition _check_cross_compilation (self : Opt.t) : B unit :=
  host_arch ← getenv "SNAP_ARCH";
  t ← getattr "target_arch" target_arch;
  if decide (host_arch ≠ t) then
    k ← getattr "kernel_arch" kernel_arch;
    click_echo ("Configuring cross build to " +:+ k);;
    mc ← getattr "make_cmd" make_cmd;
    k ← getattr "kernel_arch" kernel_arch;
    obj_append mc ("ARCH=" +:+ k);;
    mc ← getattr "make_cmd" make_cmd;
    obj_append mc "CROSS_COMPILE=${SNAPCRAFT_ARCH_TRIPLET}-"
  else mret tt.

Definition _get_fw_install_targets (self : Opt.t) : B (list string) :=
  if negb (Opt.kernel_with_firmware self) then mret []
  else mret ["firmware_install";
             "INSTALL_FW_PATH=${SNAPCRAFT_PART_INSTALL}/lib/firmware"].

Definition _set_kernel_targets (self : Opt.t) : B unit :=
  (if negb (truthy_target (Opt.kernel_image_target self)) then
     d ← getattr "deb_arch" deb_arch;
     v ← dict_item default_kernel_image_target d;
     setattr (set_kernel_image_target v)
   else match Opt.kernel_image_target self with
        | Opt.TargetStr s => setattr (set_kernel_image_target s)
        | Opt.TargetDict dict =>
            d ← getattr "deb_arch" deb_arch;
            match dict !! d with
            | Some _ =>
                d ← getattr "deb_arch" deb_arch;
                v ← dict_item dict d;
                setattr (set_kernel_image_target v)
            | None => mret tt
            end
        end);;
  kit ← getattr "kernel_image_target" kernel_image_target;
  setattr (set_make_targets [kit; "modules"]);;
  setattr (set_make_install_targets
             ["modules_install"; "INSTALL_MOD_STRIP=1";
              "INSTALL_MOD_PATH=${SNAPCRAFT_PART_INSTALL}"]);;
  setattr (set_dtbs ((λ i, i +:+ ".dtb") <$> Opt.kernel_device_trees self));;
  ds ← getattr "dtbs" dtbs;
  (if nonempty ds then
     mt ← getattr "make_targets" make_targets;
     ds ← getattr "dtbs" dtbs;
     setattr (set_make_targets (mt ++ ds))
   else
     k ← getattr "kernel_arch" kernel_arch;
     if bool_decide (k ∈ ["arm"; "arm64"; "riscv64"]) then
       mt ← getattr "make_targets" make_targets;
       setattr (set_make_targets (mt ++ ["dtbs"]));;
       mi ← getattr "make_install_targets" make_install_targets;
       setattr (set_make_install_targets
                  (mi ++ ["dtbs_install";
                          "INSTALL_DTBS_PATH=${SNAPCRAFT_PART_INSTALL}/dtbs"]))
     else mret tt);;
  mi ← getattr "make_install_targets" make_install_targets;
  fw ← _get_fw_install_targets self;
  setattr (set_make_install_targets (mi ++ fw)).

Definition _init_build_env (self : Opt.t) : B unit :=
  click_echo "Initializing build env...";;
  _get_target_architecture self;;
  _get_deb_architecture self;;
  _get_kernel_architecture self;;
  mc ← obj_new ["make"; "-j$(nproc)"];
  setattr (set_make_cmd mc);;
  mc ← getattr "make_cmd" make_cmd;
  obj_append mc "-C";;
  mc ← getattr "make_cmd" make_cmd;
  obj_append mc "${KERNEL_SRC}";;
  mc ← getattr "make_cmd" make_cmd;
  obj_append mc "O=${SNAPCRAFT_PART_BUILD}";;
  _check_cross_compilation self;;
  _set_kernel_targets self;;
  t ← getattr "target_arch" target_arch;
  setattr (set_initrd_arch t);;
  setattr (set_uc_series "20");;
  (if negb (String.eqb (Opt.kernel_initrd_channel self) "stable")
      && truthy (Opt.kernel_initrd_base_url self)
   then click_echo ("Warning: kernel-initrd-channel and kernel-initrd-base-url "
              +:+ "are defined at the same time, kernel-initrd-channel "
              +:+ "will be ignored!!")
   else mret tt);;
  (if truthy (Opt.kernel_initrd_flavour self)
      && negb (truthy (Opt.kernel_initrd_base_url self))
   then click_echo ("Warning: kernel-initrd-flavour is defined without "
              +:+ "kernel-initrd-base-url, it will be ignored!!")
   else mret tt);;
  let flavour :=
    if truthy (Opt.kernel_initrd_base_url self) then
      if truthy (Opt.kernel_initrd_flavour self)
      then "-" +:+ Opt.kernel_initrd_flavour self
      else EmptyString
    else "-" +:+ Opt.kernel_initrd_channel self in
  series ← getattr "uc_series" uc_series;
  arch ← getattr "initrd_arch" initrd_arch;
  let initrd_snap_file_name :=
    _INITRD_SNAP_FILE _INITRD_SNAP_NAME series flavour (PyLib.fmt arch) in
  setattr (set_initrd_snap_url None);;
  (if truthy (Opt.kernel_initrd_base_url self)
   then setattr (set_initrd_snap_url
                   (Some (_INITRD_URL (Opt.kernel_initrd_base_url self)
                                      initrd_snap_file_name)))
   else mret tt);;
  setattr (set_vanilla_initrd_snap
             (PyLib.path_join "${SNAPCRAFT_PART_BUILD}" initrd_snap_file_name)).

(** The double quote, for the shell texts that hold one. *)
Definition DQ : string := String "034"%char EmptyString.

Definition TAB : string := String "009"%char EmptyString.

Definition _compression_cmd (self : Opt.t) : B string :=
  compressor ← dict_item _compression_command (Opt.kernel_initrd_compression self);
  options ←
    (if nonempty (Opt.kernel_initrd_compression_options self) then
       for_local (Opt.kernel_initrd_compression_options self) EmptyString
         (fun opt options => mret (options +:+ " " +:+ opt))
     else dict_item _compressor_options (Opt.kernel_initrd_compression self));
  let cmd := compressor +:+ " " +:+ options in
  click_echo ("Using initrd compressions command: " +:+ PyLib.repr cmd);;
  mret cmd.

(** The name a device tree blob is installed under, as the loop of
    [_copy_dtbs_cmd] computes it: what follows the last [/], when there is
    one and it is not the first character. *)
Definition install_dtb (dtb : string) : string :=
  let subdir_index := PyLib.rfind "/"%char dtb in
  if (0 <? subdir_index)%Z then PyLib.slice_from (subdir_index + 1) dtb
  else dtb.

Definition _copy_dtbs_cmd (self : Opt.t) : B (list string) :=
  if negb (nonempty (Opt.kernel_device_trees self))
  then mret [PyLib.join_with " " [EmptyString]]
  else
    let cmd := [PyLib.join_with " " ["echo " +:+ DQ +:+ "Copying custom dtbs..." +:+ DQ];
                PyLib.join_with " " ["mkdir -p ${SNAPCRAFT_PART_INSTALL}/dtbs"]] in
    ds ← getattr "dtbs" dtbs;
    for_local ds cmd (fun dtb cmd =>
      mret (cmd ++ [PyLib.join_with " "
                      ["ln -f";
                       "${KERNEL_BUILD_ARCH_DIR}/dts/" +:+ dtb;
                       "${SNAPCRAFT_PART_INSTALL}/dtbs/" +:+ install_dtb dtb]])).

Definition _download_generic_initrd_cmd (self : Opt.t) : B (list string) :=
  url ← getattr "initrd_snap_url" initrd_snap_url;
  cmd_download_initrd ←
    (if truthy_opt url then
       snap ← getattr "vanilla_initrd_snap" vanilla_initrd_snap;
       url ← getattr "initrd_snap_url" initrd_snap_url;
       mret [PyLib.join_with " "
               [TAB +:+ "echo " +:+ DQ
                  +:+ "Downloading vanilla initrd from custom url" +:+ DQ];
             PyLib.join_with " "
               [TAB +:+ "curl"; "-f"; "-o";
                DQ +:+ snap +:+ DQ;
                DQ +:+ PyLib.fmt url +:+ DQ]]
     else
       arch ← getattr "initrd_arch" initrd_arch;
       series ← getattr "uc_series" uc_series;
       snap ← getattr "vanilla_initrd_snap" vanilla_initrd_snap;
       mret [PyLib.join_with " "
               [TAB +:+ "echo " +:+ DQ
                  +:+ "Downloading vanilla initrd from snap store" +:+ DQ];
             PyLib.join_with " "
               ["UBUNTU_STORE_ARCH=" +:+ PyLib.fmt arch;
                "snap"; "download"; "uc-initrd"; "--channel";
                series +:+ "/" +:+ Opt.kernel_initrd_channel self;
                "--basename";
                "$(basename " +:+ snap +:+ " | cut -f1 -d'.')"]]);
  snap ← getattr "vanilla_initrd_snap" vanilla_initrd_snap;
  mret ([PyLib.join_with " " ["echo " +:+ DQ +:+ "Geting generic initrd snap..." +:+ DQ];
         PyLib.join_with " " ["if [ ! -e " +:+ snap +:+ " ]; then"]]
        ++ cmd_download_initrd
        ++ [PyLib.join_with " " ["fi"]]).

Definition _assemble_ubuntu_config_cmd (self : Opt.t) : B (list string) :=
  let flavour := Opt.kconfigflavour self in
  click_echo ("Using ubuntu config flavour " +:+ flavour);;
  mret
    [PyLib.join_with " " [TAB +:+ "echo " +:+ DQ +:+ "Assembling Ubuntu config..." +:+ DQ];
     PyLib.join_with " "
       [TAB +:+ "branch=$(cut -d'.' -f 2- < ${KERNEL_SRC}/debian/debian.env)"];
     PyLib.join_with " " [TAB +:+ "baseconfigdir=${KERNEL_SRC}/debian.${branch}/config"];
     PyLib.join_with " "
       [TAB +:+ "archconfigdir=${KERNEL_SRC}/debian.${branch}/config/${DEB_ARCH}"];
     PyLib.join_with " " [TAB +:+ "commonconfig=${baseconfigdir}/config.common.ports"];
     PyLib.join_with " " [TAB +:+ "ubuntuconfig=${baseconfigdir}/config.common.ubuntu"];
     PyLib.join_with " " [TAB +:+ "archconfig=${archconfigdir}/config.common.${DEB_ARCH}"];
     PyLib.join_with " "
       [TAB +:+ "flavourconfig=${archconfigdir}/config.flavour." +:+ flavour];
     PyLib.join_with " "
       [TAB +:+ "cat"; "${commonconfig}"; "${ubuntuconfig}"; "${archconfig}";
        "${flavourconfig}"; ">"; "${SNAPCRAFT_PART_BUILD}/.config"]].

Definition _do_base_config_cmd (self : Opt.t) : B (list string) :=
  let cmd :=
    [PyLib.join_with " " ["echo " +:+ DQ +:+ "Preparing config..." +:+ DQ];
     PyLib.join_with " " ["if [ ! -e ${SNAPCRAFT_PART_BUILD}/.config ]; then"]] in
  cmd ←
    (if truthy_opt (Opt.kconfigfile self) then
       mret (cmd ++ [PyLib.join_with " "
                       [TAB; "cp"; PyLib.fmt (Opt.kconfigfile self);
                        "${SNAPCRAFT_PART_BUILD}/.config"]])
     else if truthy (Opt.kconfigflavour self) then
       more ← _assemble_ubuntu_config_cmd self;
       mret (cmd ++ more)
     else
       mc ← getattr "make_cmd" make_cmd;
       make_cmd ← obj_copy mc;
       obj_setitem make_cmd 1 "-j1";;
       words ← obj_read make_cmd;
       mret (cmd ++ [PyLib.join_with " "
                       [TAB; PyLib.join_with " " words;
                        PyLib.join_with " " (Opt.kdefconfig self)]]));
  mret (cmd ++ [PyLib.join_with " " ["fi"]]).

Definition _do_patch_config_cmd (self : Opt.t) : B (list string) :=
  if negb (nonempty (Opt.kconfigs self)) then mret [PyLib.join_with " " []]
  else
    let config := PyLib.join_with NL (Opt.kconfigs self) in
    mret
      [PyLib.join_with " " ["echo " +:+ DQ +:+ "Appling extra config...." +:+ DQ];
       PyLib.join_with " "
         ["echo '" +:+ config +:+ "'"; ">"; "${SNAPCRAFT_PART_BUILD}/.config_snap"];
       PyLib.join_with " "
         ["cat"; "${SNAPCRAFT_PART_BUILD}/.config"; ">>";
          "${SNAPCRAFT_PART_BUILD}/.config_snap"];
       PyLib.join_with " "
         ["echo '" +:+ config +:+ "'"; ">>"; "${SNAPCRAFT_PART_BUILD}/.config_snap"];
       PyLib.join_with " "
         ["mv"; "${SNAPCRAFT_PART_BUILD}/.config_snap";
          "${SNAPCRAFT_PART_BUILD}/.config"]].

Definition _do_remake_config_cmd (self : Opt.t) : B (list string) :=
  mc ← getattr "make_cmd" make_cmd;
  make_cmd ← obj_copy mc;
  obj_setitem make_cmd 1 "-j1";;
  words ← obj_read make_cmd;
  mret
    [PyLib.join_with " " ["echo " +:+ DQ +:+ "Remaking oldconfig...." +:+ DQ];
     PyLib.join_with " "
       ["bash -c ' yes " +:+ DQ +:+ DQ; "|| true'";
        "| " +:+ PyLib.join_with " " words +:+ " oldconfig"]].

Definition _get_configure_command (self : Opt.t) : B (list string) :=
  base ← _do_base_config_cmd self;
  patch ← _do_patch_config_cmd self;
  remake ← _do_remake_config_cmd self;
  mret (base ++ [PyLib.join_with " " [NL]] ++ patch ++ [PyLib.join_with " " [NL]] ++ remake).

Definition _configure_compiler (self : Opt.t) : B unit :=
  (if truthy (Opt.kernel_compiler self) then
     (if negb (String.eqb (Opt.kernel_compiler self) "clang") then
        click_echo "Only other 'supported' compiler is clang";;
        click_echo "hopefully you know what you are doing"
      else mret tt);;
     mc ← getattr "make_cmd" make_cmd;
     obj_append mc ("CC=" +:+ DQ +:+ Opt.kernel_compiler self +:+ DQ)
   else mret tt);;
  if nonempty (Opt.kernel_compiler_parameters self) then
    for_in (Opt.kernel_compiler_parameters self) (fun opt =>
      mc ← getattr "make_cmd" make_cmd;
      obj_append mc opt)
  else mret tt.

Definition _make_efi_cmd (self : Opt.t) : B (list string) :=
  let kernel_p := "${SNAPCRAFT_PART_INSTALL}/${KERNEL_IMAGE_TARGET}-${KERNEL_RELEASE}" in
  let initrd_p := "${SNAPCRAFT_PART_INSTALL}/initrd.img" in
  let efi_img_p := "${SNAPCRAFT_PART_INSTALL}/kernel.efi" in
  d ← getattr "deb_arch" deb_arch;
  let arch :=
    (list_to_map [("amd64", "x64"); ("arm64", "aa64")] : gmap string string) !! d in
  mret
    [PyLib.join_with " " ["echo " +:+ DQ +:+ "Building efi image..." +:+ DQ];
     PyLib.join_with " "
       ["objcopy"; "--add-section"; ".linux=" +:+ kernel_p;
        "--change-section-vma"; ".linux=0x40000";
        "--add-section"; ".initrd=" +:+ initrd_p;
        "--change-section-vma"; ".initrd=0x3000000";
        "/usr/lib/systemd/boot/efi/linux" +:+ PyLib.fmt arch +:+ ".efi.stub";
        efi_img_p]].

Definition get_build_packages (self : Opt.t) : gset string :=
  let build_packages : gset string :=
    list_to_set ["bc"; "gcc"; "cmake"; "kmod"; "xz-utils";
                 "initramfs-tools-core"; "systemd"; "lz4"; "curl"] in
  if Opt.kernel_enable_zfs_support self
  then build_packages
       ∪ list_to_set ["autoconf"; "automake"; "libblkid-dev"; "libtool"; "python3"]
  else build_packages.

Definition get_build_environment (self : Opt.t) : B (gmap string string) :=
  click_echo "Getting build env...";;
  _init_build_env self;;
  arch ← getattr "kernel_arch" kernel_arch;
  kit ← getattr "kernel_image_target" kernel_image_target;
  let env : gmap string string :=
    list_to_map
      [("CROSS_COMPILE", "${SNAPCRAFT_ARCH_TRIPLET}-");
       ("ARCH", arch);
       ("DEB_ARCH", "${SNAPCRAFT_TARGET_ARCH}");
       ("INITRD_STAGING", "${SNAPCRAFT_PART_BUILD}/initrd-staging");
       ("INITRD_UNPACKED_SNAP", "${SNAPCRAFT_PART_BUILD}/unpacked_snap");
       ("KERNEL_BUILD_ARCH_DIR", "${SNAPCRAFT_PART_BUILD}/arch/${ARCH}/boot");
       ("KERNEL_IMAGE_TARGET", kit)] in
  env ←
    (if nonempty (Opt.kernel_compiler_paths self) then
       for_local (Opt.kernel_compiler_paths self) (None : option string)
         (fun p custom_path =>
            match custom_path with
            | None => raise (UnboundLocalError "custom_path")
            | Some old =>
                mret (Some (PyLib.path_join "${SNAPCRAFT_STAGE}" p +:+ old +:+ ":"))
            end);;
       self_custom_path ← raise (AttributeError "custom_path");
       mret (<["PATH" := self_custom_path +:+ ":$PATH"]> env)
     else mret env);
  environ ← get_environ;
  match environ !! "MAKEFLAGS" with
  | Some flags =>
      let makeflags := PyLib.sub_include false flags in
      mret (<["MAKEFLAGS" := makeflags]> env)
  | None => mret env
  end.

Definition _get_build_command (self : Opt.t) : B (list string) :=
  mc ← getattr "make_cmd" make_cmd;
  words ← obj_read mc;
  mt ← getattr "make_targets" make_targets;
  mret [PyLib.join_with " " ["echo " +:+ DQ +:+ "Building kernel..." +:+ DQ];
        PyLib.join_with " " (words ++ mt)].

(** ** Vocabulary of the statements about the build plugin *)

(** [s] holds [-I] somewhere. *)
Fixpoint has_include (s : string) : bool :=
  match s with
  | EmptyString => false
  | String c r =>
      (Ascii.eqb c "-"%char
       && match r with String c' _ => Ascii.eqb c' "I"%char | EmptyString => false end)
      || has_include r
  end.

Definition starts_with_I (s : string) : bool :=
  match s with String c _ => Ascii.eqb c "I"%char | EmptyString => false end.

(** The architecture one command line word asks for, if it does. *)
Definition arg_target (arg : string) : option string :=
  if PyLib.startswith arg "--target-arch=" then Py.split "="%char arg !! 1
  else None.

(** The architecture the command line asks for: the last word that does
    decides. *)
Definition argv_target (argv : list string) : option string :=
  last (omap arg_target argv).

(** The target architecture: from the command line, else the one of the
    host. *)
Definition the_target (s : state) : string :=
  default (project_deb_arch s) (argv_target (sys_argv s)).

(** The architectures the plugin knows. *)
Definition known_arch : list string := ["armhf"; "arm64"; "riscv64"; "amd64"].

(** The kernel architecture of a known target architecture. *)
Definition kernel_arch_of (t : string) : string :=
  if decide (t = "armhf") then "arm"
  else if decide (t = "arm64") then "arm64"
  else if decide (t = "riscv64") then "riscv"
  else "x86".

(** The image target [_set_kernel_targets] settles on for the Debian
    architecture [d], when it settles on one. *)
Definition chosen_image_target (self : Opt.t) (d : string) : option string :=
  match Opt.kernel_image_target self with
  | Opt.TargetStr o =>
      if truthy o then Some o else default_kernel_image_target !! d
  | Opt.TargetDict dict =>
      if bool_decide (dict = ∅) then default_kernel_image_target !! d
      else dict !! d
  end.

(** The file name of the initrd snap for the architecture [arch]. *)
Definition initrd_snap_file_name (self : Opt.t) (arch : string) : string :=
  _INITRD_SNAP_FILE _INITRD_SNAP_NAME "20"
    (if truthy (Opt.kernel_initrd_base_url self) then
       if truthy (Opt.kernel_initrd_flavour self)
       then "-" +:+ Opt.kernel_initrd_flavour self
       else EmptyString
     else "-" +:+ Opt.kernel_initrd_channel self)
    arch.

Definition channel_warning : string :=
  "Warning: kernel-initrd-channel and kernel-initrd-base-url "
  +:+ "are defined at the same time, kernel-initrd-channel "
  +:+ "will be ignored!!".

Definition flavour_warning : string :=
  "Warning: kernel-initrd-flavour is defined without "
  +:+ "kernel-initrd-base-url, it will be ignored!!".

(** The warnings of [_init_build_env] about the initrd options. *)
Definition init_warnings (self : Opt.t) : list string :=
  (if negb (String.eqb (Opt.kernel_initrd_channel self) "stable")
      && truthy (Opt.kernel_initrd_base_url self)
   then [channel_warning] else [])
  ++ (if truthy (Opt.kernel_initrd_flavour self)
         && negb (truthy (Opt.kernel_initrd_base_url self))
      then [flavour_warning] else []).

(** The words of [make_cmd] after [_init_build_env], for a native and for
    a cross build. *)
Definition make_words (cross : bool) (k : string) : list string :=
  ["make"; "-j$(nproc)"; "-C"; "${KERNEL_SRC}"; "O=${SNAPCRAFT_PART_BUILD}"]
  ++ (if cross
      then ["ARCH=" +:+ k; "CROSS_COMPILE=${SNAPCRAFT_ARCH_TRIPLET}-"]
      else []).

(** The attributes after [_init_build_env] for the known target [t], the
    image target [kit] and [make_cmd] at [l]. *)
Definition init_attrs (self : Opt.t) (t kit : string) (l : loc) : attrs :=
  let k := kernel_arch_of t in
  let ds := (λ i, i +:+ ".dtb") <$> Opt.kernel_device_trees self in
  let auto := negb (nonempty ds) && bool_decide (k ∈ ["arm"; "arm64"; "riscv64"]) in
  Attrs (Some (Some t)) (Some t) (Some k) (Some l) (Some kit)
    (Some ([kit; "modules"] ++ ds ++ (if auto then ["dtbs"] else [])))
    (Some (["modules_install"; "INSTALL_MOD_STRIP=1";
            "INSTALL_MOD_PATH=${SNAPCRAFT_PART_INSTALL}"]
           ++ (if auto
               then ["dtbs_install";
                     "INSTALL_DTBS_PATH=${SNAPCRAFT_PART_INSTALL}/dtbs"]
               else [])
           ++ (if Opt.kernel_with_firmware self
               then ["firmware_install";
                     "INSTALL_FW_PATH=${SNAPCRAFT_PART_INSTALL}/lib/firmware"]
               else [])))
    (Some ds)
    (Some (Some t)) (Some "20")
    (Some (if truthy (Opt.kernel_initrd_base_url self)
           then Some (_INITRD_URL (Opt.kernel_initrd_base_url self)
                                  (initrd_snap_file_name self t))
           else None))
    (Some (PyLib.path_join "${SNAPCRAFT_PART_BUILD}" (initrd_snap_file_name self t))).

Definition with_attrs (f : attrs → attrs) (s : state) : state :=
  State (f (self_attrs s)) (objects s) (console s)
        (sys_argv s) (os_environ s) (project_deb_arch s).

Definition with_console (msgs : list string) (s : state) : state :=
  State (self_attrs s) (objects s) (console s ++ msgs)
        (sys_argv s) (os_environ s) (project_deb_arch s).

(** ** Sample inputs for the build plugin *)

(** The options a snapcraft.yaml that sets nothing gives. *)
Definition default_options : Opt.t :=
  Opt.Make ["defconfig"] None EmptyString [] (Opt.TargetStr EmptyString) true []
    "lz4" [] "stable" EmptyString EmptyString false EmptyString [] [] false.

(** An initrd from a custom place, with a flavour and a channel. *)
Definition custom_initrd_options : Opt.t :=
  Opt.Make ["defconfig"] None EmptyString [] (Opt.TargetStr EmptyString) true []
    "lz4" [] "edge" "https://example.org/snaps" "fde" false EmptyString [] []
    false.

(** A plugin just made, on an amd64 host. *)
Definition fresh (argv : list string) (env : gmap string string) : state :=
  State no_attrs [] [] argv env "amd64".

End Build.

(** ** Proof tools *)

(** Settles a closed decidable proposition by evaluating its decision. *)
Ltac by_compute :=
  match goal with
  | |- ?P => apply (bool_decide_unpack P); vm_compute; exact I
  end.

(** ** Sample inputs *)

(** A file system with no file at all. *)
Definition no_files : string → OSError + string :=
  λ _, inl FileNotFoundError.

(** A file system with one readable file. *)
Definition one_file (path text : string) : string → OSError + string :=
  λ p, if String.eqb p path then inr text else inl FileNotFoundError.

(** A plugin whose [kernel_initrd_modules] is the list at address 0. *)
Definition plugin0 : PluginImpl := Plugin (Options 0).

(** The initrd bundles [squashfs]; the file [.config] holds [text]. *)
Definition world_with (text : string) : world :=
  World [["squashfs"]] [] (one_file ".config" text).

Definition sample_config : string :=
  "CONFIG_SECURITY=y" +:+ NL +:+
  "# CONFIG_FOO is not set" +:+ NL +:+
  "CONFIG_SQUASHFS=m" +:+ NL +:+
  "CONFIG_SECURITY=y" +:+ NL +:+
  "CONFIG_CMDLINE=a=b" +:+ NL +:+
  "CONFIG_X = Y" +:+ NL.

(** The state the checks start from in the examples: the initrd list at
    address 0, [builtin] at 1, [modules] at 2. *)
Definition check_world (kl bl ml : list string) : world :=
  World [kl; bl; ml] [] no_files.

(** Every required key but the one of [code]. *)
Definition keys_without (code : string) : list string :=
  filter (λ opt, opt ≠ config_key code) (config_key <$> required_opts).

(** ** The Python built-ins on examples *)

Example upper_ex : Py.upper "config_x=y" = "CONFIG_X=Y".
Proof. reflexivity. Qed.

Example strip_ex :
  Py.strip (String Py.LF " a b  " +:+ String Py.CR (String Py.LF EmptyString)) = "a b".
Proof. reflexivity. Qed.

Example split_ex : Py.split "="%char "a==b=" = ["a"; EmptyString; "b"; EmptyString].
Proof. reflexivity. Qed.

Example lines_ex :
  Py.lines (Py.universal_newlines
              ("a" +:+ String Py.CR (String Py.LF "b" +:+ String Py.CR "c")))
  = ["a" +:+ String Py.LF EmptyString; "b" +:+ String Py.LF EmptyString; "c"].
Proof. reflexivity. Qed.

(** ** Facts about the built-ins *)

Lemma contains_spec (l : list string) (x : string) :
  Py.contains l x = true ↔ x ∈ l.
Proof.
  unfold Py.contains. rewrite existsb_exists. split.
  - intros (y & Hy & E). apply String.eqb_eq in E. subst y.
    by apply list_elem_of_In.
  - intros H. exists x. split; [by apply list_elem_of_In | apply String.eqb_refl].
Qed.

Lemma contains_false (l : list string) (x : string) :
  Py.contains l x = false ↔ x ∉ l.
Proof.
  rewrite <- contains_spec. destruct (Py.contains l x); split; congruence.
Qed.

(** [split] yields one token more than there are separators. *)
Lemma split_length (sep : ascii) (s : string) :
  length (Py.split sep s) = S (Py.count sep s).
Proof.
  induction s as [|c r IH]; simpl; [done|].
  destruct (Ascii.eqb c sep); simpl; [by rewrite IH|].
  destruct (Py.split sep r) as [|t ts]; simpl in *; lia.
Qed.

Lemma split_two_tokens (sep : ascii) (s : string) :
  (∃ l r, Py.split sep s = [l; r]) ↔ Py.count sep s = 1.
Proof.
  pose proof (split_length sep s) as Hlen. split.
  - intros (l & r & E). rewrite E in Hlen. simpl in Hlen. lia.
  - intros E. rewrite E in Hlen.
    destruct (Py.split sep s) as [|l [|r [|? ?]]]; simpl in Hlen; try lia.
    by exists l, r.
Qed.

(** A text without separator is one token. *)
Lemma split_no_sep (sep : ascii) (s : string) :
  Py.count sep s = 0 → Py.split sep s = [s].
Proof.
  induction s as [|c r IH]; simpl; [done|].
  destruct (Ascii.eqb c sep); simpl; [done|].
  intros H. by rewrite (IH H).
Qed.

(** The first token ends at the first separator. *)
Lemma split_app (sep : ascii) (l r : string) :
  Py.count sep l = 0 →
  Py.split sep (l +:+ String sep r) = l :: Py.split sep r.
Proof.
  induction l as [|c l IH].
  - intros _. change (EmptyString +:+ String sep r) with (String sep r).
    simpl. by rewrite Ascii.eqb_refl.
  - change (String c l +:+ String sep r) with (String c (l +:+ String sep r)).
    simpl. destruct (Ascii.eqb c sep); simpl; [done|].
    intros H. by rewrite (IH H).
Qed.

Lemma upper_char_space (c : ascii) :
  Py.isspace c = true → Py.upper_char c = c.
Proof.
  destruct c as [[] [] [] [] [] [] [] []]; vm_compute; congruence.
Qed.

(** A token that starts with white space is neither [Y] nor [M] once
    upper-cased. *)
Lemma upper_leading_space (c : ascii) (r v : string) :
  Py.isspace c = true → v = "Y" ∨ v = "M" → Py.upper (String c r) ≠ v.
Proof.
  intros Hc Hv E. simpl in E. rewrite (upper_char_space c Hc) in E.
  destruct Hv; subst v; injection E as -> _; discriminate Hc.
Qed.

(** ** Running computations *)

Lemma world_eta (w : world) : World (heap w) (stdout w) (fs w) = w.
Proof. by destruct w. Qed.

Lemma bind_Ok {A B} (m : M A) (k : A → M B) w a w' :
  m w = (Ok a, w') → (m ≫= k) w = k a w'.
Proof. unfold mbind, M_bind. by intros ->. Qed.

Lemma bind_Raise {A B} (m : M A) (k : A → M B) w e w' :
  m w = (Raise e, w') → (m ≫= k) w = (Raise e, w').
Proof. unfold mbind, M_bind. by intros ->. Qed.

Lemma heap_tail_lookup (h : list (list string)) (xs : list string) :
  (h ++ [xs]) !! length h = Some xs.
Proof. by rewrite lookup_app_r, Nat.sub_diag. Qed.

Lemma heap_tail_insert (h : list (list string)) (xs ys : list string) :
  <[length h := ys]> (h ++ [xs]) = h ++ [ys].
Proof. by rewrite insert_app_r_alt, Nat.sub_diag. Qed.

Lemma new_list_run w :
  new_list w = (Ok (length (heap w)), World (heap w ++ [[]]) (stdout w) (fs w)).
Proof. reflexivity. Qed.

Lemma length_app_one (h : list (list string)) (xs : list string) :
  length (h ++ [xs]) = S (length h).
Proof. rewrite length_app. simpl. lia. Qed.

Lemma list_get_run (l : loc) (xs : list string) w :
  heap w !! l = Some xs → list_get l w = (Ok xs, w).
Proof. unfold list_get. by intros ->. Qed.

Lemma list_in_run (x : string) (l : loc) (xs : list string) w :
  heap w !! l = Some xs → list_in x l w = (Ok (Py.contains xs x), w).
Proof.
  intros H. unfold list_in. by rewrite (bind_Ok _ _ _ _ _ (list_get_run _ _ _ H)).
Qed.

Lemma list_append_run (l : loc) (x : string) (xs : list string) w :
  heap w !! l = Some xs →
  list_append l x w
  = (Ok tt, World (<[l := xs ++ [x]]> (heap w)) (stdout w) (fs w)).
Proof. unfold list_append. by intros ->. Qed.

(** The invariant rule of [for]: an invariant of the elements done so far
    that every run of the body extends by one element holds of the whole
    list at the end, and the loop ends normally. *)
Lemma for_each_inv {A} (I : list A → world → Prop) (body : A → M unit)
    (xs : list A) :
  (∀ done x w, I done w → ∃ w', body x w = (Ok tt, w') ∧ I (done ++ [x]) w') →
  ∀ done w, I done w →
  ∃ w', for_each xs body w = (Ok tt, w') ∧ I (done ++ xs) w'.
Proof.
  intros Hstep. induction xs as [|x xs IH]; intros done w HI.
  - exists w. by rewrite app_nil_r.
  - destruct (Hstep done x w HI) as (w1 & E1 & HI1).
    destruct (IH (done ++ [x]) w1 HI1) as (w2 & E2 & HI2).
    exists w2. simpl. rewrite (bind_Ok _ _ _ _ _ E1).
    by rewrite <- app_assoc in HI2.
Qed.

(** Picks the body of the [for] loop in the goal and applies the
    invariant rule to it, from the empty prefix. *)
Ltac loop_with I w1 :=
  match goal with
  | |- context [for_each ?xs ?body] =>
      let Hloop := fresh "Hloop" in
      assert (Hloop : ∃ w', for_each xs body w1 = (Ok tt, w') ∧ I xs w');
      [ apply (for_each_inv I body xs) with (done := @nil _); subst I; cbv beta
      | subst I; cbv beta in Hloop ]
  end.

(** ** The parser *)

Lemma Y_not_M (s : string) :
  String.eqb s "Y" = true → String.eqb s "M" = false.
Proof. intros ->%String.eqb_eq. reflexivity. Qed.

(** One run of the loop body appends the line's key, if it has one, to the
    list its value selects, and changes nothing else. *)
Lemma parse_line_run (b m : loc) (line : string) (bl ml : list string) w :
  b ≠ m → heap w !! b = Some bl → heap w !! m = Some ml →
  parse_line b m line w
  = (Ok tt,
     World (<[b := bl ++ option_list (line_key "Y" line)]>
              (<[m := ml ++ option_list (line_key "M" line)]> (heap w)))
           (stdout w) (fs w)).
Proof.
  intros Hne Hb Hm. unfold parse_line, line_key.
  assert (Hid : <[b := bl]> (<[m := ml]> (heap w)) = heap w)
    by (by rewrite (list_insert_id _ m), list_insert_id).
  destruct (Py.split _ _) as [|l [|r [|? ?]]]; simpl;
    rewrite ?app_nil_r, ?Hid, ?world_eta; try done.
  destruct (String.eqb (Py.upper r) "Y") eqn:EY.
  - rewrite (Y_not_M _ EY). simpl. rewrite app_nil_r.
    rewrite (list_insert_id _ m) by done. by apply list_append_run.
  - destruct (String.eqb (Py.upper r) "M") eqn:EM; simpl;
      rewrite app_nil_r.
    + rewrite (list_append_run _ _ _ _ Hm). do 2 f_equal.
      symmetry. apply list_insert_id. by rewrite list_lookup_insert_ne.
    + by rewrite app_nil_r, Hid, world_eta.
Qed.

(** The whole loop, over two distinct lists. *)
Lemma parse_loop_run (b m : loc) (lines : list string) (bl ml : list string) w :
  b ≠ m → heap w !! b = Some bl → heap w !! m = Some ml →
  for_each lines (parse_line b m) w
  = (Ok tt,
     World (<[b := bl ++ omap (line_key "Y") lines]>
              (<[m := ml ++ omap (line_key "M") lines]> (heap w)))
           (stdout w) (fs w)).
Proof.
  intros Hne Hb Hm.
  pose (I := λ (done : list string) (w' : world),
          w' = World (<[b := bl ++ omap (line_key "Y") done]>
                        (<[m := ml ++ omap (line_key "M") done]> (heap w)))
                     (stdout w) (fs w)).
  destruct (for_each_inv I (parse_line b m) lines) with (done := @nil string) (w := w)
    as (w' & E & HI).
  - intros done x w1 ->. eexists. split.
    + apply parse_line_run; simpl; [done| |].
      * apply list_lookup_insert_eq. rewrite length_insert.
        by eapply lookup_lt_Some.
      * rewrite list_lookup_insert_ne by done.
        apply list_lookup_insert_eq. by eapply lookup_lt_Some.
    + unfold I. simpl. rewrite !omap_app. simpl.
      rewrite (list_insert_insert_ne _ m b) by done.
      rewrite !list_insert_insert_eq.
      rewrite <- !app_assoc.
      by destruct (line_key "Y" x), (line_key "M" x).
  - unfold I. simpl. rewrite !app_nil_r.
    rewrite (list_insert_id _ m), list_insert_id by done. by rewrite world_eta.
  - by rewrite E, HI.
Qed.

(** [_do_parse_config] on a readable file: two new lists, filled line by
    line. *)
Lemma parse_config_run (self : PluginImpl) (path text : string) w :
  fs w path = inr text →
  _do_parse_config self path w
  = (Ok (length (heap w), S (length (heap w))),
     World (heap w ++ [omap (line_key "Y") (file_lines text);
                       omap (line_key "M") (file_lines text)])
           (stdout w) (fs w)).
Proof.
  intros Hfs. unfold _do_parse_config.
  rewrite (bind_Ok _ _ _ _ _ (new_list_run _)).
  rewrite (bind_Ok _ _ _ _ _ (new_list_run _)). simpl.
  erewrite bind_Ok by (unfold open_lines; simpl; by rewrite Hfs).
  rewrite length_app. simpl. rewrite Nat.add_1_r.
  erewrite bind_Ok.
  2:{ apply (parse_loop_run _ _ _ [] []); simpl.
      - lia.
      - apply lookup_app_l_Some, heap_tail_lookup.
      - rewrite <- (length_app_one (heap w) []). apply heap_tail_lookup. }
  simpl. unfold mret, M_ret. do 2 f_equal.
  rewrite <- (length_app_one (heap w) []), heap_tail_insert.
  rewrite <- app_assoc. simpl.
  rewrite insert_app_r_alt by lia. by rewrite Nat.sub_diag.
Qed.

(** ** The two requirement checks *)

Lemma check_config_run (self : PluginImpl) (b m : loc) (bl ml : list string) w :
  heap w !! b = Some bl → heap w !! m = Some ml →
  _do_check_config self b m w
  = (Ok tt,
     World (heap w ++ [config_missing bl ml])
           (stdout w ++ warned config_warning (config_missing bl ml))
           (fs w)).
Proof.
  intros Hb Hm. unfold _do_check_config.
  rewrite (bind_Ok _ _ _ _ _ (new_list_run w)).
  pose (I := λ (done : list string) (w' : world),
          w' = World (heap w ++ [filter (λ opt, ¬ (opt ∈ bl ∨ opt ∈ ml))
                                        (config_key <$> done)])
                     (stdout w) (fs w)).
  loop_with I (World (heap w ++ [[]]) (stdout w) (fs w)).
  - intros done code w1 ->.
    rewrite fmap_app, filter_app. simpl. fold (config_key code).
    erewrite bind_Ok by (apply list_in_run; simpl; by apply lookup_app_l_Some).
    destruct (Py.contains bl (config_key code)) eqn:Eb.
    { apply contains_spec in Eb. eexists; split; [reflexivity|].
      rewrite filter_cons_False by tauto. by rewrite app_nil_r. }
    erewrite bind_Ok by (apply list_in_run; simpl; by apply lookup_app_l_Some).
    destruct (Py.contains ml (config_key code)) eqn:Em.
    { apply contains_spec in Em. eexists; split; [reflexivity|].
      rewrite filter_cons_False by tauto. by rewrite app_nil_r. }
    apply contains_false in Eb, Em. eexists; split.
    + apply list_append_run. simpl. apply heap_tail_lookup.
    + simpl. rewrite heap_tail_insert.
      by rewrite filter_cons_True by tauto.
  - reflexivity.
  - destruct Hloop as (w2 & E & ->).
    rewrite (bind_Ok _ _ _ _ _ E).
    erewrite bind_Ok by (apply list_get_run; exact (heap_tail_lookup _ _)).
    fold required_opts. fold (config_missing bl ml).
    destruct (config_missing bl ml); simpl; [by rewrite app_nil_r | done].
Qed.

Lemma check_initrd_run (self : PluginImpl) (b m : loc) (bl ml kl : list string) w :
  heap w !! b = Some bl → heap w !! m = Some ml →
  heap w !! kernel_initrd_modules (opts self) = Some kl →
  _do_check_initrd self b m w
  = (Ok tt,
     World (heap w ++ [initrd_missing bl ml kl])
           (stdout w ++ warned initrd_warning (initrd_missing bl ml kl))
           (fs w)).
Proof.
  intros Hb Hm Hk. unfold _do_check_initrd.
  rewrite (bind_Ok _ _ _ _ _ (new_list_run w)).
  pose (I := λ (done : list string) (w' : world),
          w' = World (heap w ++ [(λ code, config_key (Py.upper code))
                                   <$> filter (λ code, ¬ boot_satisfied bl ml kl code) done])
                     (stdout w) (fs w)).
  loop_with I (World (heap w ++ [[]]) (stdout w) (fs w)).
  - intros done code w1 ->.
    rewrite filter_app, fmap_app. fold (config_key (Py.upper code)).
    erewrite bind_Ok by (apply list_in_run; simpl; by apply lookup_app_l_Some).
    destruct (Py.contains bl (config_key (Py.upper code))) eqn:Eb.
    { apply contains_spec in Eb. eexists; split; [reflexivity|].
      rewrite filter_cons_False; [by rewrite app_nil_r|].
      unfold boot_satisfied. tauto. }
    erewrite bind_Ok by (apply list_in_run; simpl; by apply lookup_app_l_Some).
    apply contains_false in Eb.
    destruct (Py.contains ml (config_key (Py.upper code))) eqn:Em.
    + apply contains_spec in Em.
      erewrite bind_Ok by (apply list_in_run; simpl; by apply lookup_app_l_Some).
      destruct (Py.contains kl code) eqn:Ek.
      { apply contains_spec in Ek. eexists; split; [reflexivity|].
        rewrite filter_cons_False; [by rewrite app_nil_r|].
        unfold boot_satisfied. tauto. }
      apply contains_false in Ek. eexists; split.
      * apply list_append_run. simpl. apply heap_tail_lookup.
      * simpl. rewrite heap_tail_insert.
        rewrite filter_cons_True; [done|]. unfold boot_satisfied. tauto.
    + apply contains_false in Em.
      erewrite bind_Ok by reflexivity. eexists; split.
      * apply list_append_run. simpl. apply heap_tail_lookup.
      * simpl. rewrite heap_tail_insert.
        rewrite filter_cons_True; [done|]. unfold boot_satisfied. tauto.
  - reflexivity.
  - destruct Hloop as (w2 & E & ->).
    rewrite (bind_Ok _ _ _ _ _ E).
    erewrite bind_Ok by (apply list_get_run; exact (heap_tail_lookup _ _)).
    fold (initrd_missing bl ml kl).
    destruct (initrd_missing bl ml kl); simpl; [by rewrite app_nil_r | done].
Qed.

(** ** Properties of the parser *)

Lemma omap_occurrences {A B} `{EqDecision B} (f : A → option B)
    (l : list A) (y : B) :
  length (filter (λ z, z = y) (omap f l))
  = length (filter (λ x, f x = Some y) l).
Proof.
  induction l as [|x l IH]; [done|]. simpl in *.
  rewrite (filter_cons (λ x, f x = Some y)).
  destruct (f x) as [z|] eqn:E.
  - rewrite filter_cons. destruct (decide (z = y)) as [->|Hne].
    + rewrite decide_True by done. simpl. f_equal. exact IH.
    + rewrite decide_False by congruence. exact IH.
  - rewrite decide_False by congruence. exact IH.
Qed.

Lemma line_key_Some (v line k : string) :
  line_key v line = Some k ↔
  ∃ l r, Py.split "="%char (Py.strip line) = [l; r]
         ∧ Py.upper r = v ∧ k = Py.upper l.
Proof.
  unfold line_key. split.
  - destruct (Py.split _ _) as [|l [|r [|? ?]]]; try done.
    destruct (String.eqb _ _) eqn:E; [|done].
    apply String.eqb_eq in E. intros [= <-]. by exists l, r.
  - intros (l & r & -> & <- & ->). by rewrite String.eqb_refl.
Qed.

Lemma omap_line_key (v k : string) (lines : list string) :
  k ∈ omap (line_key v) lines ↔
  ∃ line l r, line ∈ lines
    ∧ Py.split "="%char (Py.strip line) = [l; r]
    ∧ Py.upper r = v ∧ k = Py.upper l.
Proof.
  rewrite list_elem_of_omap. split.
  - intros (line & Hin & (l & r & Hs & Hu & Hk)%line_key_Some).
    by exists line, l, r.
  - intros (line & l & r & Hin & Hs & Hu & Hk).
    exists line. split; [done|]. apply line_key_Some. by exists l, r.
Qed.

(** C1: on a file of ASCII text the parser works line by line: a line is
    stripped and split on [=]; it counts only when that gives exactly two
    tokens, that is when the stripped line holds exactly one [=]; then the
    upper-cased left token is the key, and the key goes to [builtin] when
    the upper-cased right token is [Y], to [modules] when it is [M];
    nothing else ever enters either list. *)
Theorem C1_parse_line_by_line (self : PluginImpl) (path text : string) (w : world) :
  fs w path = inr text →
  Py.isascii text = true →
  ∃ b m bl ml w',
    _do_parse_config self path w = (Ok (b, m), w')
    ∧ heap w' !! b = Some bl ∧ heap w' !! m = Some ml
    ∧ (∀ k, k ∈ bl ↔
         ∃ line l r, line ∈ file_lines text
           ∧ Py.split "="%char (Py.strip line) = [l; r]
           ∧ Py.upper r = "Y" ∧ k = Py.upper l)
    ∧ (∀ k, k ∈ ml ↔
         ∃ line l r, line ∈ file_lines text
           ∧ Py.split "="%char (Py.strip line) = [l; r]
           ∧ Py.upper r = "M" ∧ k = Py.upper l)
    ∧ (∀ line, (∃ l r, Py.split "="%char (Py.strip line) = [l; r])
               ↔ Py.count "="%char (Py.strip line) = 1).
Proof.
  intros Hfs _. eexists _, _, _, _, _.
  split; [by apply parse_config_run|]. simpl.
  split; [rewrite lookup_app_r by lia; by rewrite Nat.sub_diag|].
  split; [rewrite lookup_app_r by lia;
          by replace (S (length (heap w)) - length (heap w)) with 1 by lia|].
  split; [|split].
  - intros k. apply omap_line_key.
  - intros k. apply omap_line_key.
  - intros line. apply split_two_tokens.
Qed.

(** C1 on the sample file. *)
Lemma C1_witness :
  ∃ b m bl ml w',
    _do_parse_config plugin0 ".config" (world_with sample_config) = (Ok (b, m), w')
    ∧ heap w' !! b = Some bl ∧ heap w' !! m = Some ml
    ∧ (∀ k, k ∈ bl ↔
         ∃ line l r, line ∈ file_lines sample_config
           ∧ Py.split "="%char (Py.strip line) = [l; r]
           ∧ Py.upper r = "Y" ∧ k = Py.upper l)
    ∧ (∀ k, k ∈ ml ↔
         ∃ line l r, line ∈ file_lines sample_config
           ∧ Py.split "="%char (Py.strip line) = [l; r]
           ∧ Py.upper r = "M" ∧ k = Py.upper l)
    ∧ (∀ line, (∃ l r, Py.split "="%char (Py.strip line) = [l; r])
               ↔ Py.count "="%char (Py.strip line) = 1).
Proof.
  apply (C1_parse_line_by_line plugin0 ".config" sample_config
           (world_with sample_config)); reflexivity.
Defined.

(** The parser on the sample file: the key of the repeated [=y] line comes
    twice, the comment, the line with two [=] and the line with spaces
    around [=] leave no trace. *)
Example parse_sample :
  _do_parse_config plugin0 ".config" (world_with sample_config)
  = (Ok (1, 2),
     World [["squashfs"]; ["CONFIG_SECURITY"; "CONFIG_SECURITY"]; ["CONFIG_SQUASHFS"]]
           [] (one_file ".config" sample_config)).
Proof. reflexivity. Qed.

(** C10: on a file of ASCII text the two results are lists in file order,
    with repetitions: [builtin] holds, for each line of value [Y] and in
    the order of the lines, the upper-cased key of that line, and
    [modules] likewise for [M]; so a key occurs in [builtin] as many times
    as there are lines that give it with value [Y]. *)
Theorem C10_parse_keeps_order_and_duplicates
    (self : PluginImpl) (path text : string) (w : world) :
  fs w path = inr text →
  Py.isascii text = true →
  ∃ b m bl ml w',
    _do_parse_config self path w = (Ok (b, m), w')
    ∧ heap w' !! b = Some bl ∧ heap w' !! m = Some ml
    ∧ bl = omap (line_key "Y") (file_lines text)
    ∧ ml = omap (line_key "M") (file_lines text)
    ∧ (∀ k, length (filter (λ x, x = k) bl)
            = length (filter (λ line, line_key "Y" line = Some k) (file_lines text)))
    ∧ (∀ k, length (filter (λ x, x = k) ml)
            = length (filter (λ line, line_key "M" line = Some k) (file_lines text))).
Proof.
  intros Hfs _. eexists _, _, _, _, _.
  split; [by apply parse_config_run|]. simpl.
  split; [rewrite lookup_app_r by lia; by rewrite Nat.sub_diag|].
  split; [rewrite lookup_app_r by lia;
          by replace (S (length (heap w)) - length (heap w)) with 1 by lia|].
  repeat split; intros k; apply omap_occurrences.
Qed.

(** C10 on the sample file. *)
Lemma C10_witness :
  ∃ b m bl ml w',
    _do_parse_config plugin0 ".config" (world_with sample_config) = (Ok (b, m), w')
    ∧ heap w' !! b = Some bl ∧ heap w' !! m = Some ml
    ∧ bl = omap (line_key "Y") (file_lines sample_config)
    ∧ ml = omap (line_key "M") (file_lines sample_config)
    ∧ (∀ k, length (filter (λ x, x = k) bl)
            = length (filter (λ line, line_key "Y" line = Some k)
                             (file_lines sample_config)))
    ∧ (∀ k, length (filter (λ x, x = k) ml)
            = length (filter (λ line, line_key "M" line = Some k)
                             (file_lines sample_config))).
Proof.
  apply (C10_parse_keeps_order_and_duplicates plugin0 ".config" sample_config
           (world_with sample_config)); reflexivity.
Defined.

(** C9 fails as stated: a line with white space before [=] and none after
    it is still an entry; the key keeps its trailing space and goes to
    [builtin]. *)
Lemma C9_counterexample :
  Py.split "="%char (Py.strip ("CONFIG_X =Y" +:+ NL)) = ["CONFIG_X "; "Y"]
  ∧ Py.isspace " "%char = true
  ∧ _do_parse_config plugin0 ".config" (world_with ("CONFIG_X =Y" +:+ NL))
    = (Ok (1, 2),
       World [["squashfs"]; ["CONFIG_X "]; []] []
             (one_file ".config" ("CONFIG_X =Y" +:+ NL)))
  ∧ parse_line 1 2 ("CONFIG_X =Y" +:+ NL)
      (World [["squashfs"]; []; []] [] no_files)
    ≠ (Ok tt, World [["squashfs"]; []; []] [] no_files).
Proof. repeat split. discriminate. Qed.

(** C9, amended: a line that, once stripped, reads key, [=], a white space
    character, rest (with no other [=]), as [CONFIG_X = Y] or
    [CONFIG_X= Y] do, adds to neither list: the line splits into the two
    tokens as they stand, the tokens are not stripped one by one, and a
    value that starts with white space is neither [Y] nor [M] once
    upper-cased; running the loop body on the line leaves the whole state
    as it was. *)
Theorem C9_space_after_equals_skips_line
    (builtin modules : loc) (line l r : string) (c : ascii) (w : world) :
  Py.strip line = l +:+ String "="%char (String c r) →
  Py.count "="%char l = 0 → Py.count "="%char (String c r) = 0 →
  Py.isspace c = true →
  Py.split "="%char (Py.strip line) = [l; String c r]
  ∧ Py.upper (String c r) ≠ "Y" ∧ Py.upper (String c r) ≠ "M"
  ∧ line_key "Y" line = None ∧ line_key "M" line = None
  ∧ parse_line builtin modules line w = (Ok tt, w).
Proof.
  intros Hline Hl Hr Hc.
  assert (Hs : Py.split "="%char (Py.strip line) = [l; String c r])
    by (by rewrite Hline, split_app, split_no_sep).
  assert (HY : Py.upper (String c r) ≠ "Y") by (apply upper_leading_space; auto).
  assert (HM : Py.upper (String c r) ≠ "M") by (apply upper_leading_space; auto).
  apply String.eqb_neq in HY, HM.
  unfold parse_line, line_key. rewrite Hs.
  cbn [length Nat.eqb lookup list_lookup default from_option id].
  rewrite HY, HM. by apply String.eqb_neq in HY, HM.
Qed.

(** C9 on the line [CONFIG_X = Y]. *)
Lemma C9_witness :
  Py.split "="%char (Py.strip ("CONFIG_X = Y" +:+ NL)) = ["CONFIG_X "; " Y"]
  ∧ Py.upper " Y" ≠ "Y" ∧ Py.upper " Y" ≠ "M"
  ∧ line_key "Y" ("CONFIG_X = Y" +:+ NL) = None
  ∧ line_key "M" ("CONFIG_X = Y" +:+ NL) = None
  ∧ parse_line 1 2 ("CONFIG_X = Y" +:+ NL) (world_with EmptyString)
    = (Ok tt, world_with EmptyString).
Proof.
  apply (C9_space_after_equals_skips_line 1 2 ("CONFIG_X = Y" +:+ NL)
           "CONFIG_X " "Y" " "%char (world_with EmptyString));
    reflexivity.
Defined.

(** C7: when [open] fails on the config path, [_do_parse_config] raises
    that error, and [check_new_config] ends with the same error, not
    changed into anything else: the console shows the opening message
    only, and the heap holds nothing but the two empty lists the parser
    made before [open], so neither check ran. *)
Theorem C7_unreadable_config_is_fatal
    (self : PluginImpl) (path : string) (e : OSError) (w : world) :
  fs w path = inl e →
  _do_parse_config self path w
    = (Raise (IOError e), World (heap w ++ [[]; []]) (stdout w) (fs w))
  ∧ check_new_config self path w
    = (Raise (IOError e),
       World (heap w ++ [[]; []])
             (stdout w ++ ["Checking created config..."])
             (fs w)).
Proof.
  intros Hfs.
  assert (Hparse : ∀ w0, fs w0 path = inl e →
            _do_parse_config self path w0
            = (Raise (IOError e), World (heap w0 ++ [[]; []]) (stdout w0) (fs w0))).
  { intros w0 H0. unfold _do_parse_config.
    rewrite (bind_Ok _ _ _ _ _ (new_list_run _)).
    rewrite (bind_Ok _ _ _ _ _ (new_list_run _)).
    erewrite bind_Raise by (unfold open_lines; simpl; by rewrite H0).
    simpl. by rewrite <- app_assoc. }
  split; [by apply Hparse|].
  unfold check_new_config.
  erewrite bind_Ok by reflexivity.
  erewrite bind_Raise by (by apply Hparse). done.
Qed.

(** C7 on a path with no file. *)
Lemma C7_witness :
  _do_parse_config plugin0 "missing" (world_with EmptyString)
    = (Raise (IOError FileNotFoundError),
       World (heap (world_with EmptyString) ++ [[]; []]) (stdout (world_with EmptyString))
             (fs (world_with EmptyString)))
  ∧ check_new_config plugin0 "missing" (world_with EmptyString)
    = (Raise (IOError FileNotFoundError),
       World (heap (world_with EmptyString) ++ [[]; []])
             (stdout (world_with EmptyString) ++ ["Checking created config..."])
             (fs (world_with EmptyString))).
Proof.
  apply (C7_unreadable_config_is_fatal plugin0 "missing" FileNotFoundError
           (world_with EmptyString)).
  reflexivity.
Defined.

(** ** The text of the warnings *)

Lemma str_app_nil_r (s : string) : s +:+ EmptyString = s.
Proof.
  induction s as [|c s IH]; [done|].
  change (String c (s +:+ EmptyString) = String c s). by rewrite IH.
Qed.

Lemma str_app_assoc (s t u : string) : (s +:+ t) +:+ u = s +:+ (t +:+ u).
Proof.
  induction s as [|c s IH]; [done|].
  change (String c ((s +:+ t) +:+ u) = String c (s +:+ (t +:+ u))).
  by rewrite IH.
Qed.

Lemma join_cons (x : string) (l : list string) :
  Py.join (x :: l) = x +:+ Py.join l.
Proof. unfold Py.join. destruct l; [by rewrite str_app_nil_r | done]. Qed.

(** Appending one piece per element, left to right, is the concatenation
    of the pieces in list order. *)
Lemma fold_left_pieces {A} (piece : A → string) (l : list A) (init : string) :
  fold_left (λ acc x, acc +:+ piece x) l init
  = init +:+ Py.join (piece <$> l).
Proof.
  revert init. induction l as [|x l IH]; intros init.
  - by rewrite str_app_nil_r.
  - cbn [fold_left]. rewrite IH, fmap_cons, join_cons.
    by rewrite str_app_assoc.
Qed.

Lemma config_warning_lines (ms : list string) :
  config_warning ms
  = (NL +:+ config_msg +:+ NL)
      +:+ Py.join ((λ opt, opt +:+ " " +:+ config_note opt +:+ NL) <$> ms).
Proof. unfold config_warning. apply fold_left_pieces. Qed.

Lemma initrd_warning_lines (ms : list string) :
  initrd_warning ms
  = (NL +:+ initrd_msg +:+ NL) +:+ Py.join ((λ opt, opt +:+ NL) <$> ms).
Proof. unfold initrd_warning. apply fold_left_pieces. Qed.

(** ** Properties of the completeness check *)

Lemma config_missing_nil (bl ml : list string) :
  config_missing bl ml = [] ↔
  ∀ code, code ∈ required_opts → config_key code ∈ bl ∨ config_key code ∈ ml.
Proof.
  unfold config_missing. split.
  - intros E code Hin.
    destruct (decide (config_key code ∈ bl ∨ config_key code ∈ ml)) as [|Hn]; [done|].
    assert (H : config_key code
                ∈ filter (λ opt, ¬ (opt ∈ bl ∨ opt ∈ ml)) (config_key <$> required_opts)).
    { apply list_elem_of_filter. split; [done|]. by apply list_elem_of_fmap_2. }
    rewrite E in H. by apply not_elem_of_nil in H.
  - intros H.
    destruct (filter _ _) as [|opt ms] eqn:E; [done|]. exfalso.
    assert (Hin : opt ∈ opt :: ms) by apply list_elem_of_here.
    rewrite <- E in Hin.
    apply list_elem_of_filter in Hin as [Hn (code & -> & Hin)%list_elem_of_fmap].
    apply Hn. by apply H.
Qed.

(** C2: the completeness check goes through the four groups in their
    order (generic, security, snappy, systemd); a code is satisfied
    exactly when [CONFIG_] + code is in [builtin] or in [modules]; the
    unsatisfied ones are collected in that order; nothing is echoed when
    there is none, and otherwise one warning is echoed, with one line per
    collected key in that same order. *)
Theorem C2_completeness_check
    (self : PluginImpl) (builtin modules : loc) (bl ml : list string) (w : world) :
  heap w !! builtin = Some bl → heap w !! modules = Some ml →
  ∃ missing w',
    missing
    = filter (λ opt, ¬ (opt ∈ bl ∨ opt ∈ ml))
        ((λ code, "CONFIG_" +:+ code) <$> required_generic ++ required_security
                               ++ required_snappy ++ required_systemd)
    ∧ _do_check_config self builtin modules w = (Ok tt, w')
    ∧ heap w' = heap w ++ [missing]
    ∧ (missing = [] ↔
       ∀ code, code ∈ required_generic ++ required_security
                      ++ required_snappy ++ required_systemd →
               "CONFIG_" +:+ code ∈ bl ∨ "CONFIG_" +:+ code ∈ ml)
    ∧ (missing = [] → stdout w' = stdout w)
    ∧ (missing ≠ [] → stdout w' = stdout w ++ [config_warning missing])
    ∧ config_warning missing
      = (NL +:+ config_msg +:+ NL)
          +:+ Py.join
                ((λ opt, opt +:+ " " +:+ config_note opt +:+ NL) <$> missing).
Proof.
  intros Hb Hm. exists (config_missing bl ml). eexists.
  split; [reflexivity|].
  split; [by apply check_config_run|]. simpl.
  split; [done|].
  split; [apply config_missing_nil|].
  split; [intros ->; simpl; by rewrite app_nil_r|].
  split; [by destruct (config_missing bl ml)|].
  apply config_warning_lines.
Qed.

(** C2 with [CONFIG_SECURITY] built in and [CONFIG_SQUASHFS] a module. *)
Lemma C2_witness :
  ∃ missing w',
    missing
    = filter (λ opt, ¬ (opt ∈ ["CONFIG_SECURITY"] ∨ opt ∈ ["CONFIG_SQUASHFS"]))
        ((λ code, "CONFIG_" +:+ code) <$> required_generic ++ required_security
                               ++ required_snappy ++ required_systemd)
    ∧ _do_check_config plugin0 1 2
        (check_world ["squashfs"] ["CONFIG_SECURITY"] ["CONFIG_SQUASHFS"])
      = (Ok tt, w')
    ∧ heap w'
      = heap (check_world ["squashfs"] ["CONFIG_SECURITY"] ["CONFIG_SQUASHFS"])
          ++ [missing]
    ∧ (missing = [] ↔
       ∀ code, code ∈ required_generic ++ required_security
                      ++ required_snappy ++ required_systemd →
               "CONFIG_" +:+ code ∈ ["CONFIG_SECURITY"]
               ∨ "CONFIG_" +:+ code ∈ ["CONFIG_SQUASHFS"])
    ∧ (missing = [] →
       stdout w'
       = stdout (check_world ["squashfs"] ["CONFIG_SECURITY"] ["CONFIG_SQUASHFS"]))
    ∧ (missing ≠ [] →
       stdout w'
       = stdout (check_world ["squashfs"] ["CONFIG_SECURITY"] ["CONFIG_SQUASHFS"])
           ++ [config_warning missing])
    ∧ config_warning missing
      = (NL +:+ config_msg +:+ NL)
          +:+ Py.join
                ((λ opt, opt +:+ " " +:+ config_note opt +:+ NL) <$> missing).
Proof.
  apply (C2_completeness_check plugin0 1 2
           ["CONFIG_SECURITY"] ["CONFIG_SQUASHFS"]
           (check_world ["squashfs"] ["CONFIG_SECURITY"] ["CONFIG_SQUASHFS"]));
    reflexivity.
Defined.

(** With every required key present, half built in and half as modules,
    the check echoes nothing. *)
Example check_config_complete :
  _do_check_config plugin0 1 2
    (check_world [] (config_key <$> required_generic ++ required_security)
                    (config_key <$> required_snappy ++ required_systemd))
  = (Ok tt,
     World [[]; config_key <$> required_generic ++ required_security;
            config_key <$> required_snappy ++ required_systemd; []]
           [] no_files).
Proof. reflexivity. Qed.

(** C6: in the completeness warning every missing key has its own line,
    [key], a space, a note, and a newline; the note is
    [(4.1.x and later versions only)] for
    [CONFIG_CC_STACKPROTECTOR_STRONG],
    [(4.8.x and earlier versions only)] for
    [CONFIG_DEVPTS_MULTIPLE_INSTANCES], and empty for every other key; both
    annotated keys are required ones. *)
Theorem C6_two_annotated_codes
    (self : PluginImpl) (builtin modules : loc) (bl ml : list string) (w : world) :
  heap w !! builtin = Some bl → heap w !! modules = Some ml →
  ∃ w',
    _do_check_config self builtin modules w = (Ok tt, w')
    ∧ stdout w'
      = stdout w
          ++ warned (λ ms, (NL +:+ config_msg +:+ NL)
                             +:+ Py.join
                                   ((λ opt, opt +:+ " " +:+ config_note opt +:+ NL) <$> ms))
                    (config_missing bl ml)
    ∧ config_note "CONFIG_CC_STACKPROTECTOR_STRONG"
      = "(4.1.x and later versions only)"
    ∧ config_note "CONFIG_DEVPTS_MULTIPLE_INSTANCES"
      = "(4.8.x and earlier versions only)"
    ∧ (∀ opt, opt ≠ "CONFIG_CC_STACKPROTECTOR_STRONG" →
              opt ≠ "CONFIG_DEVPTS_MULTIPLE_INSTANCES" →
              config_note opt = EmptyString)
    ∧ "CONFIG_CC_STACKPROTECTOR_STRONG" ∈ config_key <$> required_opts
    ∧ "CONFIG_DEVPTS_MULTIPLE_INSTANCES" ∈ config_key <$> required_opts.
Proof.
  intros Hb Hm. eexists. split; [by apply check_config_run|]. simpl.
  split.
  { f_equal. unfold warned. destruct (config_missing bl ml) as [|opt ms]; [done|].
    by rewrite config_warning_lines. }
  split; [reflexivity|]. split; [reflexivity|].
  split.
  { intros opt H1 H2. unfold config_note.
    apply String.eqb_neq in H1, H2. by rewrite H1, H2. }
  split; by_compute.
Qed.

(** C6 with nothing configured: every required key is missing. *)
Lemma C6_witness :
  ∃ w',
    _do_check_config plugin0 1 2 (check_world [] [] []) = (Ok tt, w')
    ∧ stdout w'
      = stdout (check_world [] [] [])
          ++ warned (λ ms, (NL +:+ config_msg +:+ NL)
                             +:+ Py.join
                                   ((λ opt, opt +:+ " " +:+ config_note opt +:+ NL) <$> ms))
                    (config_missing [] [])
    ∧ config_note "CONFIG_CC_STACKPROTECTOR_STRONG"
      = "(4.1.x and later versions only)"
    ∧ config_note "CONFIG_DEVPTS_MULTIPLE_INSTANCES"
      = "(4.8.x and earlier versions only)"
    ∧ (∀ opt, opt ≠ "CONFIG_CC_STACKPROTECTOR_STRONG" →
              opt ≠ "CONFIG_DEVPTS_MULTIPLE_INSTANCES" →
              config_note opt = EmptyString)
    ∧ "CONFIG_CC_STACKPROTECTOR_STRONG" ∈ config_key <$> required_opts
    ∧ "CONFIG_DEVPTS_MULTIPLE_INSTANCES" ∈ config_key <$> required_opts.
Proof.
  apply (C6_two_annotated_codes plugin0 1 2 [] [] (check_world [] [] []));
    reflexivity.
Defined.

(** A decidable property of all required codes, by evaluation. *)
Lemma all_required (P : string → Prop) `{∀ c, Decision (P c)} :
  bool_decide (Forall P required_opts) = true →
  ∀ c, c ∈ required_opts → P c.
Proof. intros H0%bool_decide_eq_true. by apply Forall_forall. Qed.

(** When one code alone is unsatisfied, what is collected is the key of
    that code, once per place the code has in the list. *)
Lemma missing_single (bl ml : list string) (code : string) (codes : list string) :
  (∀ c, c ∈ codes → c ≠ code → config_key c ∈ bl ∨ config_key c ∈ ml) →
  config_key code ∉ bl → config_key code ∉ ml →
  filter (λ opt, ¬ (opt ∈ bl ∨ opt ∈ ml)) (config_key <$> codes)
  = config_key <$> filter (λ c, c = code) codes.
Proof.
  intros Hall Hb Hm. induction codes as [|c codes IH]; [done|].
  rewrite fmap_cons, (filter_cons (λ c, c = code)).
  destruct (decide (c = code)) as [->|Hne].
  - rewrite filter_cons_True by tauto. rewrite fmap_cons. f_equal.
    apply IH. intros c Hc. apply Hall. by apply list_elem_of_further.
  - rewrite filter_cons_False.
    + apply IH. intros c' Hc'. apply Hall. by apply list_elem_of_further.
    + intros Hn. apply Hn. apply Hall; [apply list_elem_of_here | done].
Qed.

(** The four codes declared in two groups occur twice in the
    concatenation, every other code once. *)
Lemma required_occurrences (code : string) :
  code ∈ required_opts →
  filter (λ c, c = code) required_opts
  = replicate
      (if decide (code ∈ ["DEVTMPFS"; "IPV6"; "TMPFS_POSIX_ACL"; "SECCOMP"])
       then 2 else 1)
      code.
Proof.
  intros H.
  cbv [required_opts required_generic required_security required_snappy
       required_systemd app] in H.
  repeat (apply elem_of_cons in H as [->|H]; [by vm_compute|]).
  by apply not_elem_of_nil in H.
Qed.

(** C4 fails as stated: without [CONFIG_DEVTMPFS], and with every other
    required key built in, the warning has two lines for [CONFIG_DEVTMPFS], not one:
    [DEVTMPFS] is declared in the generic group and again in the systemd
    group. *)
Lemma C4_counterexample :
  "DEVTMPFS" ∈ required_opts
  ∧ (∀ c, c ∈ required_opts → c ≠ "DEVTMPFS" →
          config_key c ∈ keys_without "DEVTMPFS" ∨ config_key c ∈ [])
  ∧ (config_key "DEVTMPFS" ∉ keys_without "DEVTMPFS")
  ∧ (config_key "DEVTMPFS" ∉ @nil string)
  ∧ _do_check_config plugin0 1 2 (check_world [] (keys_without "DEVTMPFS") [])
    = (Ok tt,
       World [[]; keys_without "DEVTMPFS"; [];
              ["CONFIG_DEVTMPFS"; "CONFIG_DEVTMPFS"]]
             [config_warning ["CONFIG_DEVTMPFS"; "CONFIG_DEVTMPFS"]]
             no_files)
  ∧ config_warning ["CONFIG_DEVTMPFS"; "CONFIG_DEVTMPFS"]
    ≠ config_warning ["CONFIG_DEVTMPFS"].
Proof.
  split; [by_compute|].
  split.
  { apply (all_required
             (λ c, c ≠ "DEVTMPFS" →
                   config_key c ∈ keys_without "DEVTMPFS" ∨ config_key c ∈ [])).
    by vm_compute. }
  split; [by_compute|].
  split; [by_compute|].
  split; [reflexivity | by vm_compute].
Qed.

(** C4, amended: when exactly one required code is unsatisfied, the
    completeness warning consists of entries for that code alone, one for
    each place the code has in the four groups: two for [DEVTMPFS],
    [IPV6], [TMPFS_POSIX_ACL] and [SECCOMP], which the systemd group
    declares again, and exactly one for every other code. *)
Theorem C4_single_missing_code
    (self : PluginImpl) (builtin modules : loc) (bl ml : list string)
    (code : string) (w : world) :
  heap w !! builtin = Some bl → heap w !! modules = Some ml →
  code ∈ required_opts →
  (∀ c, c ∈ required_opts → c ≠ code → config_key c ∈ bl ∨ config_key c ∈ ml) →
  config_key code ∉ bl → config_key code ∉ ml →
  ∃ n : nat,
    n = (if decide (code ∈ ["DEVTMPFS"; "IPV6"; "TMPFS_POSIX_ACL"; "SECCOMP"])
         then 2 else 1)
    ∧ _do_check_config self builtin modules w
      = (Ok tt,
         World (heap w ++ [replicate n (config_key code)])
               (stdout w ++ [config_warning (replicate n (config_key code))])
               (fs w)).
Proof.
  intros Hb Hm Hin Hall Hnb Hnm. eexists. split; [reflexivity|].
  rewrite (check_config_run self _ _ bl ml) by done.
  unfold config_missing.
  rewrite (missing_single bl ml code) by done.
  rewrite required_occurrences by done. rewrite fmap_replicate.
  by destruct (decide _).
Qed.

(** C4 with [CONFIG_SQUASHFS] alone missing. *)
Lemma C4_witness :
  ∃ n : nat,
    n = (if decide ("SQUASHFS" ∈ ["DEVTMPFS"; "IPV6"; "TMPFS_POSIX_ACL"; "SECCOMP"])
         then 2 else 1)
    ∧ _do_check_config plugin0 1 2 (check_world [] (keys_without "SQUASHFS") [])
      = (Ok tt,
         World (heap (check_world [] (keys_without "SQUASHFS") [])
                  ++ [replicate n (config_key "SQUASHFS")])
               (stdout (check_world [] (keys_without "SQUASHFS") [])
                  ++ [config_warning (replicate n (config_key "SQUASHFS"))])
               (fs (check_world [] (keys_without "SQUASHFS") []))).
Proof.
  apply (C4_single_missing_code plugin0 1 2 (keys_without "SQUASHFS") []
           "SQUASHFS" (check_world [] (keys_without "SQUASHFS") [])).
  - reflexivity.
  - reflexivity.
  - apply (bool_decide_unpack _). vm_compute. exact I.
  - apply (all_required
             (λ c, c ≠ "SQUASHFS" →
                   config_key c ∈ keys_without "SQUASHFS" ∨ config_key c ∈ [])).
    vm_compute. reflexivity.
  - apply (bool_decide_unpack _). vm_compute. exact I.
  - apply (bool_decide_unpack _). vm_compute. exact I.
Defined.

(** ** Properties of the boot-essential check *)

(** C3 fails as stated, in its last sentence: with [CONFIG_SQUASHFS] both
    built in and a module (a config file with
    a [=y] line and a [=m] line for it gives that), and no [squashfs] in
    the initrd list, nothing is missing and nothing is echoed. *)
Lemma C3_counterexample :
  "CONFIG_SQUASHFS" ∈ ["CONFIG_SQUASHFS"]
  ∧ ("squashfs" ∉ @nil string)
  ∧ _do_parse_config plugin0 ".config"
      (World [[]] [] (one_file ".config"
                        ("CONFIG_SQUASHFS=y" +:+ NL +:+ "CONFIG_SQUASHFS=m" +:+ NL)))
    = (Ok (1, 2),
       World [[]; ["CONFIG_SQUASHFS"]; ["CONFIG_SQUASHFS"]] []
             (one_file ".config"
                ("CONFIG_SQUASHFS=y" +:+ NL +:+ "CONFIG_SQUASHFS=m" +:+ NL)))
  ∧ _do_check_initrd plugin0 1 2
      (check_world [] ["CONFIG_SQUASHFS"] ["CONFIG_SQUASHFS"])
    = (Ok tt,
       World [[]; ["CONFIG_SQUASHFS"]; ["CONFIG_SQUASHFS"]; []] [] no_files).
Proof.
  split; [by_compute|]. split; [by_compute|]. split; reflexivity.
Qed.

(** C3, amended: for each code of the boot list, which holds [squashfs]
    only, [CONFIG_] + the upper-cased code is satisfied when it is in
    [builtin], or when it is in [modules] and the code as written, in
    lower case, is an element of [kernel_initrd_modules]; the others are
    collected, and a warning of its own is echoed when there is one. In
    particular, with [CONFIG_SQUASHFS] in [modules] and not in [builtin],
    and [squashfs] not among the initrd modules, the warning is echoed;
    with [CONFIG_SQUASHFS] in [modules] and [squashfs] among the initrd
    modules nothing is missing. *)
Theorem C3_boot_essential_check
    (self : PluginImpl) (builtin modules : loc) (bl ml kl : list string) (w : world) :
  heap w !! builtin = Some bl → heap w !! modules = Some ml →
  heap w !! kernel_initrd_modules (opts self) = Some kl →
  ∃ missing w',
    missing
    = (λ code, "CONFIG_" +:+ Py.upper code)
        <$> filter (λ code, ¬ ("CONFIG_" +:+ Py.upper code ∈ bl
                               ∨ ("CONFIG_" +:+ Py.upper code ∈ ml ∧ code ∈ kl)))
                   required_boot
    ∧ required_boot = ["squashfs"]
    ∧ _do_check_initrd self builtin modules w = (Ok tt, w')
    ∧ heap w' = heap w ++ [missing]
    ∧ (missing = [] → stdout w' = stdout w)
    ∧ (missing ≠ [] → stdout w' = stdout w ++ [initrd_warning missing])
    ∧ ("CONFIG_SQUASHFS" ∈ bl → missing = [])
    ∧ ("CONFIG_SQUASHFS" ∈ ml → "squashfs" ∈ kl → missing = [])
    ∧ ("CONFIG_SQUASHFS" ∉ bl → "CONFIG_SQUASHFS" ∈ ml → "squashfs" ∉ kl →
       missing = ["CONFIG_SQUASHFS"]
       ∧ stdout w' = stdout w ++ [initrd_warning ["CONFIG_SQUASHFS"]])
    ∧ ("CONFIG_SQUASHFS" ∉ bl → "CONFIG_SQUASHFS" ∉ ml →
       missing = ["CONFIG_SQUASHFS"]).
Proof.
  intros Hb Hm Hk. exists (initrd_missing bl ml kl). eexists.
  split; [reflexivity|]. split; [reflexivity|].
  split; [by eapply check_initrd_run|]. simpl.
  split; [done|].
  split; [intros ->; simpl; by rewrite app_nil_r|].
  split; [by destruct (initrd_missing bl ml kl)|].
  assert (Hcase : initrd_missing bl ml kl
                  = if decide (boot_satisfied bl ml kl "squashfs")
                    then [] else ["CONFIG_SQUASHFS"]).
  { unfold initrd_missing, required_boot. rewrite filter_cons, filter_nil.
    destruct (decide (boot_satisfied bl ml kl "squashfs")).
    - by rewrite decide_False by tauto.
    - by rewrite decide_True by tauto. }
  rewrite Hcase. clear Hcase. unfold boot_satisfied.
  change (config_key (Py.upper "squashfs")) with "CONFIG_SQUASHFS".
  destruct (decide _) as [Hs|Hs]; simpl.
  - split; [done|]. split; [done|]. split; [tauto|]. tauto.
  - split; [tauto|]. split; [tauto|]. by split.
Qed.

(** C3 with [CONFIG_SQUASHFS] a module that the initrd bundles. *)
Lemma C3_witness :
  ∃ missing w',
    missing
    = (λ code, "CONFIG_" +:+ Py.upper code)
        <$> filter (λ code, ¬ ("CONFIG_" +:+ Py.upper code ∈ @nil string
                               ∨ ("CONFIG_" +:+ Py.upper code ∈ ["CONFIG_SQUASHFS"]
                                  ∧ code ∈ ["squashfs"])))
                   required_boot
    ∧ required_boot = ["squashfs"]
    ∧ _do_check_initrd plugin0 1 2 (check_world ["squashfs"] [] ["CONFIG_SQUASHFS"])
      = (Ok tt, w')
    ∧ heap w' = heap (check_world ["squashfs"] [] ["CONFIG_SQUASHFS"]) ++ [missing]
    ∧ (missing = [] →
       stdout w' = stdout (check_world ["squashfs"] [] ["CONFIG_SQUASHFS"]))
    ∧ (missing ≠ [] →
       stdout w' = stdout (check_world ["squashfs"] [] ["CONFIG_SQUASHFS"])
                     ++ [initrd_warning missing])
    ∧ ("CONFIG_SQUASHFS" ∈ @nil string → missing = [])
    ∧ ("CONFIG_SQUASHFS" ∈ ["CONFIG_SQUASHFS"] → "squashfs" ∈ ["squashfs"] →
       missing = [])
    ∧ ("CONFIG_SQUASHFS" ∉ @nil string → "CONFIG_SQUASHFS" ∈ ["CONFIG_SQUASHFS"] →
       "squashfs" ∉ ["squashfs"] →
       missing = ["CONFIG_SQUASHFS"]
       ∧ stdout w' = stdout (check_world ["squashfs"] [] ["CONFIG_SQUASHFS"])
                       ++ [initrd_warning ["CONFIG_SQUASHFS"]])
    ∧ ("CONFIG_SQUASHFS" ∉ @nil string → "CONFIG_SQUASHFS" ∉ ["CONFIG_SQUASHFS"] →
       missing = ["CONFIG_SQUASHFS"]).
Proof.
  apply (C3_boot_essential_check plugin0 1 2 [] ["CONFIG_SQUASHFS"] ["squashfs"]
           (check_world ["squashfs"] [] ["CONFIG_SQUASHFS"]));
    reflexivity.
Defined.

(** Module only, and the initrd does not bundle it: the warning. *)
Example check_initrd_module_only :
  _do_check_initrd plugin0 1 2 (check_world [] [] ["CONFIG_SQUASHFS"])
  = (Ok tt,
     World [[]; []; ["CONFIG_SQUASHFS"]; ["CONFIG_SQUASHFS"]]
           [NL +:+ initrd_msg +:+ NL +:+ "CONFIG_SQUASHFS" +:+ NL] no_files).
Proof. reflexivity. Qed.

(** ** Properties of both checks *)

(** C5: whatever [builtin], [modules] and the initrd list hold, each of the
    two checks ends normally, and so do the two in a row as
    [check_new_config] runs them; all they add to the console is at most
    one warning each. *)
Theorem C5_checks_never_fail
    (self : PluginImpl) (builtin modules : loc) (bl ml kl : list string) (w : world) :
  heap w !! builtin = Some bl → heap w !! modules = Some ml →
  heap w !! kernel_initrd_modules (opts self) = Some kl →
  (∃ w', _do_check_initrd self builtin modules w = (Ok tt, w'))
  ∧ ∃ w1 w2 warnings,
      _do_check_config self builtin modules w = (Ok tt, w1)
      ∧ _do_check_initrd self builtin modules w1 = (Ok tt, w2)
      ∧ stdout w2 = stdout w ++ warnings
      ∧ length warnings ≤ 2.
Proof.
  intros Hb Hm Hk. split.
  { eexists. by eapply check_initrd_run. }
  eexists _, _, (warned config_warning (config_missing bl ml)
                 ++ warned initrd_warning (initrd_missing bl ml kl)).
  split; [by apply check_config_run|].
  split; [apply (check_initrd_run self _ _ bl ml kl); simpl;
          by apply lookup_app_l_Some|].
  simpl. split; [by rewrite app_assoc|].
  rewrite length_app.
  destruct (config_missing bl ml), (initrd_missing bl ml kl); simpl; lia.
Qed.

(** C5 with nothing configured. *)
Lemma C5_witness :
  (∃ w', _do_check_initrd plugin0 1 2 (check_world ["squashfs"] [] []) = (Ok tt, w'))
  ∧ ∃ w1 w2 warnings,
      _do_check_config plugin0 1 2 (check_world ["squashfs"] [] []) = (Ok tt, w1)
      ∧ _do_check_initrd plugin0 1 2 w1 = (Ok tt, w2)
      ∧ stdout w2 = stdout (check_world ["squashfs"] [] []) ++ warnings
      ∧ length warnings ≤ 2.
Proof.
  apply (C5_checks_never_fail plugin0 1 2 [] [] ["squashfs"]
           (check_world ["squashfs"] [] []));
    reflexivity.
Defined.

(** C8: the two checks change no list that existed before them, so
    [builtin], [modules] and the initrd list are as they were, and the
    file system is the same; what they leave behind is their own
    [missing] lists and the console output. *)
Theorem C8_checks_leave_inputs_alone
    (self : PluginImpl) (builtin modules : loc) (bl ml kl : list string) (w : world) :
  heap w !! builtin = Some bl → heap w !! modules = Some ml →
  heap w !! kernel_initrd_modules (opts self) = Some kl →
  ∃ w1 w2,
    _do_check_config self builtin modules w = (Ok tt, w1)
    ∧ _do_check_initrd self builtin modules w1 = (Ok tt, w2)
    ∧ (∀ l xs, heap w !! l = Some xs → heap w1 !! l = Some xs ∧ heap w2 !! l = Some xs)
    ∧ heap w2 !! builtin = Some bl
    ∧ heap w2 !! modules = Some ml
    ∧ heap w2 !! kernel_initrd_modules (opts self) = Some kl
    ∧ fs w1 = fs w ∧ fs w2 = fs w
    ∧ (∃ out, stdout w2 = stdout w ++ out).
Proof.
  intros Hb Hm Hk. eexists _, _.
  split; [by apply check_config_run|].
  split; [apply (check_initrd_run self _ _ bl ml kl); simpl;
          by apply lookup_app_l_Some|].
  simpl.
  assert (Hkeep : ∀ l xs, heap w !! l = Some xs →
            (heap w ++ [config_missing bl ml]) !! l = Some xs
            ∧ ((heap w ++ [config_missing bl ml]) ++ [initrd_missing bl ml kl]) !! l
              = Some xs).
  { intros l xs H. split; repeat apply lookup_app_l_Some; done. }
  split; [done|].
  split; [by apply Hkeep|]. split; [by apply Hkeep|]. split; [by apply Hkeep|].
  split; [done|]. split; [done|].
  eexists. by rewrite <- app_assoc.
Qed.

(** C8 with one key built in. *)
Lemma C8_witness :
  ∃ w1 w2,
    _do_check_config plugin0 1 2 (check_world ["squashfs"] ["CONFIG_NET"] []) = (Ok tt, w1)
    ∧ _do_check_initrd plugin0 1 2 w1 = (Ok tt, w2)
    ∧ (∀ l xs, heap (check_world ["squashfs"] ["CONFIG_NET"] []) !! l = Some xs →
               heap w1 !! l = Some xs ∧ heap w2 !! l = Some xs)
    ∧ heap w2 !! 1 = Some ["CONFIG_NET"]
    ∧ heap w2 !! 2 = Some []
    ∧ heap w2 !! kernel_initrd_modules (opts plugin0) = Some ["squashfs"]
    ∧ fs w1 = fs (check_world ["squashfs"] ["CONFIG_NET"] [])
    ∧ fs w2 = fs (check_world ["squashfs"] ["CONFIG_NET"] [])
    ∧ (∃ out, stdout w2 = stdout (check_world ["squashfs"] ["CONFIG_NET"] []) ++ out).
Proof.
  apply (C8_checks_leave_inputs_alone plugin0 1 2 ["CONFIG_NET"] [] ["squashfs"]
           (check_world ["squashfs"] ["CONFIG_NET"] []));
    reflexivity.
Defined.

(** ** The whole check on the sample file *)

(** [CONFIG_SECURITY] is built in and [CONFIG_SQUASHFS] is a module that the
    initrd bundles: one completeness warning, for every other required
    key, and no boot warning. *)
Example check_new_config_sample :
  check_new_config plugin0 ".config" (world_with sample_config)
  = (Ok tt,
     World [["squashfs"]; ["CONFIG_SECURITY"; "CONFIG_SECURITY"]; ["CONFIG_SQUASHFS"];
            filter (λ opt, opt ≠ "CONFIG_SECURITY" ∧ opt ≠ "CONFIG_SQUASHFS")
                   (config_key <$> required_opts);
            []]
           ["Checking created config...";
            config_warning
              (filter (λ opt, opt ≠ "CONFIG_SECURITY" ∧ opt ≠ "CONFIG_SQUASHFS")
                      (config_key <$> required_opts))]
           (one_file ".config" sample_config)).
Proof. reflexivity. Qed.
(** ** Facts about the additional built-ins *)

Module BuildFacts.
Import Build.

Lemma has_include_cons (c : ascii) (r : string) :
  has_include (String c r)
  = (Ascii.eqb c "-"%char && starts_with_I r) || has_include r.
Proof. reflexivity. Qed.

(** What is left after a match starts with white space, if with anything. *)
Lemma sub_include_inside_head (s : string) :
  starts_with_I (PyLib.sub_include true s) = false.
Proof.
  induction s as [|c r IH]; [done|]. simpl.
  destruct (Py.isspace c) eqn:E; [|done]. simpl.
  destruct (Ascii.eqb_spec c "I"%char) as [->|]; [discriminate E | done].
Qed.

Lemma sub_include_outside_head (c : ascii) (r : string) :
  c ≠ "I"%char → starts_with_I (PyLib.sub_include false (String c r)) = false.
Proof.
  intros Hc. simpl.
  assert (Hn : Ascii.eqb c "I"%char = false) by by apply Ascii.eqb_neq.
  destruct (Ascii.eqb c "-"%char); [|by simpl].
  destruct r as [|c' r']; [by simpl|].
  destruct (Ascii.eqb c' "I"%char); [apply sub_include_inside_head | by simpl].
Qed.

Lemma sub_include_clean_aux (n : nat) :
  ∀ (inside : bool) (s : string),
    String.length s ≤ n → has_include (PyLib.sub_include inside s) = false.
Proof.
  induction n as [|n IH]; intros inside [|c r] Hlen; try done.
  { simpl in Hlen. lia. }
  simpl in Hlen. assert (Hr : String.length r ≤ n) by lia.
  destruct inside.
  - simpl. destruct (Py.isspace c) eqn:E; [|by apply IH].
    rewrite has_include_cons, (IH false r Hr), orb_false_r.
    destruct (Ascii.eqb_spec c "-"%char) as [->|]; [discriminate E | done].
  - cbn [PyLib.sub_include].
    destruct (Ascii.eqb c "-"%char) eqn:Ec.
    + destruct r as [|c' r']; [simpl; by rewrite andb_false_r|].
      destruct (Ascii.eqb c' "I"%char) eqn:Ec'.
      * apply IH. simpl in Hr. lia.
      * rewrite has_include_cons, (IH false _ Hr), orb_false_r.
        rewrite sub_include_outside_head; [by rewrite andb_false_r|].
        by apply Ascii.eqb_neq.
    + by rewrite has_include_cons, Ec, (IH false r Hr).
Qed.

Lemma sub_include_fixed (s : string) :
  has_include s = false → PyLib.sub_include false s = s.
Proof.
  induction s as [|c r IH]; [done|].
  rewrite has_include_cons. intros [H1 H2]%orb_false_elim.
  cbn [PyLib.sub_include].
  destruct (Ascii.eqb c "-"%char) eqn:Ec.
  - destruct r as [|c' r']; [done|]. simpl in H1.
    rewrite H1. by rewrite (IH H2).
  - by rewrite (IH H2).
Qed.

(** [has_include] is the substring test. *)
Lemma has_include_spec (s : string) :
  has_include s = true ↔ ∃ a b, s = a +:+ "-I" +:+ b.
Proof.
  split.
  - induction s as [|c r IH]; [done|].
    rewrite has_include_cons. intros [H|H]%orb_true_iff.
    + apply andb_true_iff in H as [->%Ascii.eqb_eq H].
      destruct r as [|c' r']; [done|]. simpl in H.
      apply Ascii.eqb_eq in H as ->. by exists EmptyString, r'.
    + destruct (IH H) as (a & b & ->). by exists (String c a), b.
  - intros (a & b & ->). induction a as [|c a IH]; [done|].
    change (String c a +:+ "-I" +:+ b) with (String c (a +:+ "-I" +:+ b)).
    rewrite has_include_cons, IH. apply orb_true_r.
Qed.

(** [rfind] and [install_dtb]. *)
Lemma rfind_none (c : ascii) (s : string) :
  Py.count c s = 0 → PyLib.rfind c s = (-1)%Z.
Proof.
  induction s as [|c' r IH]; [done|]. simpl.
  destruct (Ascii.eqb c' c); [done|]. simpl. intros H. by rewrite (IH H).
Qed.

Lemma rfind_last (c : ascii) (a b : string) :
  Py.count c b = 0 →
  PyLib.rfind c (a +:+ String c b) = Z.of_nat (String.length a).
Proof.
  intros Hb. induction a as [|c' a IH].
  - change (EmptyString +:+ String c b) with (String c b). simpl.
    by rewrite (rfind_none _ _ Hb), Ascii.eqb_refl.
  - change (String c' a +:+ String c b) with (String c' (a +:+ String c b)).
    cbn [PyLib.rfind]. rewrite IH.
    destruct (0 <=? Z.of_nat (String.length a))%Z eqn:E; [simpl; lia|].
    apply Z.leb_gt in E. lia.
Qed.

Lemma drop_app (a b : string) : PyLib.drop (String.length a) (a +:+ b) = b.
Proof. induction a as [|c a IH]; [by destruct b | exact IH]. Qed.

Lemma length_str_app (a b : string) :
  String.length (a +:+ b) = String.length a + String.length b.
Proof.
  induction a as [|c a IH]; [done|].
  change (S (String.length (a +:+ b)) = S (String.length a + String.length b)).
  by rewrite IH.
Qed.

(** ** Device tree blobs *)

Lemma drop_S_app (a : string) (c : ascii) (b : string) :
  PyLib.drop (S (String.length a)) (a +:+ String c b) = b.
Proof. induction a as [|c' a IH]; [by destruct b | exact IH]. Qed.

(** X1: the installed name of a device tree blob is its base name: what
    follows the last [/] of its path. The one exception is a path whose
    only [/] is its first character, which is kept whole. A name without
    [/] is kept as it is. *)
Theorem install_dtb_base_name (dir base : string) :
  Py.count "/"%char base = 0 →
  (dir ≠ EmptyString → install_dtb (dir +:+ "/" +:+ base) = base)
  ∧ install_dtb ("/" +:+ base) = "/" +:+ base
  ∧ install_dtb base = base.
Proof.
  intros Hb. unfold install_dtb. split; [|split].
  - intros Hdir.
    change (dir +:+ "/" +:+ base) with (dir +:+ String "/"%char base).
    rewrite (rfind_last _ _ _ Hb).
    destruct dir as [|c d]; [done|].
    assert (E : (0 <? Z.of_nat (String.length (String c d)))%Z = true)
      by (apply Z.ltb_lt; simpl; lia).
    rewrite E. unfold PyLib.slice_from.
    assert (E2 : (Z.of_nat (String.length (String c d)) + 1 <? 0)%Z = false)
      by (apply Z.ltb_ge; lia).
    rewrite E2, length_str_app.
    replace (Z.to_nat (Z.min (Z.of_nat (String.length (String c d)) + 1)
                             (Z.of_nat (String.length (String c d)
                                        + String.length (String "/"%char base)))))
      with (S (String.length (String c d))) by (simpl; lia).
    apply drop_S_app.
  - change ("/" +:+ base) with (EmptyString +:+ String "/"%char base).
    by rewrite (rfind_last _ _ _ Hb).
  - by rewrite (rfind_none _ _ Hb).
Qed.

Lemma install_dtb_base_name_witness :
  ("arm/boot" ≠ EmptyString → install_dtb ("arm/boot" +:+ "/" +:+ "pi.dtb") = "pi.dtb")
  ∧ install_dtb ("/" +:+ "pi.dtb") = "/" +:+ "pi.dtb"
  ∧ install_dtb "pi.dtb" = "pi.dtb".
Proof. apply (install_dtb_base_name "arm/boot" "pi.dtb"). reflexivity. Defined.

(** ** The include filter of MAKEFLAGS *)

(** X2: what [re.sub] leaves of a MAKEFLAGS value holds no [-I] any more,
    whatever the value; a value without [-I] comes out unchanged, so
    filtering twice is filtering once. *)
Theorem sub_include_removes_all (flags : string) :
  (¬ ∃ a b, PyLib.sub_include false flags = a +:+ "-I" +:+ b)
  ∧ ((¬ ∃ a b, flags = a +:+ "-I" +:+ b) → PyLib.sub_include false flags = flags)
  ∧ PyLib.sub_include false (PyLib.sub_include false flags)
    = PyLib.sub_include false flags.
Proof.
  assert (Hclean : has_include (PyLib.sub_include false flags) = false)
    by (by apply (sub_include_clean_aux (String.length flags))).
  split; [|split].
  - intros H%has_include_spec. congruence.
  - intros H. apply sub_include_fixed.
    destruct (has_include flags) eqn:E; [|done].
    by apply has_include_spec in E.
  - by apply sub_include_fixed.
Qed.

Example sub_include_ex :
  PyLib.sub_include false "-j4 -I/usr/include --no-print -Ifoo -I x--I-Iy z"
  = "-j4  --no-print   x- z".
Proof. reflexivity. Qed.

(** ** Running the build plugin *)

Lemma bind_Done {A C} (m : B A) (k : A → B C) s a s' :
  m s = (Done a, s') → (m ≫= k) s = k a s'.
Proof. unfold mbind, B_bind. by intros ->. Qed.

Lemma bind_Fail {A C} (m : B A) (k : A → B C) s e s' :
  m s = (Fail e, s') → (m ≫= k) s = (Fail e, s').
Proof. unfold mbind, B_bind. by intros ->. Qed.

(** A computation that fails makes every sequel fail. *)
Lemma bind_fails {A C} (m : B A) (k : A → B C) s :
  (∀ a s', m s = (Done a, s') → ∃ e s'', k a s' = (Fail e, s'')) →
  ∃ e s', (m ≫= k) s = (Fail e, s').
Proof.
  intros H. unfold mbind, B_bind.
  destruct (m s) as [[a|e] s'] eqn:E; [by apply H | by eauto].
Qed.

Lemma click_echo_run (msg : string) s :
  click_echo msg s = (Done tt, with_console [msg] s).
Proof. reflexivity. Qed.

Lemma setattr_run (f : attrs → attrs) s : setattr f s = (Done tt, with_attrs f s).
Proof. reflexivity. Qed.

Lemma getattr_run {A} (name : string) (proj : attrs → option A) (v : A) s :
  proj (self_attrs s) = Some v → getattr name proj s = (Done v, s).
Proof. unfold getattr. by intros ->. Qed.

Lemma getattr_unset {A} (name : string) (proj : attrs → option A) s :
  proj (self_attrs s) = None →
  getattr name proj s = (Fail (AttributeError name), s).
Proof. unfold getattr. by intros ->. Qed.

(** The invariant rule of [for], for a body that cannot fail. *)
Lemma for_in_inv {A} (I : list A → state → Prop) (body : A → B unit)
    (xs : list A) :
  (∀ done x s, I done s → ∃ s', body x s = (Done tt, s') ∧ I (done ++ [x]) s') →
  ∀ done s, I done s →
  ∃ s', for_in xs body s = (Done tt, s') ∧ I (done ++ xs) s'.
Proof.
  intros Hstep. induction xs as [|x xs IH]; intros done s HI.
  - exists s. by rewrite app_nil_r.
  - destruct (Hstep done x s HI) as (s1 & E1 & HI1).
    destruct (IH (done ++ [x]) s1 HI1) as (s2 & E2 & HI2).
    exists s2. simpl. rewrite (bind_Done _ _ _ _ _ E1).
    by rewrite <- app_assoc in HI2.
Qed.

(** ** The target architecture *)

Lemma prefix_app (p s : string) :
  String.prefix p s = true → ∃ r, s = p +:+ r.
Proof.
  revert s. induction p as [|c p IH]; intros s H.
  - by exists s.
  - destruct s as [|c' s]; [done|]. simpl in H.
    destruct (ascii_dec c c') as [->|]; [|done].
    destruct (IH s H) as (r & ->). by exists r.
Qed.

Lemma prefix_self_app (p r : string) : String.prefix p (p +:+ r) = true.
Proof.
  induction p as [|c p IH]; [by destruct r|].
  change (String c p +:+ r) with (String c (p +:+ r)). simpl.
  by destruct (ascii_dec c c).
Qed.

(** Under [startswith("--target-arch=")] the word has a second token. *)
Lemma arg_target_is_Some (arg : string) :
  PyLib.startswith arg "--target-arch=" = true →
  ∃ v, Py.split "="%char arg !! 1 = Some v.
Proof.
  intros (r & ->)%prefix_app.
  change ("--target-arch=" +:+ r) with ("--target-arch" +:+ String "="%char r).
  rewrite split_app by reflexivity.
  pose proof (split_length "="%char r) as Hlen.
  destruct (Py.split "="%char r) as [|v vs]; [done|]. by exists v.
Qed.

Lemma arg_target_value (v : string) :
  Py.count "="%char v = 0 → arg_target ("--target-arch=" +:+ v) = Some v.
Proof.
  intros Hv. unfold arg_target.
  unfold PyLib.startswith. rewrite prefix_self_app.
  change ("--target-arch=" +:+ v) with ("--target-arch" +:+ String "="%char v).
  rewrite split_app by reflexivity. by rewrite (split_no_sep _ _ Hv).
Qed.

Lemma set_target_arch_twice (v v' : option string) (a : attrs) :
  set_target_arch v (set_target_arch v' a) = set_target_arch v a.
Proof. reflexivity. Qed.

Lemma with_attrs_twice (f g : attrs → attrs) s :
  with_attrs f (with_attrs g s) = with_attrs (f ∘ g) s.
Proof. reflexivity. Qed.

Lemma target_loop_run (argv : list string) (t0 : option string) s :
  for_in argv (fun arg =>
    if PyLib.startswith arg "--target-arch="
    then v ← list_item (Py.split "="%char arg) 1;
         setattr (set_target_arch (Some v))
    else mret tt) (with_attrs (set_target_arch t0) s)
  = (Done tt,
     with_attrs (set_target_arch
                   (match last (omap arg_target argv) with
                    | Some v => Some v
                    | None => t0
                    end)) s).
Proof.
  revert t0. induction argv as [|arg argv IH]; intros t0; [done|].
  cbn [for_in omap list_omap]. unfold arg_target at 1.
  destruct (PyLib.startswith arg "--target-arch=") eqn:E.
  - destruct (arg_target_is_Some arg E) as (v & Hv). rewrite Hv.
    erewrite bind_Done.
    2:{ erewrite bind_Done by (unfold list_item; rewrite Hv; reflexivity).
        apply setattr_run. }
    rewrite with_attrs_twice.
    change (set_target_arch (Some v) ∘ set_target_arch t0)
      with (set_target_arch (Some v)).
    rewrite IH. do 2 f_equal.
    change (list_omap string string arg_target argv) with (omap arg_target argv).
    rewrite last_cons. by destruct (last (omap arg_target argv)).
  - erewrite bind_Done by reflexivity. apply IH.
Qed.

Lemma get_target_architecture_run (self : Opt.t) s :
  _get_target_architecture self s
  = (Done tt,
     with_console ["Target architecture: " +:+ the_target s]
       (with_attrs (set_target_arch (Some (the_target s))) s)).
Proof.
  unfold _get_target_architecture.
  rewrite (bind_Done _ _ _ _ _ (setattr_run _ _)).
  erewrite bind_Done by reflexivity.
  change (sys_argv (with_attrs (set_target_arch None) s)) with (sys_argv s).
  rewrite (bind_Done _ _ _ _ _ (target_loop_run _ _ _)).
  unfold the_target, argv_target.
  destruct (last (omap arg_target (sys_argv s))) as [v|]; reflexivity.
Qed.

Lemma not_startswith_omap (argv : list string) :
  Forall (λ a, PyLib.startswith a "--target-arch=" = false) argv →
  omap arg_target argv = [].
Proof.
  induction 1 as [|a argv Ha _ IH]; [done|].
  simpl. unfold arg_target at 1. by rewrite Ha.
Qed.

(** X3: [_get_target_architecture] never fails. It sets [target_arch] to
    the value of the last command line word that starts with
    [--target-arch=], and to the architecture of the host when no word
    does, and echoes it; nothing else changes. A word
    [--target-arch=] with nothing behind it gives the empty string. *)
Theorem target_architecture_from_command_line (self : Opt.t) (s : state) :
  ∃ t,
    _get_target_architecture self s
    = (Done tt,
       with_console ["Target architecture: " +:+ t]
         (with_attrs (set_target_arch (Some t)) s))
    ∧ (Forall (λ a, PyLib.startswith a "--target-arch=" = false) (sys_argv s) →
       t = project_deb_arch s)
    ∧ (∀ pre v post,
         sys_argv s = pre ++ ("--target-arch=" +:+ v) :: post →
         Py.count "="%char v = 0 →
         Forall (λ a, PyLib.startswith a "--target-arch=" = false) post →
         t = v).
Proof.
  exists (the_target s). split; [apply get_target_architecture_run|].
  unfold the_target, argv_target. split.
  - intros H. by rewrite (not_startswith_omap _ H).
  - intros pre v post -> Hv Hpost.
    rewrite omap_app. cbn [omap list_omap].
    rewrite (arg_target_value v Hv).
    change (list_omap string string arg_target post) with (omap arg_target post).
    rewrite (not_startswith_omap _ Hpost).
    by rewrite last_snoc.
Qed.

Example target_architecture_ex :
  the_target (fresh ["snapcraft"; "--target-arch=armhf"; "build";
                     "--target-arch=arm64=x"; "--target-arch"] ∅)
  = "arm64".
Proof. reflexivity. Qed.

(** ** The architecture tables *)

Ltac known_cases H :=
  unfold known_arch in H;
  repeat (apply elem_of_cons in H as [->|H]); [..|by apply not_elem_of_nil in H].

Lemma get_deb_architecture_known (self : Opt.t) (t : string) s :
  target_arch (self_attrs s) = Some (Some t) → t ∈ known_arch →
  _get_deb_architecture self s = (Done tt, with_attrs (set_deb_arch t) s).
Proof.
  intros Ht Hk. unfold _get_deb_architecture.
  rewrite (bind_Done _ _ _ _ _ (getattr_run _ _ _ _ Ht)).
  known_cases Hk; repeat case_decide; simplify_eq; reflexivity.
Qed.

Lemma get_kernel_architecture_known (self : Opt.t) (t : string) s :
  target_arch (self_attrs s) = Some (Some t) → t ∈ known_arch →
  _get_kernel_architecture self s
  = (Done tt, with_attrs (set_kernel_arch (kernel_arch_of t)) s).
Proof.
  intros Ht Hk. unfold _get_kernel_architecture.
  rewrite (bind_Done _ _ _ _ _ (getattr_run _ _ _ _ Ht)).
  known_cases Hk; repeat case_decide; simplify_eq; reflexivity.
Qed.

Lemma unknown_arch_ne (t : string) :
  t ∉ known_arch →
  Some t ≠ Some "armhf" ∧ Some t ≠ Some "arm64"
  ∧ Some t ≠ Some "riscv64" ∧ Some t ≠ Some "amd64".
Proof.
  intros H. repeat split; intros [= ->]; apply H; unfold known_arch;
    repeat (first [apply list_elem_of_here | apply list_elem_of_further]).
Qed.

Lemma get_deb_architecture_unknown (self : Opt.t) (t : string) s :
  target_arch (self_attrs s) = Some (Some t) → t ∉ known_arch →
  _get_deb_architecture self s
  = (Done tt, with_console ["Unknown deb architecture!!!"] s).
Proof.
  intros Ht (H1 & H2 & H3 & H4)%unknown_arch_ne. unfold _get_deb_architecture.
  rewrite (bind_Done _ _ _ _ _ (getattr_run _ _ _ _ Ht)).
  by rewrite !decide_False.
Qed.

Lemma get_kernel_architecture_unknown (self : Opt.t) (t : string) s :
  target_arch (self_attrs s) = Some (Some t) → t ∉ known_arch →
  _get_kernel_architecture self s
  = (Done tt, with_console ["Unknown kernel architecture!!!"] s).
Proof.
  intros Ht (H1 & H2 & H3 & H4)%unknown_arch_ne. unfold _get_kernel_architecture.
  rewrite (bind_Done _ _ _ _ _ (getattr_run _ _ _ _ Ht)).
  by rewrite !decide_False.
Qed.

(** ** Cross compilation and the make command *)

Lemma obj_read_run (l : loc) (xs : list string) s :
  objects s !! l = Some xs → obj_read l s = (Done xs, s).
Proof. unfold obj_read. by intros ->. Qed.

Lemma obj_append_run (l : loc) (x : string) (xs : list string) s :
  objects s !! l = Some xs →
  obj_append l x s = (Done tt, set_objects (<[l := xs ++ [x]]> (objects s)) s).
Proof. unfold obj_append. by intros ->. Qed.

Lemma obj_new_run (xs : list string) s :
  obj_new xs s = (Done (length (objects s)), set_objects (objects s ++ [xs]) s).
Proof. reflexivity. Qed.

Lemma obj_copy_run (l : loc) (xs : list string) s :
  objects s !! l = Some xs →
  obj_copy l s = (Done (length (objects s)), set_objects (objects s ++ [xs]) s).
Proof.
  intros H. unfold obj_copy.
  by rewrite (bind_Done _ _ _ _ _ (obj_read_run _ _ _ H)).
Qed.

Lemma obj_setitem_run (l : loc) (i : nat) (x : string) (xs : list string) s :
  objects s !! l = Some xs → i < length xs →
  obj_setitem l i x s
  = (Done tt, set_objects (<[l := <[i := x]> xs]> (objects s)) s).
Proof. unfold obj_setitem. intros -> H. by rewrite decide_True. Qed.

Lemma obj_setitem_short (l : loc) (i : nat) (x : string) (xs : list string) s :
  objects s !! l = Some xs → length xs ≤ i →
  obj_setitem l i x s = (Fail IndexError, s).
Proof. unfold obj_setitem. intros -> H. rewrite decide_False; [done | lia]. Qed.

Lemma check_cross_compilation_run (self : Opt.t) (t k : string) (l : loc)
    (words : list string) s :
  target_arch (self_attrs s) = Some (Some t) →
  kernel_arch (self_attrs s) = Some k →
  make_cmd (self_attrs s) = Some l →
  objects s !! l = Some words →
  _check_cross_compilation self s
  = (Done tt,
     if decide (os_environ s !! "SNAP_ARCH" ≠ Some t)
     then set_objects
            (<[l := words ++ ["ARCH=" +:+ k; "CROSS_COMPILE=${SNAPCRAFT_ARCH_TRIPLET}-"]]>
               (objects s))
            (with_console ["Configuring cross build to " +:+ k] s)
     else s).
Proof.
  intros Ht Hk Hl Hw. unfold _check_cross_compilation.
  erewrite bind_Done by reflexivity.
  rewrite (bind_Done _ _ _ _ _ (getattr_run _ _ _ _ Ht)).
  destruct (decide (os_environ s !! "SNAP_ARCH" ≠ Some t)); [|done].
  rewrite (bind_Done _ _ _ _ _ (getattr_run _ _ _ _ Hk)).
  rewrite (bind_Done _ _ _ _ _ (click_echo_run _ _)).
  erewrite bind_Done by (by apply getattr_run).
  erewrite bind_Done by (by apply getattr_run).
  erewrite bind_Done by (by apply obj_append_run).
  erewrite bind_Done by (by apply getattr_run).
  erewrite obj_append_run.
  2:{ simpl. apply list_lookup_insert_eq. by eapply lookup_lt_Some. }
  simpl. rewrite list_insert_insert_eq. by rewrite <- app_assoc.
Qed.

(** With no target architecture that it knows, the method fails on the
    first attribute it reads that was never set. *)
Lemma check_cross_compilation_unset (self : Opt.t) (t : string) s :
  target_arch (self_attrs s) = Some (Some t) →
  kernel_arch (self_attrs s) = None →
  os_environ s !! "SNAP_ARCH" ≠ Some t →
  _check_cross_compilation self s = (Fail (AttributeError "kernel_arch"), s).
Proof.
  intros Ht Hk Hne. unfold _check_cross_compilation.
  erewrite bind_Done by reflexivity.
  rewrite (bind_Done _ _ _ _ _ (getattr_run _ _ _ _ Ht)).
  rewrite decide_True by done.
  by rewrite (bind_Fail _ _ _ _ _ (getattr_unset _ _ _ Hk)).
Qed.

(** ** The kernel targets *)

Lemma nonempty_fmap {A C} (f : A → C) (l : list A) :
  nonempty (f <$> l) = nonempty l.
Proof. by destruct l. Qed.

Lemma set_kernel_targets_run (self : Opt.t) (d k kit : string) s :
  deb_arch (self_attrs s) = Some d →
  kernel_arch (self_attrs s) = Some k →
  chosen_image_target self d = Some kit →
  _set_kernel_targets self s
  = (Done tt,
     with_attrs
       (λ a,
          let ds := (λ i, i +:+ ".dtb") <$> Opt.kernel_device_trees self in
          let auto := negb (nonempty ds) && bool_decide (k ∈ ["arm"; "arm64"; "riscv64"]) in
          Attrs (target_arch a) (deb_arch a) (kernel_arch a) (make_cmd a)
            (Some kit)
            (Some ([kit; "modules"] ++ ds ++ (if auto then ["dtbs"] else [])))
            (Some (["modules_install"; "INSTALL_MOD_STRIP=1";
                    "INSTALL_MOD_PATH=${SNAPCRAFT_PART_INSTALL}"]
                   ++ (if auto
                       then ["dtbs_install";
                             "INSTALL_DTBS_PATH=${SNAPCRAFT_PART_INSTALL}/dtbs"]
                       else [])
                   ++ (if Opt.kernel_with_firmware self
                       then ["firmware_install";
                             "INSTALL_FW_PATH=${SNAPCRAFT_PART_INSTALL}/lib/firmware"]
                       else [])))
            (Some ds)
            (initrd_arch a) (uc_series a) (initrd_snap_url a)
            (vanilla_initrd_snap a))
       s).
Proof.
  intros Hd Hk Hkit. destruct s as [a h c argv env host]. simpl in Hd, Hk.
  destruct a as [ta da ka mc ki mt mi dt ia us iu vs]. simpl in Hd, Hk. subst da ka.
  unfold _set_kernel_targets, chosen_image_target in *.
  assert (Hfirst :
    (if negb (truthy_target (Opt.kernel_image_target self))
     then d0 ← getattr "deb_arch" deb_arch;
          v ← dict_item default_kernel_image_target d0;
          setattr (set_kernel_image_target v)
     else match Opt.kernel_image_target self with
          | Opt.TargetStr s => setattr (set_kernel_image_target s)
          | Opt.TargetDict dict =>
              d0 ← getattr "deb_arch" deb_arch;
              match dict !! d0 with
              | Some _ =>
                  d1 ← getattr "deb_arch" deb_arch;
                  v ← dict_item dict d1;
                  setattr (set_kernel_image_target v)
              | None => mret tt
              end
          end)
      (State (Attrs ta (Some d) (Some k) mc ki mt mi dt ia us iu vs) h c argv env host)
    = (Done tt,
       State (Attrs ta (Some d) (Some k) mc (Some kit) mt mi dt ia us iu vs)
             h c argv env host)).
  { destruct (Opt.kernel_image_target self) as [o|dict]; simpl.
    - destruct (truthy o); simpl.
      + by injection Hkit as ->.
      + unfold mbind, B_bind, getattr, dict_item. simpl. by rewrite Hkit.
    - destruct (bool_decide (dict = ∅)); simpl.
      + unfold mbind, B_bind, getattr, dict_item. simpl. by rewrite Hkit.
      + unfold mbind, B_bind, getattr, dict_item. simpl. rewrite Hkit. simpl.
        unfold mbind, B_bind, dict_item. by rewrite Hkit. }
  rewrite (bind_Done _ _ _ _ _ Hfirst). clear Hfirst Hkit.
  unfold _get_fw_install_targets.
  destruct (Opt.kernel_device_trees self) as [|tree trees];
    destruct (bool_decide (k ∈ ["arm"; "arm64"; "riscv64"])) eqn:Ek;
    destruct (Opt.kernel_with_firmware self);
    unfold mbind, B_bind, mret, B_ret, getattr, setattr, with_attrs;
    cbn -[String.append]; rewrite ?Ek; cbn -[String.append];
    rewrite ?app_nil_r; reflexivity.
Qed.

(** ** [_init_build_env] for a known architecture *)

(** Brings a state built by the run lemmas to its six components. *)
Ltac norm_state :=
  unfold with_console, with_attrs, set_objects;
  cbn [self_attrs objects console sys_argv os_environ project_deb_arch].

Lemma init_build_env_known (self : Opt.t) (kit : string) s :
  the_target s ∈ known_arch →
  chosen_image_target self (the_target s) = Some kit →
  _init_build_env self s
  = (Done tt,
     let t := the_target s in
     let cross := bool_decide (os_environ s !! "SNAP_ARCH" ≠ Some t) in
     State (init_attrs self t kit (length (objects s)))
           (objects s ++ [make_words cross (kernel_arch_of t)])
           (console s
            ++ ["Initializing build env..."; "Target architecture: " +:+ t]
            ++ (if cross
                then ["Configuring cross build to " +:+ kernel_arch_of t]
                else [])
            ++ init_warnings self)
           (sys_argv s) (os_environ s) (project_deb_arch s)).
Proof.
  intros Hknown Hkit. destruct s as [a h c argv env host].
  unfold the_target in *. cbn [sys_argv project_deb_arch] in *.
  set (t := default host (argv_target argv)) in *.
  unfold _init_build_env.
  rewrite (bind_Done _ _ _ _ _ (click_echo_run _ _)).
  rewrite (bind_Done _ _ _ _ _ (get_target_architecture_run _ _)).
  unfold the_target. norm_state.
  fold t.
  erewrite bind_Done by (by apply (get_deb_architecture_known self t)).
  erewrite bind_Done by (by apply (get_kernel_architecture_known self t)).
  norm_state.
  rewrite (bind_Done _ _ _ _ _ (obj_new_run _ _)).
  rewrite (bind_Done _ _ _ _ _ (setattr_run _ _)).
  norm_state.
  erewrite bind_Done by (by apply getattr_run).
  erewrite bind_Done by (apply obj_append_run; apply heap_tail_lookup).
  norm_state.
  rewrite heap_tail_insert.
  erewrite bind_Done by (by apply getattr_run).
  erewrite bind_Done by (apply obj_append_run; apply heap_tail_lookup).
  norm_state.
  rewrite heap_tail_insert.
  erewrite bind_Done by (by apply getattr_run).
  erewrite bind_Done by (apply obj_append_run; apply heap_tail_lookup).
  norm_state.
  rewrite heap_tail_insert.
  erewrite bind_Done.
  2:{ eapply (check_cross_compilation_run self t (kernel_arch_of t) (length h));
        [reflexivity | reflexivity | reflexivity | apply heap_tail_lookup]. }
  norm_state.
  rewrite heap_tail_insert.
  assert (Htail : ∀ objs out,
    (_set_kernel_targets self;;
     t0 ← getattr "target_arch" target_arch;
     setattr (set_initrd_arch t0);;
     setattr (set_uc_series "20");;
     (if negb (String.eqb (Opt.kernel_initrd_channel self) "stable")
         && truthy (Opt.kernel_initrd_base_url self)
      then click_echo ("Warning: kernel-initrd-channel and kernel-initrd-base-url "
                 +:+ "are defined at the same time, kernel-initrd-channel "
                 +:+ "will be ignored!!")
      else mret tt);;
     (if truthy (Opt.kernel_initrd_flavour self)
         && negb (truthy (Opt.kernel_initrd_base_url self))
      then click_echo ("Warning: kernel-initrd-flavour is defined without "
                 +:+ "kernel-initrd-base-url, it will be ignored!!")
      else mret tt);;
     series ← getattr "uc_series" uc_series;
     arch ← getattr "initrd_arch" initrd_arch;
     setattr (set_initrd_snap_url None);;
     (if truthy (Opt.kernel_initrd_base_url self)
      then setattr
             (set_initrd_snap_url
                (Some (_INITRD_URL (Opt.kernel_initrd_base_url self)
                         (_INITRD_SNAP_FILE _INITRD_SNAP_NAME series
                            (if truthy (Opt.kernel_initrd_base_url self)
                             then if truthy (Opt.kernel_initrd_flavour self)
                                  then "-" +:+ Opt.kernel_initrd_flavour self
                                  else EmptyString
                             else "-" +:+ Opt.kernel_initrd_channel self)
                            (PyLib.fmt arch)))))
      else mret tt);;
     setattr
       (set_vanilla_initrd_snap
          (PyLib.path_join "${SNAPCRAFT_PART_BUILD}"
             (_INITRD_SNAP_FILE _INITRD_SNAP_NAME series
                (if truthy (Opt.kernel_initrd_base_url self)
                 then if truthy (Opt.kernel_initrd_flavour self)
                      then "-" +:+ Opt.kernel_initrd_flavour self
                      else EmptyString
                 else "-" +:+ Opt.kernel_initrd_channel self)
                (PyLib.fmt arch)))))
      (State (set_make_cmd (length h)
                (set_kernel_arch (kernel_arch_of t)
                   (set_deb_arch t (set_target_arch (Some t) a))))
             objs out argv env host)
    = (Done tt,
       State (init_attrs self t kit (length h)) objs
             (out ++ init_warnings self) argv env host)).
  { intros objs out.
    erewrite bind_Done
      by (by apply (set_kernel_targets_run self t (kernel_arch_of t) kit)).
    unfold init_attrs, init_warnings, initrd_snap_file_name,
      channel_warning, flavour_warning.
    destruct a as [ta da ka mc ki mt mi dt ia us iu vs].
    unfold mbind, B_bind, mret, B_ret, getattr, setattr, click_echo, with_attrs.
    cbn -[String.append PyLib.path_join _INITRD_SNAP_FILE _INITRD_URL].
    destruct (negb (String.eqb (Opt.kernel_initrd_channel self) "stable"));
      destruct (truthy (Opt.kernel_initrd_base_url self));
      destruct (truthy (Opt.kernel_initrd_flavour self));
      cbn -[String.append PyLib.path_join _INITRD_SNAP_FILE _INITRD_URL];
      rewrite <- ?app_assoc, ?app_nil_r; reflexivity. }
  destruct (decide (env !! "SNAP_ARCH" ≠ Some t)) as [Hc|Hc].
  - rewrite bool_decide_eq_true_2 by done.
    norm_state. rewrite ?heap_tail_insert, Htail.
    unfold make_words. by rewrite <- !app_assoc.
  - rewrite bool_decide_eq_false_2 by done.
    norm_state. rewrite Htail.
    unfold make_words. by rewrite <- !app_assoc, app_nil_r.
Qed.

Lemma default_image_target_known (t : string) :
  t ∈ known_arch → is_Some (default_kernel_image_target !! t).
Proof. intros H. known_cases H; by eexists. Qed.

Lemma chosen_image_target_str (self : Opt.t) (o t : string) :
  Opt.kernel_image_target self = Opt.TargetStr o → t ∈ known_arch →
  ∃ kit, chosen_image_target self t = Some kit
         ∧ (o ≠ EmptyString → kit = o)
         ∧ (o = EmptyString → default_kernel_image_target !! t = Some kit).
Proof.
  intros Ho Ht. unfold chosen_image_target. rewrite Ho.
  destruct o as [|c o]; simpl.
  - destruct (default_image_target_known t Ht) as [kit Hkit].
    exists kit. by rewrite Hkit.
  - by exists (String c o).
Qed.

(** X4: for each of the four architectures it knows (armhf, arm64,
    riscv64, amd64) and a [kernel-image-target] that is a string,
    [_init_build_env] ends normally, whatever the attributes were before.
    It sets [deb_arch] to the target and [kernel_arch] to arm, arm64,
    riscv or x86; the image target is the option when it is not empty, and
    else the entry of [default_kernel_image_target], which has one for
    each of the four. *)
Theorem init_build_env_architectures (self : Opt.t) (o : string) (s : state) :
  the_target s ∈ known_arch →
  Opt.kernel_image_target self = Opt.TargetStr o →
  ∃ s' k kit,
    _init_build_env self s = (Done tt, s')
    ∧ target_arch (self_attrs s') = Some (Some (the_target s))
    ∧ initrd_arch (self_attrs s') = Some (Some (the_target s))
    ∧ deb_arch (self_attrs s') = Some (the_target s)
    ∧ kernel_arch (self_attrs s') = Some k
    ∧ (the_target s = "armhf" → k = "arm")
    ∧ (the_target s = "arm64" → k = "arm64")
    ∧ (the_target s = "riscv64" → k = "riscv")
    ∧ (the_target s = "amd64" → k = "x86")
    ∧ kernel_image_target (self_attrs s') = Some kit
    ∧ (o ≠ EmptyString → kit = o)
    ∧ (o = EmptyString → default_kernel_image_target !! the_target s = Some kit).
Proof.
  intros Hk Ho.
  destruct (chosen_image_target_str self o _ Ho Hk) as (kit & Hkit & H1 & H2).
  eexists _, (kernel_arch_of (the_target s)), kit.
  split; [by apply init_build_env_known|]. cbn.
  repeat split; try done; by intros ->.
Qed.

Lemma init_build_env_architectures_witness :
  ∃ s' k kit,
    _init_build_env default_options (fresh ["snapcraft"; "--target-arch=riscv64"] ∅)
    = (Done tt, s')
    ∧ target_arch (self_attrs s') = Some (Some "riscv64")
    ∧ initrd_arch (self_attrs s') = Some (Some "riscv64")
    ∧ deb_arch (self_attrs s') = Some "riscv64"
    ∧ kernel_arch (self_attrs s') = Some k
    ∧ ("riscv64" = "armhf" → k = "arm")
    ∧ ("riscv64" = "arm64" → k = "arm64")
    ∧ ("riscv64" = "riscv64" → k = "riscv")
    ∧ ("riscv64" = "amd64" → k = "x86")
    ∧ kernel_image_target (self_attrs s') = Some kit
    ∧ (EmptyString ≠ EmptyString → kit = EmptyString)
    ∧ (EmptyString = EmptyString → default_kernel_image_target !! "riscv64" = Some kit).
Proof.
  apply (init_build_env_architectures default_options EmptyString
           (fresh ["snapcraft"; "--target-arch=riscv64"] ∅)).
  - apply (bool_decide_unpack _). vm_compute. exact I.
  - reflexivity.
Defined.

(** X5: what [_init_build_env] makes of the device trees. With
    [kernel-device-trees] given, the make targets are the image target,
    [modules] and one [.dtb] per tree, in the order given, whatever the
    architecture. Without, the target [dtbs] (and [dtbs_install] among the
    install targets) is added for armhf and arm64 only: never for riscv64,
    whose kernel architecture is [riscv] and not the [riscv64] the method
    compares with, and never for amd64. *)
Theorem init_build_env_device_trees (self : Opt.t) (o : string) (s : state) :
  the_target s ∈ known_arch →
  Opt.kernel_image_target self = Opt.TargetStr o →
  ∃ s' kit mt mi,
    _init_build_env self s = (Done tt, s')
    ∧ kernel_image_target (self_attrs s') = Some kit
    ∧ make_targets (self_attrs s') = Some mt
    ∧ make_install_targets (self_attrs s') = Some mi
    ∧ dtbs (self_attrs s')
      = Some ((λ i, i +:+ ".dtb") <$> Opt.kernel_device_trees self)
    ∧ (Opt.kernel_device_trees self ≠ [] →
       mt = [kit; "modules"] ++ ((λ i, i +:+ ".dtb") <$> Opt.kernel_device_trees self)
       ∧ "dtbs_install" ∉ mi)
    ∧ (Opt.kernel_device_trees self = [] →
       (the_target s = "armhf" ∨ the_target s = "arm64" →
        mt = [kit; "modules"; "dtbs"] ∧ "dtbs_install" ∈ mi)
       ∧ (the_target s = "riscv64" ∨ the_target s = "amd64" →
          mt = [kit; "modules"] ∧ "dtbs_install" ∉ mi)).
Proof.
  intros Hk Ho.
  destruct (chosen_image_target_str self o _ Ho Hk) as (kit & Hkit & _ & _).
  eexists _, kit, _, _.
  split; [by apply init_build_env_known|]. cbn -[String.append].
  split; [done|]. split; [reflexivity|]. split; [reflexivity|]. split; [done|].
  split.
  - intros Htrees. destruct (Opt.kernel_device_trees self) as [|tr trs]; [done|].
    cbn -[String.append]. rewrite app_nil_r. split; [done|].
    destruct (Opt.kernel_with_firmware self); cbn; by_compute.
  - intros ->. cbn -[String.append]. split.
    + intros [-> | ->]; cbn; (split; [done|]);
        destruct (Opt.kernel_with_firmware self); cbn; by_compute.
    + intros [-> | ->]; cbn; (split; [done|]);
        destruct (Opt.kernel_with_firmware self); cbn; by_compute.
Qed.

Lemma init_build_env_device_trees_witness :
  ∃ s' kit mt mi,
    _init_build_env default_options (fresh ["snapcraft"; "--target-arch=riscv64"] ∅)
    = (Done tt, s')
    ∧ kernel_image_target (self_attrs s') = Some kit
    ∧ make_targets (self_attrs s') = Some mt
    ∧ make_install_targets (self_attrs s') = Some mi
    ∧ dtbs (self_attrs s')
      = Some ((λ i, i +:+ ".dtb") <$> Opt.kernel_device_trees default_options)
    ∧ (Opt.kernel_device_trees default_options ≠ [] →
       mt = [kit; "modules"]
            ++ ((λ i, i +:+ ".dtb") <$> Opt.kernel_device_trees default_options)
       ∧ "dtbs_install" ∉ mi)
    ∧ (Opt.kernel_device_trees default_options = [] →
       ("riscv64" = "armhf" ∨ "riscv64" = "arm64" →
        mt = [kit; "modules"; "dtbs"] ∧ "dtbs_install" ∈ mi)
       ∧ ("riscv64" = "riscv64" ∨ "riscv64" = "amd64" →
          mt = [kit; "modules"] ∧ "dtbs_install" ∉ mi)).
Proof.
  apply (init_build_env_device_trees default_options EmptyString
           (fresh ["snapcraft"; "--target-arch=riscv64"] ∅)).
  - apply (bool_decide_unpack _). vm_compute. exact I.
  - reflexivity.
Defined.

Lemma truthy_true (x : string) : truthy x = true ↔ x ≠ EmptyString.
Proof. unfold truthy. by destruct x. Qed.

Lemma truthy_false (x : string) : truthy x = false ↔ x = EmptyString.
Proof. unfold truthy. by destruct x. Qed.

(** X6: [_init_build_env] makes a new list for [make_cmd] and leaves every
    list that existed as it was. For a native build ([SNAP_ARCH] in the
    environment equal to the target) the list holds the five words
    [make -j$(nproc) -C ${KERNEL_SRC} O=${SNAPCRAFT_PART_BUILD}]; otherwise,
    also when [SNAP_ARCH] is not set, [ARCH=] with the kernel architecture
    and [CROSS_COMPILE=${SNAPCRAFT_ARCH_TRIPLET}-] follow, in that order. *)
Theorem init_build_env_make_cmd (self : Opt.t) (o : string) (s : state) :
  the_target s ∈ known_arch →
  Opt.kernel_image_target self = Opt.TargetStr o →
  ∃ s' words k,
    _init_build_env self s = (Done tt, s')
    ∧ make_cmd (self_attrs s') = Some (length (objects s))
    ∧ objects s' = objects s ++ [words]
    ∧ (∀ l xs, objects s !! l = Some xs → objects s' !! l = Some xs)
    ∧ kernel_arch (self_attrs s') = Some k
    ∧ (os_environ s !! "SNAP_ARCH" = Some (the_target s) →
       words = ["make"; "-j$(nproc)"; "-C"; "${KERNEL_SRC}";
                "O=${SNAPCRAFT_PART_BUILD}"])
    ∧ (os_environ s !! "SNAP_ARCH" ≠ Some (the_target s) →
       words = ["make"; "-j$(nproc)"; "-C"; "${KERNEL_SRC}";
                "O=${SNAPCRAFT_PART_BUILD}"; "ARCH=" +:+ k;
                "CROSS_COMPILE=${SNAPCRAFT_ARCH_TRIPLET}-"]).
Proof.
  intros Hk Ho.
  destruct (chosen_image_target_str self o _ Ho Hk) as (kit & Hkit & _ & _).
  eexists _, _, (kernel_arch_of (the_target s)).
  split; [by apply init_build_env_known|]. cbn -[String.append].
  split; [done|]. split; [done|].
  split; [intros l xs H; by apply lookup_app_l_Some|].
  split; [done|]. unfold make_words. split.
  - intros H. by rewrite bool_decide_eq_false_2 by (by intros ?).
  - intros H. by rewrite bool_decide_eq_true_2.
Qed.

Lemma init_build_env_make_cmd_witness :
  ∃ s' words k,
    _init_build_env default_options
      (fresh ["snapcraft"] (<["SNAP_ARCH" := "amd64"]> ∅))
    = (Done tt, s')
    ∧ make_cmd (self_attrs s')
      = Some (length (objects (fresh ["snapcraft"] (<["SNAP_ARCH" := "amd64"]> ∅))))
    ∧ objects s'
      = objects (fresh ["snapcraft"] (<["SNAP_ARCH" := "amd64"]> ∅)) ++ [words]
    ∧ (∀ l xs,
         objects (fresh ["snapcraft"] (<["SNAP_ARCH" := "amd64"]> ∅)) !! l = Some xs →
         objects s' !! l = Some xs)
    ∧ kernel_arch (self_attrs s') = Some k
    ∧ (os_environ (fresh ["snapcraft"] (<["SNAP_ARCH" := "amd64"]> ∅)) !! "SNAP_ARCH"
       = Some (the_target (fresh ["snapcraft"] (<["SNAP_ARCH" := "amd64"]> ∅))) →
       words = ["make"; "-j$(nproc)"; "-C"; "${KERNEL_SRC}";
                "O=${SNAPCRAFT_PART_BUILD}"])
    ∧ (os_environ (fresh ["snapcraft"] (<["SNAP_ARCH" := "amd64"]> ∅)) !! "SNAP_ARCH"
       ≠ Some (the_target (fresh ["snapcraft"] (<["SNAP_ARCH" := "amd64"]> ∅))) →
       words = ["make"; "-j$(nproc)"; "-C"; "${KERNEL_SRC}";
                "O=${SNAPCRAFT_PART_BUILD}"; "ARCH=" +:+ k;
                "CROSS_COMPILE=${SNAPCRAFT_ARCH_TRIPLET}-"]).
Proof.
  apply (init_build_env_make_cmd default_options EmptyString
           (fresh ["snapcraft"] (<["SNAP_ARCH" := "amd64"]> ∅))).
  - apply (bool_decide_unpack _). vm_compute. exact I.
  - reflexivity.
Defined.

Lemma path_join_build (name : string) :
  PyLib.path_join "${SNAPCRAFT_PART_BUILD}" ("uc-initrd" +:+ name)
  = "${SNAPCRAFT_PART_BUILD}/uc-initrd" +:+ name.
Proof.
  unfold PyLib.path_join, PyLib.startswith.
  change ("uc-initrd" +:+ name) with (String "u"%char ("c-initrd" +:+ name)).
  cbn [String.prefix].
  destruct (ascii_dec "/"%char "u"%char) as [E|_]; [discriminate E|].
  reflexivity.
Qed.

(** X7: the initrd snap [_init_build_env] settles on. Without
    [kernel-initrd-base-url] the snap comes from the store: no URL, and a
    file name made of the channel, in which [kernel-initrd-flavour] plays
    no part. With a base URL the file name is made of the flavour, or of
    neither when there is no flavour, the channel plays no part, and the
    URL is the base URL, [/], and the file name. *)
Theorem init_build_env_initrd_snap (self : Opt.t) (o : string) (s : state) :
  the_target s ∈ known_arch →
  Opt.kernel_image_target self = Opt.TargetStr o →
  ∃ s' name url,
    _init_build_env self s = (Done tt, s')
    ∧ vanilla_initrd_snap (self_attrs s') = Some ("${SNAPCRAFT_PART_BUILD}/" +:+ name)
    ∧ initrd_snap_url (self_attrs s') = Some url
    ∧ uc_series (self_attrs s') = Some "20"
    ∧ (Opt.kernel_initrd_base_url self = EmptyString →
       name = "uc-initrd_20-" +:+ Opt.kernel_initrd_channel self
              +:+ "_" +:+ the_target s +:+ ".snap"
       ∧ url = None)
    ∧ (Opt.kernel_initrd_base_url self ≠ EmptyString →
       Opt.kernel_initrd_flavour self = EmptyString →
       name = "uc-initrd_20_" +:+ the_target s +:+ ".snap"
       ∧ url = Some (Opt.kernel_initrd_base_url self +:+ "/" +:+ name))
    ∧ (Opt.kernel_initrd_base_url self ≠ EmptyString →
       Opt.kernel_initrd_flavour self ≠ EmptyString →
       name = "uc-initrd_20-" +:+ Opt.kernel_initrd_flavour self
              +:+ "_" +:+ the_target s +:+ ".snap"
       ∧ url = Some (Opt.kernel_initrd_base_url self +:+ "/" +:+ name)).
Proof.
  intros Hk Ho.
  destruct (chosen_image_target_str self o _ Ho Hk) as (kit & Hkit & _ & _).
  eexists _, (initrd_snap_file_name self (the_target s)), _.
  split; [by apply init_build_env_known|].
  cbn -[String.append PyLib.path_join initrd_snap_file_name].
  split.
  { unfold initrd_snap_file_name, _INITRD_SNAP_FILE, _INITRD_SNAP_NAME.
    by rewrite path_join_build. }
  split; [reflexivity|]. split; [done|].
  unfold initrd_snap_file_name, _INITRD_SNAP_FILE, _INITRD_SNAP_NAME, _INITRD_URL.
  split; [|split].
  - intros Hb. apply truthy_false in Hb as Hb'. by rewrite Hb'.
  - intros Hb%truthy_true Hf%truthy_false. by rewrite Hb, Hf.
  - intros Hb%truthy_true Hf%truthy_true. by rewrite Hb, Hf.
Qed.

Lemma init_build_env_initrd_snap_witness :
  ∃ s' name url,
    _init_build_env custom_initrd_options (fresh ["snapcraft"] ∅) = (Done tt, s')
    ∧ vanilla_initrd_snap (self_attrs s') = Some ("${SNAPCRAFT_PART_BUILD}/" +:+ name)
    ∧ initrd_snap_url (self_attrs s') = Some url
    ∧ uc_series (self_attrs s') = Some "20"
    ∧ (Opt.kernel_initrd_base_url custom_initrd_options = EmptyString →
       name = "uc-initrd_20-" +:+ Opt.kernel_initrd_channel custom_initrd_options
              +:+ "_" +:+ the_target (fresh ["snapcraft"] ∅) +:+ ".snap"
       ∧ url = None)
    ∧ (Opt.kernel_initrd_base_url custom_initrd_options ≠ EmptyString →
       Opt.kernel_initrd_flavour custom_initrd_options = EmptyString →
       name = "uc-initrd_20_" +:+ the_target (fresh ["snapcraft"] ∅) +:+ ".snap"
       ∧ url = Some (Opt.kernel_initrd_base_url custom_initrd_options
                     +:+ "/" +:+ name))
    ∧ (Opt.kernel_initrd_base_url custom_initrd_options ≠ EmptyString →
       Opt.kernel_initrd_flavour custom_initrd_options ≠ EmptyString →
       name = "uc-initrd_20-" +:+ Opt.kernel_initrd_flavour custom_initrd_options
              +:+ "_" +:+ the_target (fresh ["snapcraft"] ∅) +:+ ".snap"
       ∧ url = Some (Opt.kernel_initrd_base_url custom_initrd_options
                     +:+ "/" +:+ name)).
Proof.
  apply (init_build_env_initrd_snap custom_initrd_options EmptyString
           (fresh ["snapcraft"] ∅)).
  - apply (bool_decide_unpack _). vm_compute. exact I.
  - reflexivity.
Defined.

Example init_build_env_custom_initrd :
  vanilla_initrd_snap
    (self_attrs (snd (_init_build_env custom_initrd_options (fresh ["snapcraft"] ∅))))
  = Some "${SNAPCRAFT_PART_BUILD}/uc-initrd_20-fde_amd64.snap"
  ∧ initrd_snap_url
      (self_attrs (snd (_init_build_env custom_initrd_options (fresh ["snapcraft"] ∅))))
    = Some (Some "https://example.org/snaps/uc-initrd_20-fde_amd64.snap").
Proof. split; reflexivity. Qed.

(** X8: what [_init_build_env] echoes: its opening line, the target
    architecture, a line on the cross build when it is one, and at most one
    warning. The channel warning comes exactly when a channel other than
    [stable] is given together with a base URL; the flavour warning exactly
    when a flavour is given without a base URL. *)
Theorem init_build_env_warnings (self : Opt.t) (o : string) (s : state) :
  the_target s ∈ known_arch →
  Opt.kernel_image_target self = Opt.TargetStr o →
  ∃ s' k cross warnings,
    _init_build_env self s = (Done tt, s')
    ∧ kernel_arch (self_attrs s') = Some k
    ∧ console s'
      = console s
        ++ ["Initializing build env..."; "Target architecture: " +:+ the_target s]
        ++ cross ++ warnings
    ∧ (os_environ s !! "SNAP_ARCH" = Some (the_target s) → cross = [])
    ∧ (os_environ s !! "SNAP_ARCH" ≠ Some (the_target s) →
       cross = ["Configuring cross build to " +:+ k])
    ∧ (warnings = [] ∨ warnings = [channel_warning] ∨ warnings = [flavour_warning])
    ∧ (warnings = [channel_warning] ↔
       Opt.kernel_initrd_channel self ≠ "stable"
       ∧ Opt.kernel_initrd_base_url self ≠ EmptyString)
    ∧ (warnings = [flavour_warning] ↔
       Opt.kernel_initrd_flavour self ≠ EmptyString
       ∧ Opt.kernel_initrd_base_url self = EmptyString).
Proof.
  intros Hk Ho.
  destruct (chosen_image_target_str self o _ Ho Hk) as (kit & Hkit & _ & _).
  eexists _, (kernel_arch_of (the_target s)), _, (init_warnings self).
  split; [by apply init_build_env_known|]. cbn -[String.append init_warnings].
  split; [done|]. split; [reflexivity|].
  split; [intros H; by rewrite bool_decide_eq_false_2 by (by intros ?)|].
  split; [intros H; by rewrite bool_decide_eq_true_2|].
  unfold init_warnings.
  destruct (String.eqb_spec (Opt.kernel_initrd_channel self) "stable") as [Hc|Hc];
    destruct (truthy (Opt.kernel_initrd_base_url self)) eqn:Hb;
    destruct (truthy (Opt.kernel_initrd_flavour self)) eqn:Hf;
    try apply truthy_true in Hb; try apply truthy_false in Hb;
    try apply truthy_true in Hf; try apply truthy_false in Hf;
    cbn [negb andb app];
    (split; [auto|]); split; split;
      try done; try (intros [? ?]; congruence); try (intros [= ?]; done).
Qed.

Lemma init_build_env_warnings_witness :
  ∃ s' k cross warnings,
    _init_build_env custom_initrd_options (fresh ["snapcraft"] ∅) = (Done tt, s')
    ∧ kernel_arch (self_attrs s') = Some k
    ∧ console s'
      = console (fresh ["snapcraft"] ∅)
        ++ ["Initializing build env...";
            "Target architecture: " +:+ the_target (fresh ["snapcraft"] ∅)]
        ++ cross ++ warnings
    ∧ (os_environ (fresh ["snapcraft"] ∅) !! "SNAP_ARCH"
       = Some (the_target (fresh ["snapcraft"] ∅)) → cross = [])
    ∧ (os_environ (fresh ["snapcraft"] ∅) !! "SNAP_ARCH"
       ≠ Some (the_target (fresh ["snapcraft"] ∅)) →
       cross = ["Configuring cross build to " +:+ k])
    ∧ (warnings = [] ∨ warnings = [channel_warning] ∨ warnings = [flavour_warning])
    ∧ (warnings = [channel_warning] ↔
       Opt.kernel_initrd_channel custom_initrd_options ≠ "stable"
       ∧ Opt.kernel_initrd_base_url custom_initrd_options ≠ EmptyString)
    ∧ (warnings = [flavour_warning] ↔
       Opt.kernel_initrd_flavour custom_initrd_options ≠ EmptyString
       ∧ Opt.kernel_initrd_base_url custom_initrd_options = EmptyString).
Proof.
  apply (init_build_env_warnings custom_initrd_options EmptyString
           (fresh ["snapcraft"] ∅)).
  - apply (bool_decide_unpack _). vm_compute. exact I.
  - reflexivity.
Defined.

(** ** The compression command *)

Lemma compression_tables (c : string) :
  (c ∈ ["gz"; "lz4"; "xz"] ↔ is_Some (_compression_command !! c))
  ∧ (c ∈ ["gz"; "lz4"; "xz"] ↔ is_Some (_compressor_options !! c)).
Proof.
  unfold _compression_command, _compressor_options. cbn [list_to_map foldr].
  destruct (decide (c = "gz")) as [->|H1]; [split; split; intros _; by_compute || by eexists|].
  destruct (decide (c = "lz4")) as [->|H2]; [split; split; intros _; by_compute || by eexists|].
  destruct (decide (c = "xz")) as [->|H3]; [split; split; intros _; by_compute || by eexists|].
  rewrite !lookup_insert_ne, lookup_empty by done.
  split; split; try (intros [? ?]; done);
    intros H; repeat (apply elem_of_cons in H as [?|H]; [done|]);
    by apply not_elem_of_nil in H.
Qed.

Lemma options_loop_run (opts : list string) (init : string) s :
  for_local opts init (fun opt options => mret (options +:+ " " +:+ opt)) s
  = (Done (init +:+ Py.join ((λ o, " " +:+ o) <$> opts)), s).
Proof.
  revert init. induction opts as [|o opts IH]; intros init.
  - simpl. by rewrite str_app_nil_r.
  - cbn [for_local]. erewrite bind_Done by reflexivity.
    rewrite IH, fmap_cons, join_cons. by rewrite str_app_assoc.
Qed.

(** X9: with ASCII text as [kernel-initrd-compression-options],
    [_compression_cmd] fails with [KeyError] on a compression other than
    gz, lz4 and xz, before it echoes anything and whatever the options.
    Otherwise it returns the compressor of the table, a space, and the
    options: those of the table when [kernel-initrd-compression-options]
    is empty, and else the given ones, each with a space before it (so
    that two spaces follow the compressor); it echoes one line that holds
    the [repr] of the command, and changes nothing else. *)
Theorem compression_cmd_text (self : Opt.t) (s : state) :
  Forall (λ o, Py.isascii o = true) (Opt.kernel_initrd_compression_options self) →
  (Opt.kernel_initrd_compression self ∉ ["gz"; "lz4"; "xz"] →
   _compression_cmd self s
   = (Fail (KeyError (Opt.kernel_initrd_compression self)), s))
  ∧ (Opt.kernel_initrd_compression self ∈ ["gz"; "lz4"; "xz"] →
     ∃ compressor options,
       _compression_command !! Opt.kernel_initrd_compression self = Some compressor
       ∧ _compression_cmd self s
         = (Done (compressor +:+ " " +:+ options),
            with_console
              ["Using initrd compressions command: "
               +:+ PyLib.repr (compressor +:+ " " +:+ options)] s)
       ∧ (Opt.kernel_initrd_compression_options self = [] →
          _compressor_options !! Opt.kernel_initrd_compression self = Some options)
       ∧ (Opt.kernel_initrd_compression_options self ≠ [] →
          options
          = Py.join ((λ o, " " +:+ o) <$> Opt.kernel_initrd_compression_options self))).
Proof.
  intros _.
  destruct (compression_tables (Opt.kernel_initrd_compression self)) as [H1 H2].
  unfold _compression_cmd. split.
  - intros Hn.
    destruct (_compression_command !! Opt.kernel_initrd_compression self) eqn:E.
    { exfalso. apply Hn, H1. by eexists. }
    erewrite bind_Fail; [done|]. unfold dict_item. by rewrite E.
  - intros Hin. destruct (proj1 H1 Hin) as [compressor Hc].
    destruct (proj1 H2 Hin) as [dflt Hd].
    exists compressor.
    destruct (Opt.kernel_initrd_compression_options self) as [|o opts] eqn:Eo.
    + exists dflt. split; [done|].
      erewrite bind_Done by (unfold dict_item; rewrite Hc; reflexivity).
      cbn [nonempty].
      erewrite bind_Done by (unfold dict_item; rewrite Hd; reflexivity).
      rewrite (bind_Done _ _ _ _ _ (click_echo_run _ _)).
      by repeat split.
    + exists (Py.join ((λ o, " " +:+ o) <$> o :: opts)). split; [done|].
      erewrite bind_Done by (unfold dict_item; rewrite Hc; reflexivity).
      cbn [nonempty].
      rewrite (bind_Done _ _ _ _ _ (options_loop_run _ _ _)).
      change (EmptyString +:+ Py.join ((λ o0, " " +:+ o0) <$> o :: opts))
        with (Py.join ((λ o0, " " +:+ o0) <$> o :: opts)).
      rewrite (bind_Done _ _ _ _ _ (click_echo_run _ _)).
      by repeat split.
Qed.

Lemma compression_cmd_text_witness :
  _compression_cmd
    (Opt.Make ["defconfig"] None EmptyString [] (Opt.TargetStr EmptyString)
       true [] "xz" ["-9"; "-T0"] "stable" EmptyString EmptyString false
       EmptyString [] [] false)
    (fresh [] ∅)
  = (Done "xz  -9 -T0",
     with_console ["Using initrd compressions command: 'xz  -9 -T0'"]
       (fresh [] ∅)).
Proof.
  destruct (compression_cmd_text
    (Opt.Make ["defconfig"] None EmptyString [] (Opt.TargetStr EmptyString)
       true [] "xz" ["-9"; "-T0"] "stable" EmptyString EmptyString false
       EmptyString [] [] false)
    (fresh [] ∅)) as [_ H]; [by_compute|].
  destruct H as (c & o & Hc & E & _ & Ho); [by_compute|].
  vm_compute in Hc. injection Hc as <-.
  rewrite (Ho ltac:(discriminate)) in E. exact E.
Defined.

Example compression_cmd_ex :
  fst (_compression_cmd default_options (fresh [] ∅)) = Done "lz4 -l -9"
  ∧ console (snd (_compression_cmd default_options (fresh [] ∅)))
    = ["Using initrd compressions command: 'lz4 -l -9'"].
Proof. split; reflexivity. Qed.

(** ** The commands for the device tree blobs *)

Lemma collect_loop_run {A} (f : A → string) (xs : list A) (cmd : list string) s :
  for_local xs cmd (fun x cmd => mret (cmd ++ [f x])) s
  = (Done (cmd ++ (f <$> xs)), s).
Proof.
  revert cmd. induction xs as [|x xs IH]; intros cmd.
  - simpl. by rewrite app_nil_r.
  - cbn [for_local]. erewrite bind_Done by reflexivity.
    rewrite IH, fmap_cons. by rewrite <- app_assoc.
Qed.

(** X10: [_copy_dtbs_cmd] gives the single empty command when
    [kernel-device-trees] is empty, without reading [self.dtbs]. Otherwise
    it fails with [AttributeError] when [self.dtbs] was never set, and
    else gives an [echo], a [mkdir] and one [ln -f] per blob of
    [self.dtbs], in their order, from the [dts] directory of the build to
    the installed name under [dtbs]; it changes nothing. *)
Theorem copy_dtbs_cmd_links (self : Opt.t) (s : state) :
  (Opt.kernel_device_trees self = [] →
   _copy_dtbs_cmd self s = (Done [EmptyString], s))
  ∧ (Opt.kernel_device_trees self ≠ [] → dtbs (self_attrs s) = None →
     _copy_dtbs_cmd self s = (Fail (AttributeError "dtbs"), s))
  ∧ (Opt.kernel_device_trees self ≠ [] → ∀ ds, dtbs (self_attrs s) = Some ds →
     _copy_dtbs_cmd self s
     = (Done (["echo " +:+ DQ +:+ "Copying custom dtbs..." +:+ DQ;
               "mkdir -p ${SNAPCRAFT_PART_INSTALL}/dtbs"]
              ++ ((λ dtb, "ln -f ${KERNEL_BUILD_ARCH_DIR}/dts/" +:+ dtb
                          +:+ " ${SNAPCRAFT_PART_INSTALL}/dtbs/" +:+ install_dtb dtb)
                    <$> ds)),
        s)).
Proof.
  unfold _copy_dtbs_cmd. split; [|split].
  - by intros ->.
  - intros Ht Hd. destruct (Opt.kernel_device_trees self); [done|]. cbn [nonempty negb].
    by rewrite (bind_Fail _ _ _ _ _ (getattr_unset _ _ _ Hd)).
  - intros Ht ds Hd. destruct (Opt.kernel_device_trees self); [done|].
    cbn [nonempty negb].
    rewrite (bind_Done _ _ _ _ _ (getattr_run _ _ _ _ Hd)).
    rewrite (collect_loop_run
               (λ dtb, PyLib.join_with " "
                         ["ln -f"; "${KERNEL_BUILD_ARCH_DIR}/dts/" +:+ dtb;
                          "${SNAPCRAFT_PART_INSTALL}/dtbs/" +:+ install_dtb dtb])).
    apply (f_equal (λ x, (Done x, s))). apply (f_equal2 app); [reflexivity|].
    apply list_fmap_ext. intros _ dtb _.
    unfold PyLib.join_with. cbn [String.concat].
    by rewrite !str_app_assoc.
Qed.

Lemma copy_dtbs_cmd_links_witness :
  _copy_dtbs_cmd
    (Opt.Make ["defconfig"] None EmptyString [] (Opt.TargetStr EmptyString)
       true ["broadcom/bcm2711-rpi-4-b"] "lz4" [] "stable" EmptyString
       EmptyString false EmptyString [] [] false)
    (State (set_dtbs ["broadcom/bcm2711-rpi-4-b.dtb"] no_attrs) [] [] [] ∅ "arm64")
  = (Done ["echo " +:+ DQ +:+ "Copying custom dtbs..." +:+ DQ;
           "mkdir -p ${SNAPCRAFT_PART_INSTALL}/dtbs";
           "ln -f ${KERNEL_BUILD_ARCH_DIR}/dts/broadcom/bcm2711-rpi-4-b.dtb "
             +:+ "${SNAPCRAFT_PART_INSTALL}/dtbs/bcm2711-rpi-4-b.dtb"],
     State (set_dtbs ["broadcom/bcm2711-rpi-4-b.dtb"] no_attrs) [] [] [] ∅ "arm64").
Proof.
  apply (proj2 (proj2 (copy_dtbs_cmd_links
    (Opt.Make ["defconfig"] None EmptyString [] (Opt.TargetStr EmptyString)
       true ["broadcom/bcm2711-rpi-4-b"] "lz4" [] "stable" EmptyString
       EmptyString false EmptyString [] [] false)
    (State (set_dtbs ["broadcom/bcm2711-rpi-4-b.dtb"] no_attrs) [] [] [] ∅ "arm64")))
    ltac:(discriminate) ["broadcom/bcm2711-rpi-4-b.dtb"] eq_refl).
Defined.

(** ** The configuration commands and [make_cmd] *)

(** X11: [_do_remake_config_cmd] works on a copy of [make_cmd]. With at
    least two words in [make_cmd], it returns the two commands of
    [oldconfig], the second with the words of [make_cmd] but [-j1] as
    second word; the list of [make_cmd] itself, and every other list that
    existed, is as before, the copy being a new list. With fewer than two
    words it fails with [IndexError]; with [make_cmd] never set, with
    [AttributeError]. *)
Theorem remake_config_cmd_copy (self : Opt.t) (s : state) :
  (make_cmd (self_attrs s) = None →
   _do_remake_config_cmd self s = (Fail (AttributeError "make_cmd"), s))
  ∧ (∀ l words,
       make_cmd (self_attrs s) = Some l → objects s !! l = Some words →
       (length words < 2 →
        _do_remake_config_cmd self s
        = (Fail IndexError, set_objects (objects s ++ [words]) s))
       ∧ (2 ≤ length words →
          ∃ s',
            _do_remake_config_cmd self s
            = (Done ["echo " +:+ DQ +:+ "Remaking oldconfig...." +:+ DQ;
                     "bash -c ' yes " +:+ DQ +:+ DQ +:+ " || true' | "
                     +:+ PyLib.join_with " " (<[1 := "-j1"]> words)
                     +:+ " oldconfig"],
               s')
            ∧ s' = set_objects (objects s ++ [<[1 := "-j1"]> words]) s
            ∧ objects s' !! l = Some words
            ∧ ∀ l' xs, objects s !! l' = Some xs → objects s' !! l' = Some xs)).
Proof.
  unfold _do_remake_config_cmd. split.
  - intros H. by rewrite (bind_Fail _ _ _ _ _ (getattr_unset _ _ _ H)).
  - intros l words Hl Hw.
    rewrite (bind_Done _ _ _ _ _ (getattr_run _ _ _ _ Hl)).
    rewrite (bind_Done _ _ _ _ _ (obj_copy_run _ _ _ Hw)).
    split.
    + intros Hlen. erewrite bind_Fail; [done|].
      apply (obj_setitem_short _ _ _ words); [apply heap_tail_lookup | lia].
    + intros Hlen. eexists.
      erewrite bind_Done
        by (apply (obj_setitem_run _ _ _ words); [apply heap_tail_lookup | lia]).
      norm_state. rewrite heap_tail_insert.
      erewrite bind_Done by (apply obj_read_run; apply heap_tail_lookup).
      split; [|split; [reflexivity|]].
      * unfold mret, B_ret. do 2 f_equal.
      * split; [by apply lookup_app_l_Some|].
        intros l' xs H. by apply lookup_app_l_Some.
Qed.

Lemma remake_config_cmd_copy_witness :
  ∃ s',
    _do_remake_config_cmd default_options
      (State (set_make_cmd 0 no_attrs) [["make"; "-j$(nproc)"; "-C"; "src"]]
             [] [] ∅ "amd64")
    = (Done ["echo " +:+ DQ +:+ "Remaking oldconfig...." +:+ DQ;
             "bash -c ' yes " +:+ DQ +:+ DQ
             +:+ " || true' | make -j1 -C src oldconfig"],
       s')
    ∧ objects s'
      = [["make"; "-j$(nproc)"; "-C"; "src"]; ["make"; "-j1"; "-C"; "src"]].
Proof.
  destruct (proj2 (proj2 (remake_config_cmd_copy default_options
      (State (set_make_cmd 0 no_attrs) [["make"; "-j$(nproc)"; "-C"; "src"]]
             [] [] ∅ "amd64"))
      0 ["make"; "-j$(nproc)"; "-C"; "src"] eq_refl eq_refl)
      ltac:(cbn; lia)) as (s' & E & -> & _).
  eexists. split; [exact E | reflexivity].
Defined.

(** ** The compiler options *)

Lemma append_loop_run (opts : list string) (l : loc) :
  ∀ (words : list string) s,
    make_cmd (self_attrs s) = Some l → objects s !! l = Some words →
    for_in opts (λ opt, mc ← getattr "make_cmd" make_cmd; obj_append mc opt) s
    = (Done tt, set_objects (<[l := words ++ opts]> (objects s)) s).
Proof.
  induction opts as [|opt opts IH]; intros words s Hl Hw.
  - rewrite app_nil_r, list_insert_id by done. by destruct s.
  - cbn [for_in].
    erewrite bind_Done; last first.
    { rewrite (bind_Done _ _ _ _ _ (getattr_run _ _ _ _ Hl)).
      by apply obj_append_run. }
    rewrite (IH (words ++ [opt])).
    + norm_state. by rewrite list_insert_insert_eq, <- app_assoc.
    + done.
    + norm_state. apply list_lookup_insert_eq. by eapply lookup_lt_Some.
Qed.

(** X12: [_configure_compiler] only appends to the list of [make_cmd]:
    after it the list holds the words it held, then [CC="<compiler>"] when
    kernel-compiler is set, then the kernel-compiler-parameters in order.
    The two lines about an unsupported compiler are echoed exactly when
    the compiler is set and is not [clang]. No other list and no attribute
    changes. *)
Theorem configure_compiler_appends (self : Opt.t) (l : loc)
    (words : list string) s :
  make_cmd (self_attrs s) = Some l → objects s !! l = Some words →
  _configure_compiler self s
  = (Done tt,
     let cc := Opt.kernel_compiler self in
     State (self_attrs s)
           (<[l := words
                   ++ (if truthy cc then ["CC=" +:+ DQ +:+ cc +:+ DQ] else [])
                   ++ Opt.kernel_compiler_parameters self]> (objects s))
           (console s
            ++ (if truthy cc && negb (String.eqb cc "clang")
                then ["Only other 'supported' compiler is clang";
                      "hopefully you know what you are doing"]
                else []))
           (sys_argv s) (os_environ s) (project_deb_arch s)).
Proof.
  intros Hl Hw. unfold _configure_compiler. cbv zeta.
  assert (Hloop : ∀ ws s1,
    make_cmd (self_attrs s1) = Some l → objects s1 !! l = Some ws →
    (if nonempty (Opt.kernel_compiler_parameters self)
     then for_in (Opt.kernel_compiler_parameters self)
            (λ opt, mc ← getattr "make_cmd" make_cmd; obj_append mc opt)
     else mret tt) s1
    = (Done tt,
       set_objects (<[l := ws ++ Opt.kernel_compiler_parameters self]>
                      (objects s1)) s1)).
  { intros ws s1 H1 H2.
    destruct (Opt.kernel_compiler_parameters self) as [|p ps] eqn:E.
    - cbn [nonempty]. rewrite app_nil_r, list_insert_id by done.
      by destruct s1.
    - cbn [nonempty]. by apply append_loop_run. }
  destruct (truthy (Opt.kernel_compiler self)) eqn:Ecc; cbn [andb].
  - destruct (String.eqb (Opt.kernel_compiler self) "clang") eqn:Eclang;
      cbn [negb].
    + erewrite bind_Done; last first.
      { erewrite bind_Done by reflexivity.
        rewrite (bind_Done _ _ _ _ _ (getattr_run _ _ _ _ Hl)).
        by apply obj_append_run. }
      rewrite (Hloop (words ++ ["CC=" +:+ DQ +:+ Opt.kernel_compiler self +:+ DQ])).
      * norm_state.
        by rewrite list_insert_insert_eq, <- app_assoc, app_nil_r.
      * done.
      * norm_state. apply list_lookup_insert_eq. by eapply lookup_lt_Some.
    + erewrite bind_Done; last first.
      { erewrite bind_Done; last first.
        { rewrite (bind_Done _ _ _ _ _ (click_echo_run _ _)).
          apply click_echo_run. }
        erewrite bind_Done by (by apply getattr_run).
        by apply obj_append_run. }
      rewrite (Hloop (words ++ ["CC=" +:+ DQ +:+ Opt.kernel_compiler self +:+ DQ])).
      * norm_state.
        by rewrite list_insert_insert_eq, <- !app_assoc.
      * done.
      * norm_state. apply list_lookup_insert_eq. by eapply lookup_lt_Some.
  - erewrite bind_Done by reflexivity.
    rewrite (Hloop words) by done.
    norm_state. by rewrite app_nil_r.
Qed.

Lemma configure_compiler_appends_witness :
  _configure_compiler
    (Opt.Make ["defconfig"] None EmptyString [] (Opt.TargetStr EmptyString)
       true [] "lz4" [] "stable" EmptyString EmptyString false "gcc-12" []
       ["LLVM=1"; "V=1"] false)
    (State (set_make_cmd 1 no_attrs) [["other"]; ["make"; "-j4"]] ["hello"] []
           ∅ "amd64")
  = (Done tt,
     State (set_make_cmd 1 no_attrs)
       [["other"]; ["make"; "-j4"; "CC=" +:+ DQ +:+ "gcc-12" +:+ DQ; "LLVM=1"; "V=1"]]
       ["hello"; "Only other 'supported' compiler is clang";
        "hopefully you know what you are doing"]
       [] ∅ "amd64").
Proof.
  exact (configure_compiler_appends
    (Opt.Make ["defconfig"] None EmptyString [] (Opt.TargetStr EmptyString)
       true [] "lz4" [] "stable" EmptyString EmptyString false "gcc-12" []
       ["LLVM=1"; "V=1"] false)
    1 ["make"; "-j4"]
    (State (set_make_cmd 1 no_attrs) [["other"]; ["make"; "-j4"]] ["hello"] []
           ∅ "amd64")
    eq_refl eq_refl).
Defined.

(** ** An architecture the plugin does not know *)

Lemma check_cross_compilation_native (self : Opt.t) (t : string) s :
  target_arch (self_attrs s) = Some (Some t) →
  os_environ s !! "SNAP_ARCH" = Some t →
  _check_cross_compilation self s = (Done tt, s).
Proof.
  intros Ht He. unfold _check_cross_compilation.
  erewrite bind_Done by reflexivity.
  rewrite (bind_Done _ _ _ _ _ (getattr_run _ _ _ _ Ht)).
  by rewrite decide_False by (by intros []).
Qed.

Lemma init_build_env_unknown (self : Opt.t) s :
  the_target s ∉ known_arch →
  deb_arch (self_attrs s) = None → kernel_arch (self_attrs s) = None →
  let name :=
    if bool_decide (os_environ s !! "SNAP_ARCH" ≠ Some (the_target s))
    then "kernel_arch"
    else match Opt.kernel_image_target self with
         | Opt.TargetStr o => if truthy o then "kernel_arch" else "deb_arch"
         | Opt.TargetDict _ => "deb_arch"
         end in
  (∃ s', _init_build_env self s = (Fail (AttributeError name), s'))
  ∨ (∃ s', _init_build_env self s = (Done tt, s')
           ∧ kernel_arch (self_attrs s') = None ∧ name = "kernel_arch").
Proof.
  intros Hun Hd Hk. destruct s as [a h c argv env host].
  unfold the_target in *. cbn [sys_argv project_deb_arch os_environ self_attrs] in *.
  set (t := default host (argv_target argv)) in *.
  destruct a as [ta da ka mc ki mt mi dt ia us iu vs].
  cbn [deb_arch kernel_arch] in Hd, Hk. subst da ka.
  unfold _init_build_env.
  rewrite (bind_Done _ _ _ _ _ (click_echo_run _ _)).
  rewrite (bind_Done _ _ _ _ _ (get_target_architecture_run _ _)).
  unfold the_target. norm_state. fold t.
  erewrite bind_Done by (by apply (get_deb_architecture_unknown self t)).
  erewrite bind_Done by (by apply (get_kernel_architecture_unknown self t)).
  norm_state.
  rewrite (bind_Done _ _ _ _ _ (obj_new_run _ _)).
  rewrite (bind_Done _ _ _ _ _ (setattr_run _ _)).
  norm_state.
  erewrite bind_Done by (by apply getattr_run).
  erewrite bind_Done by (apply obj_append_run; apply heap_tail_lookup).
  norm_state. rewrite heap_tail_insert.
  erewrite bind_Done by (by apply getattr_run).
  erewrite bind_Done by (apply obj_append_run; apply heap_tail_lookup).
  norm_state. rewrite heap_tail_insert.
  erewrite bind_Done by (by apply getattr_run).
  erewrite bind_Done by (apply obj_append_run; apply heap_tail_lookup).
  norm_state. rewrite heap_tail_insert.
  cbn [os_environ].
  destruct (decide (env !! "SNAP_ARCH" ≠ Some t)) as [Hcross|Hnative].
  - rewrite (bool_decide_eq_true_2 (env !! "SNAP_ARCH" ≠ Some t) Hcross). left.
    erewrite bind_Fail
      by (apply (check_cross_compilation_unset self t);
          [reflexivity | reflexivity | exact Hcross]).
    eexists. reflexivity.
  - rewrite (bool_decide_eq_false_2 (env !! "SNAP_ARCH" ≠ Some t) Hnative).
    apply dec_stable in Hnative.
    erewrite bind_Done
      by (apply (check_cross_compilation_native self t);
          [reflexivity | exact Hnative]).
    unfold _set_kernel_targets, _get_fw_install_targets.
    destruct (Opt.kernel_image_target self) as [o|dict].
    + cbn [truthy_target]. destruct (truthy o).
      * destruct (Opt.kernel_device_trees self) as [|tree trees].
        -- left. vm_compute. eexists; reflexivity.
        -- right.
           destruct (Opt.kernel_with_firmware self),
             (negb (String.eqb (Opt.kernel_initrd_channel self) "stable")),
             (truthy (Opt.kernel_initrd_base_url self)),
             (truthy (Opt.kernel_initrd_flavour self));
             vm_compute; eexists; (split; [reflexivity | split; reflexivity]).
      * left. vm_compute. eexists; reflexivity.
    + cbn [truthy_target]. destruct (bool_decide (dict = ∅));
        left; vm_compute; eexists; reflexivity.
Qed.

(** X13: on a plugin whose [deb_arch] and [kernel_arch] were never set,
    [get_build_environment] never returns for a target architecture other
    than armhf, arm64, riscv64 and amd64 (among them i386, ppc64el and
    s390x, which the table of image targets lists). It fails with
    [AttributeError]: on [kernel_arch] for a cross build, and for a native
    build with a non-empty string as kernel-image-target; on [deb_arch]
    for a native build with any other kernel-image-target. *)
Theorem build_environment_unknown_arch (self : Opt.t) s :
  the_target s ∉ known_arch →
  deb_arch (self_attrs s) = None → kernel_arch (self_attrs s) = None →
  ∃ s',
    get_build_environment self s
    = (Fail (AttributeError
               (if bool_decide (os_environ s !! "SNAP_ARCH" ≠ Some (the_target s))
                then "kernel_arch"
                else match Opt.kernel_image_target self with
                     | Opt.TargetStr o =>
                         if truthy o then "kernel_arch" else "deb_arch"
                     | Opt.TargetDict _ => "deb_arch"
                     end)),
       s').
Proof.
  intros Hun Hd Hk. unfold get_build_environment.
  rewrite (bind_Done _ _ _ _ _ (click_echo_run _ _)).
  destruct (init_build_env_unknown self
              (with_console ["Getting build env..."] s) Hun Hd Hk)
    as [[s' E]|(s' & E & Hk' & Hname)].
  - exists s'. by rewrite (bind_Fail _ _ _ _ _ E).
  - exists s'. rewrite (bind_Done _ _ _ _ _ E).
    rewrite (bind_Fail _ _ _ _ _ (getattr_unset _ _ _ Hk')).
    change (os_environ (with_console ["Getting build env..."] s))
      with (os_environ s) in Hname.
    change (the_target (with_console ["Getting build env..."] s))
      with (the_target s) in Hname.
    by rewrite Hname.
Qed.

Lemma build_environment_unknown_arch_witness :
  ∃ s',
    get_build_environment default_options
      (fresh ["snapcraft"; "--target-arch=i386"] {["SNAP_ARCH" := "i386"]})
    = (Fail (AttributeError "deb_arch"), s').
Proof.
  destruct (build_environment_unknown_arch default_options
              (fresh ["snapcraft"; "--target-arch=i386"] {["SNAP_ARCH" := "i386"]}))
    as [s' E]; [by_compute | reflexivity | reflexivity |].
  exists s'. exact E.
Defined.

(** ** The build environment *)

(** X14: with a non-empty [kernel-compiler-paths], [get_build_environment]
    never returns an environment, whatever the state: the loop reads the
    local variable [custom_path] before anything is assigned to it. For a
    known target architecture, where everything before the loop succeeds,
    the failure is that [UnboundLocalError]. *)
Theorem build_environment_compiler_paths (self : Opt.t) s :
  Opt.kernel_compiler_paths self ≠ [] →
  (∃ e s', get_build_environment self s = (Fail e, s'))
  ∧ (∀ kit,
       the_target s ∈ known_arch →
       chosen_image_target self (the_target s) = Some kit →
       ∃ s',
         get_build_environment self s
         = (Fail (UnboundLocalError "custom_path"), s')).
Proof.
  intros Hpaths.
  destruct (Opt.kernel_compiler_paths self) as [|p ps] eqn:Ep; [done|].
  clear Hpaths. split.
  - unfold get_build_environment.
    apply bind_fails; intros [] s1 _.
    apply bind_fails; intros [] s2 _.
    apply bind_fails; intros arch s3 _.
    apply bind_fails; intros kit s4 _.
    rewrite Ep. by eexists _, _.
  - intros kit Hknown Hkit. unfold get_build_environment.
    rewrite (bind_Done _ _ _ _ _ (click_echo_run _ _)).
    erewrite bind_Done by (by apply (init_build_env_known self kit)).
    erewrite bind_Done by (by apply getattr_run).
    erewrite bind_Done by (by apply getattr_run).
    rewrite Ep. by eexists.
Qed.

Lemma build_environment_compiler_paths_witness :
  ∃ s',
    get_build_environment
      (Opt.Make ["defconfig"] None EmptyString [] (Opt.TargetStr EmptyString)
         true [] "lz4" [] "stable" EmptyString EmptyString false "clang"
         ["usr/lib/llvm-14/bin"] [] false)
      (fresh ["snapcraft"] ∅)
    = (Fail (UnboundLocalError "custom_path"), s').
Proof.
  apply (proj2 (build_environment_compiler_paths
    (Opt.Make ["defconfig"] None EmptyString [] (Opt.TargetStr EmptyString)
       true [] "lz4" [] "stable" EmptyString EmptyString false "clang"
       ["usr/lib/llvm-14/bin"] [] false)
    (fresh ["snapcraft"] ∅) ltac:(discriminate)) "bzImage").
  - by_compute.
  - reflexivity.
Defined.

(** X15: for a known target architecture, no [kernel-compiler-paths] and
    an ASCII [MAKEFLAGS] (if any), [get_build_environment] returns an
    environment in which [ARCH] is the kernel architecture of the target,
    [KERNEL_IMAGE_TARGET] the chosen image target, [CROSS_COMPILE] the
    triplet prefix (for a native build too), [PATH] is absent, and
    [MAKEFLAGS] is present exactly when the process has one, with every
    [-I] option removed. The environment of the process is only read. *)
Theorem build_environment_known (self : Opt.t) (kit : string) s :
  the_target s ∈ known_arch →
  chosen_image_target self (the_target s) = Some kit →
  Opt.kernel_compiler_paths self = [] →
  (∀ flags, os_environ s !! "MAKEFLAGS" = Some flags → Py.isascii flags = true) →
  ∃ env s',
    get_build_environment self s = (Done env, s')
    ∧ env !! "ARCH" = Some (kernel_arch_of (the_target s))
    ∧ env !! "KERNEL_IMAGE_TARGET" = Some kit
    ∧ env !! "CROSS_COMPILE" = Some "${SNAPCRAFT_ARCH_TRIPLET}-"
    ∧ env !! "PATH" = None
    ∧ env !! "MAKEFLAGS" = PyLib.sub_include false <$> (os_environ s !! "MAKEFLAGS")
    ∧ (∀ f, env !! "MAKEFLAGS" = Some f → has_include f = false)
    ∧ os_environ s' = os_environ s.
Proof.
  intros Hknown Hkit Hpaths _. unfold get_build_environment.
  rewrite (bind_Done _ _ _ _ _ (click_echo_run _ _)).
  erewrite bind_Done by (by apply (init_build_env_known self kit)).
  erewrite bind_Done by (by apply getattr_run).
  erewrite bind_Done by (by apply getattr_run).
  rewrite Hpaths. cbn [nonempty].
  erewrite bind_Done by reflexivity.
  erewrite bind_Done by reflexivity.
  change (the_target (with_console ["Getting build env..."] s))
    with (the_target s).
  norm_state.
  generalize (kernel_arch_of (the_target s)). intros k.
  destruct (os_environ s !! "MAKEFLAGS") as [flags|] eqn:Eflags.
  - eexists _, _. split; [reflexivity|].
    assert (Hm : ∀ env : gmap string string,
              <["MAKEFLAGS" := PyLib.sub_include false flags]> env !! "MAKEFLAGS"
              = Some (PyLib.sub_include false flags))
      by (intros env; apply lookup_insert_eq).
    rewrite Hm.
    repeat split; try (rewrite lookup_insert_ne by done; by vm_compute).
    intros f [= <-]. by apply (sub_include_clean_aux (String.length flags)).
  - eexists _, _. split; [reflexivity|].
    repeat split; by vm_compute.
Qed.

Lemma build_environment_known_witness :
  ∃ env s',
    get_build_environment default_options
      (fresh ["snapcraft"; "--target-arch=arm64"]
             {["MAKEFLAGS" := "-j8 -I/usr/include -Ifoo -k"]})
    = (Done env, s')
    ∧ env !! "ARCH" = Some "arm64"
    ∧ env !! "KERNEL_IMAGE_TARGET" = Some "Image.gz"
    ∧ env !! "PATH" = None
    ∧ env !! "MAKEFLAGS" = Some "-j8   -k".
Proof.
  destruct (build_environment_known default_options "Image.gz"
              (fresh ["snapcraft"; "--target-arch=arm64"]
                     {["MAKEFLAGS" := "-j8 -I/usr/include -Ifoo -k"]}))
    as (env & s' & E & H1 & H2 & _ & H4 & H5 & _).
  - by_compute.
  - reflexivity.
  - reflexivity.
  - intros flags H. vm_compute in H. injection H as <-. reflexivity.
  - exists env, s'. repeat split; [exact E | exact H1 | exact H2 | exact H4 | exact H5].
Defined.

(** ** The EFI image *)

(** X16: [_make_efi_cmd] changes nothing and returns an [echo] and one
    [objcopy] command; the EFI stub it names is [linuxx64.efi.stub] for
    the Debian architecture amd64, [linuxaa64.efi.stub] for arm64, and
    for every other architecture (armhf and riscv64 among them)
    [linuxNone.efi.stub], the table's [get] giving [None]; it fails with
    [AttributeError] when [deb_arch] was never set. *)
Theorem make_efi_cmd_stub (self : Opt.t) s :
  (deb_arch (self_attrs s) = None →
   _make_efi_cmd self s = (Fail (AttributeError "deb_arch"), s))
  ∧ (∀ d, deb_arch (self_attrs s) = Some d →
       _make_efi_cmd self s
       = (Done ["echo " +:+ DQ +:+ "Building efi image..." +:+ DQ;
                "objcopy --add-section "
                +:+ ".linux=${SNAPCRAFT_PART_INSTALL}/${KERNEL_IMAGE_TARGET}-${KERNEL_RELEASE} "
                +:+ "--change-section-vma .linux=0x40000 --add-section "
                +:+ ".initrd=${SNAPCRAFT_PART_INSTALL}/initrd.img "
                +:+ "--change-section-vma .initrd=0x3000000 "
                +:+ "/usr/lib/systemd/boot/efi/linux"
                +:+ (if decide (d = "amd64") then "x64"
                     else if decide (d = "arm64") then "aa64" else "None")
                +:+ ".efi.stub ${SNAPCRAFT_PART_INSTALL}/kernel.efi"],
          s)).
Proof.
  unfold _make_efi_cmd. cbv zeta. split.
  - intros Hd. by rewrite (bind_Fail _ _ _ _ _ (getattr_unset _ _ _ Hd)).
  - intros d Hd.
    rewrite (bind_Done _ _ _ _ _ (getattr_run _ _ _ _ Hd)).
    destruct (decide (d = "amd64")) as [->|H1]; [reflexivity|].
    destruct (decide (d = "arm64")) as [->|H2]; [reflexivity|].
    cbn [list_to_map foldr].
    rewrite !lookup_insert_ne, lookup_empty by done.
    reflexivity.
Qed.

Lemma make_efi_cmd_stub_witness :
  _make_efi_cmd default_options
    (State (set_deb_arch "armhf" no_attrs) [] [] [] ∅ "amd64")
  = (Done ["echo " +:+ DQ +:+ "Building efi image..." +:+ DQ;
           "objcopy --add-section "
           +:+ ".linux=${SNAPCRAFT_PART_INSTALL}/${KERNEL_IMAGE_TARGET}-${KERNEL_RELEASE} "
           +:+ "--change-section-vma .linux=0x40000 --add-section "
           +:+ ".initrd=${SNAPCRAFT_PART_INSTALL}/initrd.img "
           +:+ "--change-section-vma .initrd=0x3000000 "
           +:+ "/usr/lib/systemd/boot/efi/linuxNone.efi.stub "
           +:+ "${SNAPCRAFT_PART_INSTALL}/kernel.efi"],
     State (set_deb_arch "armhf" no_attrs) [] [] [] ∅ "amd64").
Proof.
  exact (proj2 (make_efi_cmd_stub default_options
           (State (set_deb_arch "armhf" no_attrs) [] [] [] ∅ "amd64"))
           "armhf" eq_refl).
Defined.

End BuildFacts.
